(** * Game-show backend: session state machine and message handlers

    A shallow embedding of [server.js]: the [GameState] class, the
    persistence helpers [saveGameState] / [loadGameState], and the
    WebSocket message handlers, followed by the properties of the
    session model that the specification states.

    Conventions of the embedding.
    - A JavaScript [Map] is an association list in insertion order
      (module [JsMap]): [set] on a present key replaces the value in
      place, [set] on an absent key appends, [delete] removes.
      Mutating an object obtained with [get] is written as a [set] of
      the updated object under the same key.
    - [Date.now()] is an explicit argument [now]; [Math.random()] is an
      explicit list of draws; a WebSocket is a number (its identity)
      and its [readyState] is read through [isOpen].
    - Message fields have the types of the protocol: identifiers and
      names are strings, scores, rounds and timestamps are integers,
      [isManager] is its truthiness.  A field the handlers store
      without looking at it ([games], [scores]) may be missing.
    - A number is an IEEE double.  An integer-valued double is written
      as the integer it denotes ([Z]); what the handlers compute from
      such numbers is computed as the doubles compute it: sums are
      rounded to 53 significant bits and overflow to an infinity
      (type [Num]), [parseInt] goes through the decimal rendering of
      its argument, and only integers from 0 to 2^32 - 2 index an
      array.
    - The length of the string [JSON.stringify] may build and the time
      a handler may take are limits of the engine and not part of the
      model. *)

From Stdlib Require Import List String Ascii ZArith Lia Bool Arith.
From Stdlib Require Import DecimalString DecimalN.
Import ListNotations.

Local Open Scope string_scope.
Local Open Scope list_scope.
Local Open Scope Z_scope.

(* ================================================================= *)
(** ** JavaScript [Map] as an insertion-ordered association list *)

Module JsMap.
Section Ops.
Context {K V : Type}.
Variable eqb : K -> K -> bool.

Definition t := list (K * V).

Definition empty : list (K * V) := [].

Fixpoint get (k : K) (m : list (K * V)) : option V :=
  match m with
  | [] => None
  | (k', v) :: rest => if eqb k k' then Some v else get k rest
  end.

Definition has (k : K) (m : list (K * V)) : bool :=
  match get k m with Some _ => true | None => false end.

Fixpoint set (k : K) (v : V) (m : list (K * V)) : list (K * V) :=
  match m with
  | [] => [(k, v)]
  | (k', v') :: rest =>
      if eqb k k' then (k, v) :: rest else (k', v') :: set k v rest
  end.

Definition delete (k : K) (m : list (K * V)) : list (K * V) :=
  filter (fun e => negb (eqb k (fst e))) m.

Definition keys (m : list (K * V)) : list K := map fst m.
Definition values (m : list (K * V)) : list V := map snd m.
Definition entries (m : list (K * V)) : list (K * V) := m.

(** [new Map(iterable)]: the entries are [set] one after the other. *)
Definition of_entries (l : list (K * V)) : list (K * V) :=
  fold_left (fun m e => set (fst e) (snd e) m) l [].
End Ops.
End JsMap.

(* ================================================================= *)
(** ** Numbers

    The numbers the handlers compute with.  [Fin z] is the double that
    denotes the integer [z]; the two infinities are what a sum becomes
    when it overflows. *)

Inductive Num : Type :=
| Fin (z : Z)
| PosInf
| NegInf.

(** The double nearest to the positive integer [p], ties to the even
    significand, with no bound on the exponent: [p] itself when it has
    at most 53 bits, else its leading 53 bits rounded. *)
Definition round53_pos (p : Z) : Z :=
  let e := Z.log2 p - 52 in
  if e <=? 0 then p
  else
    let q := Z.shiftr p e in
    let r := p - Z.shiftl q e in
    let half := Z.shiftl 1 (e - 1) in
    if r <? half then Z.shiftl q e
    else if half <? r then Z.shiftl (q + 1) e
    else if Z.even q then Z.shiftl q e else Z.shiftl (q + 1) e.

Definition round53 (z : Z) : Z :=
  match z with
  | Z0 => 0
  | Zpos _ => round53_pos z
  | Zneg _ => - round53_pos (- z)
  end.

(** [Number.MAX_VALUE] *)
Definition maxDouble : Z := 2 ^ 1024 - 2 ^ 971.

(** The number an exact integer result becomes: rounded, and an
    infinity when the rounded value lies beyond [maxDouble]. *)
Definition ofZ (z : Z) : Num :=
  let r := round53 z in
  if maxDouble <? r then PosInf
  else if r <? - maxDouble then NegInf
  else Fin r.

(** [x + y] for a finite [y]. *)
Definition jsAdd (x : Num) (y : Z) : Num :=
  match x with
  | Fin a => ofZ (a + y)
  | PosInf => PosInf
  | NegInf => NegInf
  end.

(** The largest integer up to which every integer is a double, and up
    to which [g++] still counts. *)
Definition maxExact : Z := 2 ^ 53.

(** Number of decimal digits of a positive integer. *)
Definition digits10 (p : Z) : Z :=
  Z.of_nat (Decimal.nb_digits (N.to_uint (Z.to_N p))).

(** The shortest decimal that denotes the double [p] (a positive
    integer), as [Number.prototype.toString] chooses it: the first
    number of digits [k] for which a [k]-digit decimal next to [p]
    rounds to [p], and of two such the nearer one. *)
Fixpoint shortestDecimal (fuel : nat) (k : Z) (p : Z) : Z :=
  match fuel with
  | O => p
  | S fuel' =>
      let scale := 10 ^ (digits10 p - k) in
      let lo := (p / scale) * scale in
      let hi := lo + scale in
      let okLo := round53 lo =? p in
      let okHi := round53 hi =? p in
      if okLo && okHi then (if p - lo <=? hi - p then lo else hi)
      else if okLo then lo
      else if okHi then hi
      else shortestDecimal fuel' (k + 1) p
  end.

(** The first digit of that decimal. *)
Definition leadingDigit (p : Z) : Z :=
  let d := shortestDecimal 17 1 p in
  d / 10 ^ (digits10 d - 1).

(** [parseInt(z)] for an integer-valued number.  The argument is first
    rendered as a string.  Below 10^21 in magnitude that string is the
    decimal numeral of [z], which is read back in full.  From 10^21 on
    it is in exponent notation ([1e+21], [1.5e+21]) and reading stops
    at the first character that is not a digit: the result is the
    leading digit, with the sign. *)
Definition parseInt (z : Z) : Z :=
  if Z.abs z <? 10 ^ 21 then z
  else Z.sgn z * leadingDigit (Z.abs z).

(* ================================================================= *)
(** ** Data model *)

Definition Conn := nat.

(** An entry of [games]: [[name, roundCount]], or [None] for a [null]
    / missing entry of the array. *)
Definition GameDef := option (string * Z).

(** The [games] field of a session: the array, or [None] when the
    field is [undefined] or [null] (a [GAME_STARTED] message without
    it was stored). *)
Definition Games := option (list GameDef).

(** A JavaScript array of scores with holes: [None] is a hole (or
    [undefined] / [null]), which [reduce] skips or [s || 0] maps to 0. *)
Definition Scores := list (option Z).

Module Member.
Record t := mk { playerId : string; name : string; isManager : bool }.
Definition set_isManager (b : bool) (m : t) : t :=
  mk (playerId m) (name m) b.
End Member.

Module Team.
Record t := mk {
  name : string;
  members : list Member.t;
  totalScore : Num;
  roundScores : option Scores;   (* [None]: the field is absent *)
  manager : option string        (* [None]: [null] *)
}.
Definition set_members (ms : list Member.t) (x : t) : t :=
  mk (name x) ms (totalScore x) (roundScores x) (manager x).
Definition set_manager (p : option string) (x : t) : t :=
  mk (name x) (members x) (totalScore x) (roundScores x) p.
Definition set_scores (rs : option Scores) (tot : Num) (x : t) : t :=
  mk (name x) (members x) tot rs (manager x).
End Team.

Module PlayerData.
Record t := mk {
  name : string;
  teamName : string;
  isManager : bool;
  connection : Conn
}.
End PlayerData.

Module Buzz.
Record t := mk {
  playerId : string;
  playerName : string;
  teamName : string;
  timestamp : Z
}.
End Buzz.

Module GameState.
Record t := mk {
  gameCode : string;
  hostId : string;
  hostConnection : option Conn;
  currentGame : Z;
  currentRound : Z;
  games : Games;
  teams : list (string * Team.t);            (* Map teamName -> team *)
  players : list (string * PlayerData.t);    (* Map playerId -> data *)
  buzzedPlayers : list Buzz.t;
  scoringEnabled : bool;
  gameStarted : bool;
  gameEnded : bool;
  createdAt : Z
}.

(** [constructor(gameCode, hostId)] *)
Definition new (now : Z) (gameCode hostId : string) : t :=
  mk gameCode hostId None 1 1 (Some []) [] [] [] false false false now.

Definition set_hostConnection (c : option Conn) (g : t) : t :=
  mk (gameCode g) (hostId g) c (currentGame g) (currentRound g) (games g)
     (teams g) (players g) (buzzedPlayers g) (scoringEnabled g)
     (gameStarted g) (gameEnded g) (createdAt g).
Definition set_cursor (cg cr : Z) (g : t) : t :=
  mk (gameCode g) (hostId g) (hostConnection g) cg cr (games g)
     (teams g) (players g) (buzzedPlayers g) (scoringEnabled g)
     (gameStarted g) (gameEnded g) (createdAt g).
Definition set_games (gs : Games) (g : t) : t :=
  mk (gameCode g) (hostId g) (hostConnection g) (currentGame g)
     (currentRound g) gs (teams g) (players g) (buzzedPlayers g)
     (scoringEnabled g) (gameStarted g) (gameEnded g) (createdAt g).
Definition set_teams (ts : list (string * Team.t)) (g : t) : t :=
  mk (gameCode g) (hostId g) (hostConnection g) (currentGame g)
     (currentRound g) (games g) ts (players g) (buzzedPlayers g)
     (scoringEnabled g) (gameStarted g) (gameEnded g) (createdAt g).
Definition set_players (ps : list (string * PlayerData.t)) (g : t) : t :=
  mk (gameCode g) (hostId g) (hostConnection g) (currentGame g)
     (currentRound g) (games g) (teams g) ps (buzzedPlayers g)
     (scoringEnabled g) (gameStarted g) (gameEnded g) (createdAt g).
Definition set_buzzedPlayers (bs : list Buzz.t) (g : t) : t :=
  mk (gameCode g) (hostId g) (hostConnection g) (currentGame g)
     (currentRound g) (games g) (teams g) (players g) bs
     (scoringEnabled g) (gameStarted g) (gameEnded g) (createdAt g).
Definition set_scoringEnabled (b : bool) (g : t) : t :=
  mk (gameCode g) (hostId g) (hostConnection g) (currentGame g)
     (currentRound g) (games g) (teams g) (players g) (buzzedPlayers g)
     b (gameStarted g) (gameEnded g) (createdAt g).
Definition set_gameStarted (b : bool) (g : t) : t :=
  mk (gameCode g) (hostId g) (hostConnection g) (currentGame g)
     (currentRound g) (games g) (teams g) (players g) (buzzedPlayers g)
     (scoringEnabled g) b (gameEnded g) (createdAt g).
Definition set_gameEnded (b : bool) (g : t) : t :=
  mk (gameCode g) (hostId g) (hostConnection g) (currentGame g)
     (currentRound g) (games g) (teams g) (players g) (buzzedPlayers g)
     (scoringEnabled g) (gameStarted g) b (createdAt g).
Definition set_createdAt (c : Z) (g : t) : t :=
  mk (gameCode g) (hostId g) (hostConnection g) (currentGame g)
     (currentRound g) (games g) (teams g) (players g) (buzzedPlayers g)
     (scoringEnabled g) (gameStarted g) (gameEnded g) c.
End GameState.

(* ================================================================= *)
(** ** Methods of [class GameState] *)

(** [!team.manager]: [null] and the empty string are falsy. *)
Definition manager_falsy (m : option string) : bool :=
  match m with
  | None => true
  | Some s => String.eqb s ""
  end.

(** [team.manager === playerId] *)
Definition manager_is (m : option string) (playerId : string) : bool :=
  match m with
  | None => false
  | Some s => String.eqb s playerId
  end.

(** The team object [addPlayer] creates when the name is new. *)
Definition newTeam (teamName : string) : Team.t :=
  Team.mk teamName [] (Fin 0) (Some []) None.

(** [team.members.forEach(member => member.isManager = member.playerId === playerId)] *)
Definition markManager (playerId : string) (ms : list Member.t)
  : list Member.t :=
  map (fun m => Member.set_isManager
                  (String.eqb (Member.playerId m) playerId) m) ms.

(** The part of [addPlayer] that works on the team object: push the
    member unless already present, then (re)assign the manager. *)
Definition addToTeam (playerId : string) (playerData : PlayerData.t)
    (team : Team.t) : Team.t :=
  let members1 :=
    match find (fun m => String.eqb (Member.playerId m) playerId)
               (Team.members team) with
    | Some _ => Team.members team
    | None =>
        Team.members team ++
        [Member.mk playerId (PlayerData.name playerData)
           (PlayerData.isManager playerData
            || Nat.eqb (List.length (Team.members team)) 0)]
    end in
  let team1 := Team.set_members members1 team in
  if PlayerData.isManager playerData || manager_falsy (Team.manager team1)
  then Team.set_members (markManager playerId members1)
         (Team.set_manager (Some playerId) team1)
  else team1.

(** [addPlayer(playerId, playerData)].  The team is the one stored under
    [playerData.teamName], or the fresh team that the method stores
    there first; storing the updated team back replaces it in place in
    the first case and appends it in the second. *)
Definition addPlayer (playerId : string) (playerData : PlayerData.t)
    (this : GameState.t) : GameState.t :=
  let players' :=
    JsMap.set String.eqb playerId playerData (GameState.players this) in
  let teamName := PlayerData.teamName playerData in
  let team :=
    match JsMap.get String.eqb teamName (GameState.teams this) with
    | Some team => team
    | None => newTeam teamName
    end in
  GameState.set_teams
    (JsMap.set String.eqb teamName (addToTeam playerId playerData team)
       (GameState.teams this))
    (GameState.set_players players' this).

(** The part of [removePlayer] that works on the team object: filter
    the member out and, if the manager left and members remain, promote
    [members[0]]. *)
Definition removeFromTeam (playerId : string) (team : Team.t) : Team.t :=
  let members1 :=
    filter (fun m => negb (String.eqb (Member.playerId m) playerId))
           (Team.members team) in
  let team1 := Team.set_members members1 team in
  if manager_is (Team.manager team1) playerId
     && Nat.ltb 0 (List.length members1)
  then
    match members1 with
    | m0 :: rest =>
        Team.set_members (Member.set_isManager true m0 :: rest)
          (Team.set_manager (Some (Member.playerId m0)) team1)
    | [] => team1
    end
  else team1.

(** [removePlayer(playerId)] *)
Definition removePlayer (playerId : string) (this : GameState.t)
  : GameState.t :=
  let teams' :=
    match JsMap.get String.eqb playerId (GameState.players this) with
    | Some player =>
        let teamName := PlayerData.teamName player in
        match JsMap.get String.eqb teamName (GameState.teams this) with
        | Some team =>
            let team' := removeFromTeam playerId team in
            if Nat.eqb (List.length (Team.members team')) 0
            then JsMap.delete String.eqb teamName (GameState.teams this)
            else JsMap.set String.eqb teamName team' (GameState.teams this)
        | None => GameState.teams this
        end
    | None => GameState.teams this
    end in
  GameState.set_buzzedPlayers
    (filter (fun b => negb (String.eqb (Buzz.playerId b) playerId))
            (GameState.buzzedPlayers this))
    (GameState.set_players
       (JsMap.delete String.eqb playerId (GameState.players this))
       (GameState.set_teams teams' this)).

(** The test of [handleBuzz]: some buzzed player is still known and is
    currently on the team [teamName]. *)
Definition teamHasBuzzed (teamName : string) (this : GameState.t) : bool :=
  existsb
    (fun b =>
       match JsMap.get String.eqb (Buzz.playerId b) (GameState.players this)
       with
       | Some buzzedPlayer =>
           String.eqb (PlayerData.teamName buzzedPlayer) teamName
       | None => false
       end)
    (GameState.buzzedPlayers this).

(** [handleBuzz(playerId)], with the returned boolean. *)
Definition handleBuzz (now : Z) (playerId : string) (this : GameState.t)
  : GameState.t * bool :=
  match JsMap.get String.eqb playerId (GameState.players this) with
  | None => (this, false)
  | Some player =>
      if negb (GameState.gameStarted this) then (this, false)
      else if teamHasBuzzed (PlayerData.teamName player) this
      then (this, false)
      else
        let buzzData :=
          Buzz.mk playerId (PlayerData.name player)
                  (PlayerData.teamName player) now in
        (GameState.set_buzzedPlayers
           (GameState.buzzedPlayers this ++ [buzzData]) this, true)
  end.

(** One element of [getTeamsData()]: the team without its manager field. *)
Module TeamData.
Record t := mk {
  name : string;
  members : list Member.t;
  totalScore : Num;
  roundScores : option Scores
}.
End TeamData.

Definition getTeamsData (this : GameState.t) : list TeamData.t :=
  map (fun team =>
         TeamData.mk (Team.name team) (Team.members team)
           (Team.totalScore team) (Team.roundScores team))
      (JsMap.values (GameState.teams this)).

(* ================================================================= *)
(** ** Persistence helpers *)

(** The document written under [games/<gameCode>].  A list field is
    [None] when the document comes without it (the store did not keep
    it, or the session had none to write), which [loadGameState]
    answers with [|| []]. *)
Module Persisted.
Record t := mk {
  gameCode : string;
  hostId : string;
  currentGame : Z;
  currentRound : Z;
  games : option (list GameDef);
  teams : option (list Team.t);
  players : option (list (string * PlayerData.t));
  buzzedPlayers : option (list Buzz.t);
  scoringEnabled : bool;
  gameStarted : bool;
  gameEnded : bool;
  createdAt : Z;
  expiresAt : option Z
}.
End Persisted.

Definition fourHours : Z := 4 * 60 * 60 * 1000.

(** [saveGameState]: the [plainState] handed to [db.ref(...).set]. *)
Definition saveGameState (now : Z) (gameState : GameState.t) : Persisted.t :=
  Persisted.mk
    (GameState.gameCode gameState)
    (GameState.hostId gameState)
    (GameState.currentGame gameState)
    (GameState.currentRound gameState)
    (GameState.games gameState)
    (Some (JsMap.values (GameState.teams gameState)))
    (Some (JsMap.entries (GameState.players gameState)))
    (Some (GameState.buzzedPlayers gameState))
    (GameState.scoringEnabled gameState)
    (GameState.gameStarted gameState)
    (GameState.gameEnded gameState)
    (GameState.createdAt gameState)
    (Some (now + fourHours)).

(** [data.expiresAt && Date.now() > data.expiresAt] *)
Definition expired (now : Z) (expiresAt : option Z) : bool :=
  match expiresAt with
  | None => false
  | Some e => negb (e =? 0) && (e <? now)
  end.

Definition orEmpty {A : Type} (o : option (list A)) : list A :=
  match o with Some l => l | None => [] end.

(** [loadGameState], given the snapshot read from the store ([None]
    when [snapshot.exists()] is false). *)
Definition loadGameState (now : Z) (snapshot : option Persisted.t)
  : option GameState.t :=
  match snapshot with
  | None => None
  | Some data =>
      if expired now (Persisted.expiresAt data) then None
      else
        let restored :=
          GameState.new now (Persisted.gameCode data) (Persisted.hostId data)
        in
        Some
          (GameState.set_createdAt (Persisted.createdAt data)
          (GameState.set_gameEnded (Persisted.gameEnded data)
          (GameState.set_gameStarted (Persisted.gameStarted data)
          (GameState.set_scoringEnabled (Persisted.scoringEnabled data)
          (GameState.set_buzzedPlayers
             (orEmpty (Persisted.buzzedPlayers data))
          (GameState.set_players
             (JsMap.of_entries String.eqb (orEmpty (Persisted.players data)))
          (GameState.set_teams
             (JsMap.of_entries String.eqb
                (map (fun team => (Team.name team, team))
                     (orEmpty (Persisted.teams data))))
          (GameState.set_games (Some (orEmpty (Persisted.games data)))
          (GameState.set_cursor (Persisted.currentGame data)
             (Persisted.currentRound data) restored)))))))))
  end.

(* ================================================================= *)
(** ** Score arithmetic of [handleSubmitScore] *)

(** How a piece of code ends: with a value, with a thrown [TypeError],
    or not at all. *)
Inductive Completion (A : Type) : Type :=
| Normal (a : A)
| TypeError
| Unending.
Arguments Normal {A} a.
Arguments TypeError {A}.
Arguments Unending {A}.

(** [games[i]] on an array: [undefined] past the end, else the entry. *)
Definition games_at (games : list GameDef) (i : Z) : GameDef :=
  if i <? 0 then None
  else match nth_error games (Z.to_nat i) with
       | Some e => e
       | None => None
       end.

(** [game.games[i]]: reading a property of [undefined] / [null]
    throws. *)
Definition games_index (games : Games) (i : Z) : Completion GameDef :=
  match games with
  | Some l => Normal (games_at l i)
  | None => TypeError
  end.

(** Truthiness of an entry: a pair is truthy, [null]/[undefined] not. *)
Definition entry_truthy (e : GameDef) : bool :=
  match e with Some _ => true | None => false end.

(** [e[1]]: throws on [null] / [undefined]. *)
Definition entry_rounds (e : GameDef) : Completion Z :=
  match e with
  | Some (_, rounds) => Normal rounds
  | None => TypeError
  end.

(** The body of [for (let g = 1; g < gameNum; g++)], [n] iterations
    left. *)
Fixpoint roundIndexLoop (games : Games) (g : Z) (n : nat)
    (roundIndex : Num) : Completion Num :=
  match n with
  | O => Normal roundIndex
  | S n' =>
      match games_index games (g - 1) with
      | Normal e =>
          if entry_truthy e
          then match entry_rounds e with
               | Normal rounds =>
                   roundIndexLoop games (g + 1) n'
                     (jsAdd roundIndex (parseInt rounds))
               | TypeError => TypeError
               | Unending => Unending
               end
          else roundIndexLoop games (g + 1) n' roundIndex
      | TypeError => TypeError
      | Unending => Unending
      end
  end.

(** Lines 651-658 of [handleSubmitScore]: the flattened round index.
    The counter [g] runs through 1, 2, ... and the loop ends when it
    reaches [gameNum], after [gameNum - 1] rounds of the body.  The
    counter cannot pass [maxExact], where [g++] leaves it as it is: for
    a larger [gameNum] the loop goes on until the body throws, which
    it does in its first round when there is no games array and never
    when there is one. *)
Definition computeRoundIndex (games : Games) (gameNum round : Z)
  : Completion Num :=
  if maxExact <? gameNum
  then match games with
       | None => TypeError
       | Some _ => Unending
       end
  else
    match roundIndexLoop games 1 (Z.to_nat (gameNum - 1)) (Fin 0) with
    | Normal roundIndex => Normal (jsAdd roundIndex (round53 (round - 1)))
    | TypeError => TypeError
    | Unending => Unending
    end.

(** [a[i] = v] on an array with holes, for a natural index. *)
Fixpoint array_set_nat (a : Scores) (i : nat) (v : Z) : Scores :=
  match i, a with
  | O, [] => [Some v]
  | O, _ :: rest => Some v :: rest
  | S j, [] => None :: array_set_nat [] j v
  | S j, x :: rest => x :: array_set_nat rest j v
  end.

(** The largest array index. *)
Definition maxIndex : Z := 2 ^ 32 - 2.

(** Whether the number [i] is an array index. *)
Definition isIndex (i : Num) : bool :=
  match i with
  | Fin z => (0 <=? z) && (z <=? maxIndex)
  | PosInf | NegInf => false
  end.

(** [a[i] = v].  When [i] is an array index the element is written and
    the array grows to hold it.  Any other number (negative, beyond
    [maxIndex], infinite) names an ordinary property of the array
    object: the assignment creates it, and the elements, which are all
    that [length], [reduce] and [JSON.stringify] see, stay as they
    are. *)
Definition array_set (a : Scores) (i : Num) (v : Z) : Scores :=
  match i with
  | Fin z => if isIndex i then array_set_nat a (Z.to_nat z) v else a
  | PosInf | NegInf => a
  end.

(** [s || 0] *)
Definition orZero (s : option Z) : Z :=
  match s with Some z => z | None => 0 end.

(** [roundScores.reduce((sum, s) => sum + (s || 0), 0)] *)
Definition sumScores (a : Scores) : Num :=
  fold_left (fun sum s => jsAdd sum (orZero s)) a (Fin 0).

(* ================================================================= *)
(** ** Messages, connection directory and server state *)

(** The value stored in [connections] for a socket. *)
Inductive ConnInfo : Type :=
| HostConn (gameCode hostId : string)
| PlayerConn (gameCode playerId teamName : string).

Definition conn_gameCode (c : ConnInfo) : string :=
  match c with
  | HostConn gameCode _ => gameCode
  | PlayerConn gameCode _ _ => gameCode
  end.

(** Inbound messages, by their [type] tag. *)
Module Req.
Record Join := mkJoin {
  gameCode : string;
  playerId : string;
  playerName : string;
  teamName : string;
  isManager : bool
}.

Record Submit := mkSubmit {
  s_gameCode : string;
  s_playerId : string;
  s_teamName : string;
  s_score : Z;
  s_game : Z;
  s_round : Z
}.

Inductive t : Type :=
| CREATE_GAME (gameCode : option string) (hostId : string)
| JOIN_GAME (j : Join)
| REJOIN_GAME (j : Join)
| GAME_STARTED (gameCode : string) (games : Games)
               (currentGame currentRound : Z)
| ROUND_UPDATE (gameCode : string) (currentGame currentRound : Z)
| PLAYER_BUZZ (gameCode playerId playerName teamName : string)
| CLEAR_BUZZERS (gameCode : string)
| CLEAR_PLAYER_BUZZ (gameCode playerId : string)
| ENABLE_SCORING (gameCode : string)
| SUBMIT_SCORE (s : Submit)
| MANAGER_CHANGED (gameCode teamName newManagerId : string)
| SCORE_UPDATED (gameCode teamName : string) (scores : option Scores)
                (totalScore : Z)
| REVEAL_FINAL_SCORES (gameCode standings : string)
| LEAVE_GAME (gameCode playerId : string)
| PLAYER_DISCONNECT
| GET_TEAMS (gameCode : string)
| OTHER (type : string).
End Req.

(** Outbound events, by their [type] tag. *)
Module Ev.
Inductive t : Type :=
| ERROR (message : string)
| GAME_CREATED (gameCode : string) (restored : bool)
| GAME_JOINED (gameCode : string) (gameStarted : bool)
              (currentGame currentRound : Z) (games : Games)
              (teams : list TeamData.t) (buzzedPlayers : list Buzz.t)
              (restored : bool)
| PLAYER_JOINED (playerId playerName teamName : string) (isManager : bool)
                (teams : list Team.t)
| GAME_STARTED (games : Games) (currentGame currentRound : Z)
| ROUND_UPDATE (currentGame currentRound : Z)
| BUZZ_RESPONSE (playerId : option string) (success : bool)
                (reason : string)
| PLAYER_BUZZED (playerId playerName teamName : string) (timestamp : Z)
| CLEAR_BUZZERS
| ENABLE_SCORING
| SCORE_SUBMITTED (teamName : string) (score : Z)
                  (roundIndex totalScore : Num) (roundScores : Scores)
| SCORE_CONFIRMED (score : Z) (totalScore : Num)
| MANAGER_CHANGED (teamName newManagerId : string)
| SCORE_UPDATED (roundScores : option Scores) (totalScore : Z)
| REVEAL_FINAL_SCORES (standings : string)
| PLAYER_LEFT (playerId : string) (teams : list Team.t)
| HOST_DISCONNECTED
| PLAYER_DISCONNECTED (playerId : string)
| TEAMS_LIST (teams : list (string * nat)).
End Ev.

(** One [ws.send]: the socket and the event written to it. *)
Definition Send : Type := Conn * Ev.t.

Module Server.
Record t := mk {
  games : list (string * GameState.t);       (* Map gameCode -> state *)
  connections : list (Conn * ConnInfo);      (* Map ws -> info *)
  db : list (string * Persisted.t);          (* documents [games/<code>] *)
  pendingLoads : list (Conn * Req.Join);     (* unresolved [loadGameState] *)
  cleanupTimers : list string                (* pending [setTimeout]s *)
}.

(** The process starts with empty maps; the store is taken as empty
    too (this program only ever writes sessions it has just created). *)
Definition init : t := mk [] [] [] [] [].

Definition set_games (gs : list (string * GameState.t)) (s : t) : t :=
  mk gs (connections s) (db s) (pendingLoads s) (cleanupTimers s).
Definition set_connections (cs : list (Conn * ConnInfo)) (s : t) : t :=
  mk (games s) cs (db s) (pendingLoads s) (cleanupTimers s).
Definition set_db (d : list (string * Persisted.t)) (s : t) : t :=
  mk (games s) (connections s) d (pendingLoads s) (cleanupTimers s).
Definition set_pendingLoads (p : list (Conn * Req.Join)) (s : t) : t :=
  mk (games s) (connections s) (db s) p (cleanupTimers s).
Definition set_cleanupTimers (c : list string) (s : t) : t :=
  mk (games s) (connections s) (db s) (pendingLoads s) c.

(** Replace the state object stored under [gameCode]. *)
Definition put_game (gameCode : string) (g : GameState.t) (s : t) : t :=
  set_games (JsMap.set String.eqb gameCode g (games s)) s.
End Server.

(** What a handler sees of the outside world when it runs. *)
Module Env.
Record t := mk {
  now : Z;                  (* [Date.now()] *)
  isOpen : Conn -> bool;    (* [ws.readyState === WebSocket.OPEN] *)
  draws : list N            (* successive values of [Math.random()],
                               as [floor(r * 900000)] *)
}.
End Env.

(* ================================================================= *)
(** ** Utility functions *)

(** [Math.floor(100000 + Math.random() * 900000).toString()] *)
Definition generateGameCode (u : N) : string :=
  NilEmpty.string_of_uint (N.to_uint (100000 + u mod 900000)).

(** [connections.forEach] with a test on each entry, sending [message]
    to the sockets that pass. *)
Definition sendWhere (test : Conn -> ConnInfo -> bool) (message : Ev.t)
    (connections : list (Conn * ConnInfo)) : list Send :=
  map (fun e => (fst e, message))
      (filter (fun e => test (fst e) (snd e)) connections).

Definition excluded (excludeConnection : option Conn) (ws : Conn) : bool :=
  match excludeConnection with
  | Some x => Nat.eqb ws x
  | None => false
  end.

Definition broadcast (env : Env.t) (s : Server.t) (gameCode : string)
    (message : Ev.t) (excludeConnection : option Conn) : list Send :=
  match JsMap.get String.eqb gameCode (Server.games s) with
  | None => []
  | Some _ =>
      sendWhere
        (fun ws connInfo =>
           negb (excluded excludeConnection ws)
           && String.eqb (conn_gameCode connInfo) gameCode
           && Env.isOpen env ws)
        message (Server.connections s)
  end.

Definition sendToHost (env : Env.t) (s : Server.t) (gameCode : string)
    (message : Ev.t) : list Send :=
  match JsMap.get String.eqb gameCode (Server.games s) with
  | Some game =>
      match GameState.hostConnection game with
      | Some host => if Env.isOpen env host then [(host, message)] else []
      | None => []
      end
  | None => []
  end.

(** [connections.get(ws)?.type !== 'host'] is false. *)
Definition isHost (s : Server.t) (ws : Conn) : bool :=
  match JsMap.get Nat.eqb ws (Server.connections s) with
  | Some (HostConn _ _) => true
  | _ => false
  end.

(** Player sockets of [gameCode] whose directory entry names [teamName]. *)
Definition isTeamPlayer (gameCode teamName : string) (connInfo : ConnInfo)
  : bool :=
  match connInfo with
  | PlayerConn gc _ tn => String.eqb gc gameCode && String.eqb tn teamName
  | HostConn _ _ => false
  end.

(* ================================================================= *)
(** ** Message handlers

    A handler returns the new server state and the sends it performed,
    in order.  [handleJoinGame] and [handleSubmitScore] also say whether
    they threw (the caller's [catch] then reports a format error). *)

(** [message.gameCode || ...]: an absent or empty code is falsy. *)
Definition truthy_code (gameCode : option string) : option string :=
  match gameCode with
  | Some c => if String.eqb c "" then None else Some c
  | None => None
  end.

(** [while (games.has(gameCode)) gameCode = generateGameCode()]; [None]
    when the supplied draws end while the loop is still running. *)
Fixpoint uniqueCode (games : list (string * GameState.t))
    (gameCode : string) (draws : list N) : option string :=
  if JsMap.has String.eqb gameCode games
  then match draws with
       | [] => None
       | u :: rest => uniqueCode games (generateGameCode u) rest
       end
  else Some gameCode.

(** The code [handleCreateGame] settles on. *)
Definition chooseCode (games : list (string * GameState.t))
    (requested : option string) (draws : list N) : option string :=
  match truthy_code requested with
  | Some c => uniqueCode games c draws
  | None =>
      match draws with
      | [] => None
      | u :: rest => uniqueCode games (generateGameCode u) rest
      end
  end.

Definition handleCreateGame (env : Env.t) (s : Server.t) (ws : Conn)
    (requested : option string) (hostId : string)
  : option (Server.t * list Send) :=
  match chooseCode (Server.games s) requested (Env.draws env) with
  | None => None
  | Some gameCode =>
      let gameState :=
        GameState.set_hostConnection (Some ws)
          (GameState.new (Env.now env) gameCode hostId) in
      let s1 := Server.put_game gameCode gameState s in
      let s2 :=
        Server.set_db
          (JsMap.set String.eqb gameCode
             (saveGameState (Env.now env) gameState) (Server.db s1)) s1 in
      let s3 :=
        Server.set_connections
          (JsMap.set Nat.eqb ws (HostConn gameCode hostId)
             (Server.connections s2)) s2 in
      Some (s3, [(ws, Ev.GAME_CREATED gameCode false)])
  end.

(** The body shared by [finishJoin] and by the tail of [handleJoinGame],
    run on the state object resident under the message's game code. *)
Definition finishJoin (env : Env.t) (s : Server.t) (ws : Conn)
    (j : Req.Join) : Server.t * list Send :=
  let gameCode := Req.gameCode j in
  match JsMap.get String.eqb gameCode (Server.games s) with
  | None => (s, [])
  | Some game =>
      let game' :=
        addPlayer (Req.playerId j)
          (PlayerData.mk (Req.playerName j) (Req.teamName j)
             (Req.isManager j) ws) game in
      let s1 := Server.put_game gameCode game' s in
      let s2 :=
        Server.set_connections
          (JsMap.set Nat.eqb ws
             (PlayerConn gameCode (Req.playerId j) (Req.teamName j))
             (Server.connections s1)) s1 in
      (s2,
       (ws, Ev.GAME_JOINED gameCode (GameState.gameStarted game')
              (GameState.currentGame game') (GameState.currentRound game')
              (GameState.games game') (getTeamsData game')
              (GameState.buzzedPlayers game') true)
       :: sendToHost env s2 gameCode
            (Ev.PLAYER_JOINED (Req.playerId j) (Req.playerName j)
               (Req.teamName j) (Req.isManager j)
               (JsMap.values (GameState.teams game'))))
  end.

(** [handleJoinGame].  With the game resident, [finishJoin()] runs and
    the same statements run once more after it.  Otherwise the load is
    started and the statements after it throw on the undefined [game]. *)
Definition handleJoinGame (env : Env.t) (s : Server.t) (ws : Conn)
    (j : Req.Join) : Server.t * list Send * bool :=
  match JsMap.get String.eqb (Req.gameCode j) (Server.games s) with
  | None =>
      (Server.set_pendingLoads (Server.pendingLoads s ++ [(ws, j)]) s,
       [], true)
  | Some _ =>
      let '(s1, out1) := finishJoin env s ws j in
      let '(s2, out2) := finishJoin env s1 ws j in
      (s2, out1 ++ out2, false)
  end.

Definition remove_nth {A : Type} (k : nat) (l : list A) : list A :=
  firstn k l ++ skipn (S k) l.

(** The [then] callback of the [k]-th pending [loadGameState]. *)
Definition resolveLoad (env : Env.t) (s : Server.t) (k : nat)
  : Server.t * list Send :=
  match nth_error (Server.pendingLoads s) k with
  | None => (s, [])
  | Some (ws, j) =>
      let s0 :=
        Server.set_pendingLoads (remove_nth k (Server.pendingLoads s)) s in
      match loadGameState (Env.now env)
              (JsMap.get String.eqb (Req.gameCode j) (Server.db s)) with
      | None => (s0, [(ws, Ev.ERROR "Game not found")])
      | Some restored =>
          finishJoin env (Server.put_game (Req.gameCode j) restored s0) ws j
      end
  end.

(** Host-only handlers start with
    [if (!game || connections.get(ws)?.type !== 'host') return;]. *)
Definition hostGuard (s : Server.t) (ws : Conn) (gameCode : string)
  : option GameState.t :=
  match JsMap.get String.eqb gameCode (Server.games s) with
  | Some game => if isHost s ws then Some game else None
  | None => None
  end.

Definition handleGameStarted (env : Env.t) (s : Server.t) (ws : Conn)
    (gameCode : string) (games : Games) (currentGame currentRound : Z)
  : Server.t * list Send :=
  match hostGuard s ws gameCode with
  | None => (s, [])
  | Some game =>
      let game' :=
        GameState.set_cursor currentGame currentRound
          (GameState.set_games games (GameState.set_gameStarted true game)) in
      let s' := Server.put_game gameCode game' s in
      (s', broadcast env s' gameCode
             (Ev.GAME_STARTED games currentGame currentRound) (Some ws))
  end.

Definition handleRoundUpdate (env : Env.t) (s : Server.t) (ws : Conn)
    (gameCode : string) (currentGame currentRound : Z)
  : Server.t * list Send :=
  match hostGuard s ws gameCode with
  | None => (s, [])
  | Some game =>
      let game' :=
        GameState.set_scoringEnabled false
          (GameState.set_cursor currentGame currentRound game) in
      let s' := Server.put_game gameCode game' s in
      (s', broadcast env s' gameCode
             (Ev.ROUND_UPDATE currentGame currentRound) (Some ws))
  end.

(** The lock-out notices of [handlePlayerBuzz]. *)
Definition lockOutTeammates (gameCode teamName playerId : string)
    (connections : list (Conn * ConnInfo)) : list Send :=
  flat_map
    (fun e =>
       match snd e with
       | PlayerConn gc p tn =>
           if String.eqb gc gameCode && String.eqb tn teamName
              && negb (String.eqb p playerId)
           then [(fst e, Ev.BUZZ_RESPONSE (Some p) false
                           "Your teammate beat you to it!")]
           else []
       | HostConn _ _ => []
       end)
    connections.

Definition handlePlayerBuzz (env : Env.t) (s : Server.t) (ws : Conn)
    (gameCode playerId playerName teamName : string)
  : Server.t * list Send :=
  match JsMap.get String.eqb gameCode (Server.games s) with
  | None => (s, [(ws, Ev.BUZZ_RESPONSE None false "Game not found")])
  | Some game =>
      let '(game', success) := handleBuzz (Env.now env) playerId game in
      let s' := Server.put_game gameCode game' s in
      (s',
       (ws, Ev.BUZZ_RESPONSE (Some playerId) success
              (if success then "Buzzed in!"
               else "Team already buzzed or game not started"))
       :: (if success
           then sendToHost env s' gameCode
                  (Ev.PLAYER_BUZZED playerId playerName teamName
                     (Env.now env))
                ++ lockOutTeammates gameCode teamName playerId
                     (Server.connections s')
           else []))
  end.

Definition handleClearBuzzers (env : Env.t) (s : Server.t) (ws : Conn)
    (gameCode : string) : Server.t * list Send :=
  match hostGuard s ws gameCode with
  | None => (s, [])
  | Some game =>
      let s' :=
        Server.put_game gameCode (GameState.set_buzzedPlayers [] game) s in
      (s', broadcast env s' gameCode Ev.CLEAR_BUZZERS (Some ws))
  end.

(** [findIndex] on the player id followed by [splice(buzzIndex, 1)]:
    the first matching record and the list without it. *)
Fixpoint spliceBuzz (playerId : string) (bs : list Buzz.t)
  : option (Buzz.t * list Buzz.t) :=
  match bs with
  | [] => None
  | b :: rest =>
      if String.eqb (Buzz.playerId b) playerId then Some (b, rest)
      else match spliceBuzz playerId rest with
           | Some (c, rest') => Some (c, b :: rest')
           | None => None
           end
  end.

Definition handleClearPlayerBuzz (s : Server.t) (ws : Conn)
    (gameCode playerId : string) : Server.t * list Send :=
  match hostGuard s ws gameCode with
  | None => (s, [])
  | Some game =>
      match spliceBuzz playerId (GameState.buzzedPlayers game) with
      | None => (s, [])
      | Some (clearedBuzz, rest) =>
          let s' :=
            Server.put_game gameCode
              (GameState.set_buzzedPlayers rest game) s in
          (s', sendWhere
                 (fun _ connInfo =>
                    isTeamPlayer gameCode (Buzz.teamName clearedBuzz)
                      connInfo)
                 Ev.CLEAR_BUZZERS (Server.connections s'))
      end
  end.

Definition handleEnableScoring (env : Env.t) (s : Server.t) (ws : Conn)
    (gameCode : string) : Server.t * list Send :=
  match hostGuard s ws gameCode with
  | None => (s, [])
  | Some game =>
      let s' :=
        Server.put_game gameCode (GameState.set_scoringEnabled true game) s in
      (s', broadcast env s' gameCode Ev.ENABLE_SCORING (Some ws))
  end.

Definition unauthorized : Ev.t :=
  Ev.ERROR "Only team managers can submit scores".

(** [handleSubmitScore].  [None] when the loop over the games does not
    end: the handler never returns.  The boolean says whether it
    threw. *)
Definition handleSubmitScore (env : Env.t) (s : Server.t) (ws : Conn)
    (m : Req.Submit) : option (Server.t * list Send * bool) :=
  let gameCode := Req.s_gameCode m in
  let playerId := Req.s_playerId m in
  let teamName := Req.s_teamName m in
  let score := Req.s_score m in
  match JsMap.get String.eqb gameCode (Server.games s) with
  | None => Some (s, [], false)
  | Some game =>
      match JsMap.get String.eqb teamName (GameState.teams game) with
      | None => Some (s, [], false)
      | Some team =>
          (* Verify player is team manager *)
          if negb (JsMap.has String.eqb playerId (GameState.players game))
             || negb (manager_is (Team.manager team) playerId)
          then Some (s, [(ws, unauthorized)], false)
          else
            match computeRoundIndex (GameState.games game)
                    (Req.s_game m) (Req.s_round m) with
            | Unending => None
            | TypeError => Some (s, [], true)
            | Normal roundIndex =>
                let roundScores :=
                  array_set (orEmpty (Team.roundScores team))
                            roundIndex score in
                let totalScore := sumScores roundScores in
                let team' :=
                  Team.set_scores (Some roundScores) totalScore team in
                let game' :=
                  GameState.set_teams
                    (JsMap.set String.eqb teamName team'
                       (GameState.teams game)) game in
                let s' := Server.put_game gameCode game' s in
                Some
                  (s',
                   sendToHost env s' gameCode
                     (Ev.SCORE_SUBMITTED teamName score roundIndex totalScore
                        roundScores)
                   ++ [(ws, Ev.SCORE_CONFIRMED score totalScore)],
                   false)
            end
      end
  end.

Definition handleManagerChanged (env : Env.t) (s : Server.t) (ws : Conn)
    (gameCode teamName newManagerId : string) : Server.t * list Send :=
  match hostGuard s ws gameCode with
  | None => (s, [])
  | Some game =>
      match JsMap.get String.eqb teamName (GameState.teams game) with
      | None => (s, [])
      | Some team =>
          let team' :=
            Team.set_members (markManager newManagerId (Team.members team))
              (Team.set_manager (Some newManagerId) team) in
          let game' :=
            GameState.set_teams
              (JsMap.set String.eqb teamName team' (GameState.teams game))
              game in
          let s' := Server.put_game gameCode game' s in
          (s', broadcast env s' gameCode
                 (Ev.MANAGER_CHANGED teamName newManagerId) (Some ws))
      end
  end.

Definition handleScoreUpdated (s : Server.t) (ws : Conn)
    (gameCode teamName : string) (scores : option Scores) (totalScore : Z)
  : Server.t * list Send :=
  match hostGuard s ws gameCode with
  | None => (s, [])
  | Some game =>
      match JsMap.get String.eqb teamName (GameState.teams game) with
      | None => (s, [])
      | Some team =>
          let team' := Team.set_scores scores (Fin totalScore) team in
          let game' :=
            GameState.set_teams
              (JsMap.set String.eqb teamName team' (GameState.teams game))
              game in
          let s' := Server.put_game gameCode game' s in
          (s', sendWhere
                 (fun _ connInfo => isTeamPlayer gameCode teamName connInfo)
                 (Ev.SCORE_UPDATED scores totalScore)
                 (Server.connections s'))
      end
  end.

Definition handleRevealFinalScores (env : Env.t) (s : Server.t) (ws : Conn)
    (gameCode standings : string) : Server.t * list Send :=
  match hostGuard s ws gameCode with
  | None => (s, [])
  | Some game =>
      let s' :=
        Server.put_game gameCode (GameState.set_gameEnded true game) s in
      (s', broadcast env s' gameCode (Ev.REVEAL_FINAL_SCORES standings)
             (Some ws))
  end.

Definition handleLeaveGame (env : Env.t) (s : Server.t) (ws : Conn)
    (gameCode playerId : string) : Server.t * list Send :=
  match JsMap.get Nat.eqb ws (Server.connections s) with
  | None => (s, [])
  | Some _ =>
      let '(s1, out) :=
        match JsMap.get String.eqb gameCode (Server.games s) with
        | Some game =>
            let game' := removePlayer playerId game in
            let s1 := Server.put_game gameCode game' s in
            (s1, sendToHost env s1 gameCode
                   (Ev.PLAYER_LEFT playerId
                      (JsMap.values (GameState.teams game'))))
        | None => (s, [])
        end in
      (Server.set_connections
         (JsMap.delete Nat.eqb ws (Server.connections s1)) s1, out)
  end.

(** [handleDisconnection]: a host leaving schedules the removal of its
    game; a player leaving loses its pending buzz but stays on its team. *)
Definition handleDisconnection (env : Env.t) (s : Server.t) (ws : Conn)
  : Server.t * list Send :=
  match JsMap.get Nat.eqb ws (Server.connections s) with
  | None => (s, [])
  | Some connInfo =>
      match JsMap.get String.eqb (conn_gameCode connInfo) (Server.games s)
      with
      | None => (s, [])
      | Some game =>
          let '(s1, out) :=
            match connInfo with
            | HostConn gameCode _ =>
                (Server.set_cleanupTimers
                   (Server.cleanupTimers s ++ [gameCode]) s,
                 broadcast env s gameCode Ev.HOST_DISCONNECTED None)
            | PlayerConn gameCode playerId _ =>
                let game' :=
                  GameState.set_buzzedPlayers
                    (filter
                       (fun b =>
                          negb (String.eqb (Buzz.playerId b) playerId))
                       (GameState.buzzedPlayers game)) game in
                let s1 := Server.put_game gameCode game' s in
                (s1, sendToHost env s1 gameCode
                       (Ev.PLAYER_DISCONNECTED playerId))
            end in
          (Server.set_connections
             (JsMap.delete Nat.eqb ws (Server.connections s1)) s1, out)
      end
  end.

Definition handleGetTeams (s : Server.t) (ws : Conn) (gameCode : string)
  : Server.t * list Send :=
  match JsMap.get String.eqb gameCode (Server.games s) with
  | None => (s, [(ws, Ev.ERROR "Game not found")])
  | Some game =>
      (s, [(ws, Ev.TEAMS_LIST
                  (map (fun team =>
                          (Team.name team, List.length (Team.members team)))
                       (JsMap.values (GameState.teams game))))])
  end.

Definition noThrow (r : Server.t * list Send) : Server.t * list Send * bool :=
  (fst r, snd r, false).

(** [handleMessage]: dispatch on the type tag.  [None] when the
    handler does not return: [CREATE_GAME] runs out of draws, or the
    loop of [handleSubmitScore] does not end. *)
Definition handleMessage (env : Env.t) (s : Server.t) (ws : Conn)
    (message : Req.t) : option (Server.t * list Send * bool) :=
  match message with
  | Req.CREATE_GAME gameCode hostId =>
      option_map noThrow (handleCreateGame env s ws gameCode hostId)
  | Req.JOIN_GAME j => Some (handleJoinGame env s ws j)
  | Req.REJOIN_GAME j => Some (handleJoinGame env s ws j)
  | Req.GAME_STARTED gameCode games currentGame currentRound =>
      Some (noThrow (handleGameStarted env s ws gameCode games
                       currentGame currentRound))
  | Req.ROUND_UPDATE gameCode currentGame currentRound =>
      Some (noThrow (handleRoundUpdate env s ws gameCode
                       currentGame currentRound))
  | Req.PLAYER_BUZZ gameCode playerId playerName teamName =>
      Some (noThrow (handlePlayerBuzz env s ws gameCode playerId
                       playerName teamName))
  | Req.CLEAR_BUZZERS gameCode =>
      Some (noThrow (handleClearBuzzers env s ws gameCode))
  | Req.CLEAR_PLAYER_BUZZ gameCode playerId =>
      Some (noThrow (handleClearPlayerBuzz s ws gameCode playerId))
  | Req.ENABLE_SCORING gameCode =>
      Some (noThrow (handleEnableScoring env s ws gameCode))
  | Req.SUBMIT_SCORE m => handleSubmitScore env s ws m
  | Req.MANAGER_CHANGED gameCode teamName newManagerId =>
      Some (noThrow (handleManagerChanged env s ws gameCode teamName
                       newManagerId))
  | Req.SCORE_UPDATED gameCode teamName scores totalScore =>
      Some (noThrow (handleScoreUpdated s ws gameCode teamName scores
                       totalScore))
  | Req.REVEAL_FINAL_SCORES gameCode standings =>
      Some (noThrow (handleRevealFinalScores env s ws gameCode standings))
  | Req.LEAVE_GAME gameCode playerId =>
      Some (noThrow (handleLeaveGame env s ws gameCode playerId))
  | Req.PLAYER_DISCONNECT => Some (noThrow (handleDisconnection env s ws))
  | Req.GET_TEAMS gameCode => Some (noThrow (handleGetTeams s ws gameCode))
  | Req.OTHER _ => Some (s, [(ws, Ev.ERROR "Unknown message type")], false)
  end.

Definition invalidFormat : Ev.t := Ev.ERROR "Invalid message format".

(** [ws.on('message', ...)]: parse, dispatch, and answer a throw from
    either with the format error.  [data = None] is unparsable input. *)
Definition onMessage (env : Env.t) (s : Server.t) (ws : Conn)
    (data : option Req.t) : option (Server.t * list Send) :=
  match data with
  | None => Some (s, [(ws, invalidFormat)])
  | Some message =>
      match handleMessage env s ws message with
      | None => None
      | Some (s', out, threw) =>
          Some (s', if threw then out ++ [(ws, invalidFormat)] else out)
      end
  end.

Definition oneHour : Z := 60 * 60 * 1000.

(** The hourly [setInterval] callback. *)
Definition sweep (now : Z) (s : Server.t) : Server.t :=
  Server.set_games
    (fold_left
       (fun games e =>
          if oneHour <? now - GameState.createdAt (snd e)
          then JsMap.delete String.eqb (fst e) games
          else games)
       (Server.games s) (Server.games s))
    s.

(** The [setTimeout] callback scheduled by a host's disconnection. *)
Definition cleanupTimer (k : nat) (s : Server.t) : Server.t :=
  match nth_error (Server.cleanupTimers s) k with
  | None => s
  | Some gameCode =>
      Server.set_cleanupTimers (remove_nth k (Server.cleanupTimers s))
        (Server.set_games
           (JsMap.delete String.eqb gameCode (Server.games s)) s)
  end.

(** Everything the event loop can run. *)
Inductive Input : Type :=
| OnMessage (ws : Conn) (data : option Req.t)
| OnClose (ws : Conn)
| OnLoadResolved (k : nat)
| OnCleanupTimer (k : nat)
| OnSweep.

Definition step (env : Env.t) (s : Server.t) (i : Input)
  : option (Server.t * list Send) :=
  match i with
  | OnMessage ws data => onMessage env s ws data
  | OnClose ws => Some (handleDisconnection env s ws)
  | OnLoadResolved k => Some (resolveLoad env s k)
  | OnCleanupTimer k => Some (cleanupTimer k s, [])
  | OnSweep => Some (sweep (Env.now env) s, [])
  end.

(** Run a trace of inputs, each in its own environment; the sends are
    collected in order. *)
Fixpoint run (s : Server.t) (trace : list (Env.t * Input))
  : option (Server.t * list Send) :=
  match trace with
  | [] => Some (s, [])
  | (env, i) :: rest =>
      match step env s i with
      | None => None
      | Some (s1, out1) =>
          match run s1 rest with
          | None => None
          | Some (s2, out2) => Some (s2, out1 ++ out2)
          end
      end
  end.

(** States reachable from the start of the process when the event loop
    only runs inputs that [allowed] admits. *)
Inductive reachableBy (allowed : Input -> Prop) : Server.t -> Prop :=
| reachBy_init : reachableBy allowed Server.init
| reachBy_step s env i s' out :
    reachableBy allowed s -> allowed i ->
    step env s i = Some (s', out) -> reachableBy allowed s'.

Definition anyInput (i : Input) : Prop := True.

(** Server states the event loop can reach. *)
Definition reachable : Server.t -> Prop := reachableBy anyInput.

(* ================================================================= *)
(** ** Sequences of roster operations on one session *)

Inductive RosterOp : Type :=
| AddPlayer (playerId : string) (playerData : PlayerData.t)
| RemovePlayer (playerId : string).

Definition applyRoster (g : GameState.t) (op : RosterOp) : GameState.t :=
  match op with
  | AddPlayer playerId playerData => addPlayer playerId playerData g
  | RemovePlayer playerId => removePlayer playerId g
  end.

Definition runRoster (g : GameState.t) (ops : list RosterOp) : GameState.t :=
  fold_left applyRoster ops g.

(* ================================================================= *)
(** ** Properties of sessions *)

Definition memberIds (team : Team.t) : list string :=
  map Member.playerId (Team.members team).

(** Exactly one member carries [isManager], and it is the member the
    team's [manager] field names. *)
Definition oneManager (team : Team.t) : Prop :=
  exists m,
    filter Member.isManager (Team.members team) = [m]
    /\ Team.manager team = Some (Member.playerId m).

(** The invariant behind [oneManager]: member ids are distinct, the
    manager is a member, and the flags are exactly "is the manager". *)
Definition managedBy (mid : string) (team : Team.t) : Prop :=
  Team.manager team = Some mid
  /\ In mid (memberIds team)
  /\ forall m, In m (Team.members team) ->
       Member.isManager m = String.eqb (Member.playerId m) mid.

Definition TeamOk (team : Team.t) : Prop :=
  NoDup (memberIds team) /\ exists mid, managedBy mid team.

(** A team as [addPlayer] finds it: either well-formed, or the empty
    team it has just created. *)
Definition teamOrFresh (team : Team.t) : Prop :=
  TeamOk team \/ (Team.members team = [] /\ Team.manager team = None).

Definition rosterOk (g : GameState.t) : Prop :=
  Forall TeamOk (JsMap.values (GameState.teams g)).

(** No two records of the buzz queue carry the same team name. *)
Definition oneBuzzPerTeam (g : GameState.t) : Prop :=
  NoDup (map Buzz.teamName (GameState.buzzedPlayers g)).

(** [totalScore] is the sum of the defined entries of [roundScores]. *)
Definition scoreConsistent (team : Team.t) : Prop :=
  Team.totalScore team = sumScores (orEmpty (Team.roundScores team)).

Definition scoresOk (g : GameState.t) : Prop :=
  Forall scoreConsistent (JsMap.values (GameState.teams g)).

(** Each map has one entry per key, and a team is stored under its name. *)
Definition keyedByName (teams : list (string * Team.t)) : Prop :=
  Forall (fun e => Team.name (snd e) = fst e) teams.

Definition mapsOk (g : GameState.t) : Prop :=
  NoDup (JsMap.keys (GameState.teams g))
  /\ keyedByName (GameState.teams g)
  /\ NoDup (JsMap.keys (GameState.players g)).

(** A member descriptor without its manager flag. *)
Definition descriptor (m : Member.t) : string * string :=
  (Member.playerId m, Member.name m).


Definition sumZ (l : list Z) : Z := fold_right Z.add 0 l.


(** Inputs other than a [SCORE_UPDATED] message. *)
Definition notScoreUpdated (i : Input) : Prop :=
  match i with
  | OnMessage _ (Some (Req.SCORE_UPDATED _ _ _ _)) => False
  | _ => True
  end.

(** What the store holds: documents written by [saveGameState] from
    sessions that satisfy [P]. *)
Definition savedFrom (P : GameState.t -> Prop) (doc : Persisted.t) : Prop :=
  exists now g, doc = saveGameState now g /\ P g.

Definition serverInv (P : GameState.t -> Prop) (s : Server.t) : Prop :=
  Forall P (JsMap.values (Server.games s))
  /\ Forall (savedFrom P) (JsMap.values (Server.db s)).


(* ================================================================= *)
(** ** A sample run

    A host creates game 123456, Ann (P1) and Bob (P2) join team Red,
    and the host starts a show of two games with 3 and 2 rounds. *)

Definition exEnv : Env.t := Env.mk 1000 (fun _ => true) [].

Definition exJoinAnn : Req.Join := Req.mkJoin "123456" "P1" "Ann" "Red" false.
Definition exJoinBob : Req.Join := Req.mkJoin "123456" "P2" "Bob" "Red" false.

Definition exGames : list GameDef := [Some ("A", 3); Some ("B", 2)].

Definition exTrace : list (Env.t * Input) :=
  [ (exEnv, OnMessage 0%nat (Some (Req.CREATE_GAME (Some "123456") "host-1")));
    (exEnv, OnMessage 1%nat (Some (Req.JOIN_GAME exJoinAnn)));
    (exEnv, OnMessage 2%nat (Some (Req.JOIN_GAME exJoinBob)));
    (exEnv, OnMessage 0%nat (Some (Req.GAME_STARTED "123456" (Some exGames) 1 1))) ].

Definition stateAfter (trace : list (Env.t * Input)) : Server.t :=
  match run Server.init trace with
  | Some (s, _) => s
  | None => Server.init
  end.

Definition exServer : Server.t := stateAfter exTrace.

(** The session 123456 of a server state (a new session if absent). *)
Definition exSession (s : Server.t) : GameState.t :=
  match JsMap.get String.eqb "123456" (Server.games s) with
  | Some game => game
  | None => GameState.new 0 "123456" ""
  end.

(** The team Red of a session (an empty team if absent). *)
Definition exRed (g : GameState.t) : Team.t :=
  match JsMap.get String.eqb "Red" (GameState.teams g) with
  | Some team => team
  | None => newTeam "Red"
  end.

(** Ann, the manager of Red, submits 50 points for game 2, round 2. *)
Definition exSubmit : Req.Submit := Req.mkSubmit "123456" "P1" "Red" 50 2 2.

(** Bob, who is not the manager, tries the same. *)
Definition exSubmitBob : Req.Submit :=
  Req.mkSubmit "123456" "P2" "Red" 50 2 2.

(** Ann submits for a team that does not exist. *)
Definition exSubmitBlue : Req.Submit :=
  Req.mkSubmit "123456" "P1" "Blue" 50 1 1.

(** Every record of the buzz queue names the team its player is on now. *)
Definition buzzCurrent (g : GameState.t) : Prop :=
  forall b, In b (GameState.buzzedPlayers g) ->
    exists player,
      JsMap.get String.eqb (Buzz.playerId b) (GameState.players g)
      = Some player
      /\ PlayerData.teamName player = Buzz.teamName b.

(** The sample run continued: Ann buzzes, joins again under team Blue
    without leaving Red, and then Bob buzzes. *)
Definition exJoinAnnBlue : Req.Join :=
  Req.mkJoin "123456" "P1" "Ann" "Blue" false.

Definition exSwitchTrace : list (Env.t * Input) :=
  exTrace ++
  [ (exEnv, OnMessage 1%nat (Some (Req.PLAYER_BUZZ "123456" "P1" "Ann" "Red")));
    (exEnv, OnMessage 1%nat (Some (Req.JOIN_GAME exJoinAnnBlue)));
    (exEnv, OnMessage 2%nat (Some (Req.PLAYER_BUZZ "123456" "P2" "Bob" "Red"))) ].


(** The sample run continued with Ann's submission. *)
Definition exSubmitTrace : list (Env.t * Input) :=
  exTrace ++ [ (exEnv, OnMessage 1%nat (Some (Req.SUBMIT_SCORE exSubmit))) ].

(** A roster history: Ann and Bob join Red, then Ann leaves. *)
Definition exRoster : list RosterOp :=
  [ AddPlayer "P1" (PlayerData.mk "Ann" "Red" false 1%nat);
    AddPlayer "P2" (PlayerData.mk "Bob" "Red" false 2%nat);
    RemovePlayer "P1" ].

Definition exRosterSession : GameState.t :=
  runRoster (GameState.new 0 "123456" "host-1") exRoster.

(** Ann joins Red again from another socket under the name Annie. *)
Definition exAnnie : PlayerData.t := PlayerData.mk "Annie" "Red" false 3%nat.

(** An environment whose next random draw gives the code 100005. *)
Definition exDrawEnv : Env.t := Env.mk 2000 (fun _ => true) [5%N].

(** Scenarios of the specification, on the sample session. *)
Definition exBuzzTrace : list (Env.t * Input) :=
  exTrace ++
  [ (exEnv, OnMessage 1%nat (Some (Req.PLAYER_BUZZ "123456" "P1" "Ann" "Red")));
    (exEnv, OnMessage 2%nat (Some (Req.PLAYER_BUZZ "123456" "P2" "Bob" "Red"))) ].

Definition exQuizTrace : list (Env.t * Input) :=
  [ (exEnv, OnMessage 0%nat (Some (Req.CREATE_GAME (Some "123456") "host-1")));
    (exEnv, OnMessage 1%nat (Some (Req.JOIN_GAME exJoinAnn)));
    (exEnv, OnMessage 0%nat
              (Some (Req.GAME_STARTED "123456" (Some [Some ("Quiz", 3)]) 1 1)));
    (exEnv, OnMessage 1%nat
              (Some (Req.SUBMIT_SCORE
                       (Req.mkSubmit "123456" "P1" "Red" 50 1 1))));
    (exEnv, OnMessage 1%nat
              (Some (Req.SUBMIT_SCORE
                       (Req.mkSubmit "123456" "P1" "Red" 20 1 2)))) ].

Definition sendsOf (trace : list (Env.t * Input)) : list Send :=
  match run Server.init trace with
  | Some (_, out) => out
  | None => []
  end.

Definition isScoreSubmitted (e : Send) : bool :=
  match snd e with
  | Ev.SCORE_SUBMITTED _ _ _ _ _ => true
  | _ => false
  end.

(* ================================================================= *)
(** ** Further notions used by the properties of the handlers *)

(** Messages whose handler starts with the host guard. *)
Definition hostOnly (message : Req.t) : bool :=
  match message with
  | Req.GAME_STARTED _ _ _ _ => true
  | Req.ROUND_UPDATE _ _ _ => true
  | Req.CLEAR_BUZZERS _ => true
  | Req.CLEAR_PLAYER_BUZZ _ _ => true
  | Req.ENABLE_SCORING _ => true
  | Req.MANAGER_CHANGED _ _ _ => true
  | Req.SCORE_UPDATED _ _ _ _ => true
  | Req.REVEAL_FINAL_SCORES _ _ => true
  | _ => false
  end.

(** The session stored under a game code after a handler ran. *)
Definition gameAfter (r : option (Server.t * list Send)) (gameCode : string)
  : option GameState.t :=
  match r with
  | Some (s, _) => JsMap.get String.eqb gameCode (Server.games s)
  | None => None
  end.

(** A second session, B, resident beside the sample session: the
    sample host on socket 0 hosts 123456, socket 9 hosts 777777. *)
Definition exTwoGames : Server.t :=
  stateAfter
    (exTrace ++
     [ (exEnv, OnMessage 9%nat
                 (Some (Req.CREATE_GAME (Some "777777") "host-9"))) ]).

(** The sample session after Ann's accepted buzz. *)
Definition exAfterAnnBuzz : GameState.t :=
  fst (handleBuzz 1000 "P1" (exSession exServer)).

(** Cat joins the sample game from socket 3. *)
Definition exJoinCat : Req.Join := Req.mkJoin "123456" "P3" "Cat" "Blue" false.

(** A join for a game code nobody created. *)
Definition exJoinNowhere : Req.Join :=
  Req.mkJoin "999999" "P3" "Cat" "Blue" false.

(** The sample server after its session was evicted by the timer of a
    host disconnection, with Cat's join for it waiting for the store. *)
Definition exEvicted : Server.t :=
  stateAfter
    (exTrace ++
     [ (exEnv, OnClose 0%nat);
       (exEnv, OnCleanupTimer 0%nat);
       (exEnv, OnMessage 3%nat (Some (Req.JOIN_GAME exJoinCat))) ]).

(** A document of the store as [handleCreateGame] writes it: the state
    of a session at its creation. *)
Definition creationDoc (doc : Persisted.t) : Prop :=
  Persisted.games doc = Some []
  /\ Persisted.teams doc = Some []
  /\ Persisted.players doc = Some []
  /\ Persisted.buzzedPlayers doc = Some []
  /\ Persisted.gameStarted doc = false
  /\ Persisted.gameEnded doc = false
  /\ Persisted.scoringEnabled doc = false
  /\ Persisted.currentGame doc = 1
  /\ Persisted.currentRound doc = 1.

(** The document the sample server holds for the sample game. *)
Definition exDoc : Persisted.t :=
  match JsMap.get String.eqb "123456" (Server.db (stateAfter exSubmitTrace))
  with
  | Some doc => doc
  | None => saveGameState 0 (GameState.new 0 "" "")
  end.

(** A session the hourly sweep removes at time [now]: created more than
    one hour before. *)
Definition aged (now : Z) (game : GameState.t) : bool :=
  oneHour <? now - GameState.createdAt game.

(** Every team has at least one member. *)
Definition teamsNonEmpty (g : GameState.t) : Prop :=
  Forall (fun team => Team.members team <> [])
         (JsMap.values (GameState.teams g)).

(** Every player of the players map is on the roster of the team its
    entry names. *)
Definition playersOnRoster (g : GameState.t) : Prop :=
  forall playerId player,
    JsMap.get String.eqb playerId (GameState.players g) = Some player ->
    exists team,
      JsMap.get String.eqb (PlayerData.teamName player) (GameState.teams g)
      = Some team
      /\ In playerId (memberIds team).

Definition rosterLinked (g : GameState.t) : Prop :=
  mapsOk g /\ playersOnRoster g.

(** What no message changes about a session that stays resident: its
    identity, host connection and creation time, and the flags
    [gameStarted] and [gameEnded] once they are set. *)
Definition sessionKept (g g' : GameState.t) : Prop :=
  GameState.gameCode g' = GameState.gameCode g
  /\ GameState.hostId g' = GameState.hostId g
  /\ GameState.hostConnection g' = GameState.hostConnection g
  /\ GameState.createdAt g' = GameState.createdAt g
  /\ (GameState.gameStarted g = true -> GameState.gameStarted g' = true)
  /\ (GameState.gameEnded g = true -> GameState.gameEnded g' = true).

(** Inputs other than the resolution of a pending load. *)
Definition notLoadResolved (i : Input) : Prop :=
  match i with
  | OnLoadResolved _ => False
  | _ => True
  end.

(** Every session resident before and after a step is kept. *)
Definition gamesKept (s s' : Server.t) : Prop :=
  forall gameCode g g',
    JsMap.get String.eqb gameCode (Server.games s) = Some g ->
    JsMap.get String.eqb gameCode (Server.games s') = Some g' ->
    sessionKept g g'.

(* ================================================================= *)
(** ** Further notions used by the properties of the scores *)

(** The sum of the magnitudes of the entries: while it stays within
    [maxExact], every partial sum of the entries is exact. *)
Definition sumAbs (a : Scores) : Z :=
  sumZ (map (fun s => Z.abs (orZero s)) a).








(** [team'] has the scores of [team]. *)
Definition sameScores (team team' : Team.t) : Prop :=
  Team.roundScores team' = Team.roundScores team
  /\ Team.totalScore team' = Team.totalScore team.

(** The scores are an array and the total computed from it. *)
Definition computedScores (team' : Team.t) : Prop :=
  exists roundScores,
    Team.roundScores team' = Some roundScores
    /\ Team.totalScore team' = sumScores roundScores.

(** What becomes of the scores of team [teamName] between two states
    of a session. *)
Definition teamScoresKept (teamName : string) (g g' : GameState.t) : Prop :=
  forall team',
    JsMap.get String.eqb teamName (GameState.teams g') = Some team' ->
    (exists team,
        JsMap.get String.eqb teamName (GameState.teams g) = Some team
        /\ sameScores team team')
    \/ computedScores team'.



(* ================================================================= *)
(** * Proofs *)

(** ** Facts about [JsMap] *)

Section JsMapFacts.
Context {K V : Type}.
Variable eqb : K -> K -> bool.
Hypothesis eqb_eq : forall a b, eqb a b = true <-> a = b.

Implicit Types (k : K) (v : V) (m : list (K * V)).

Lemma eqb_refl_K k : eqb k k = true.
Proof. now apply eqb_eq. Qed.

Lemma eqb_neq_K k k' : k <> k' -> eqb k k' = false.
Proof.
  intros Hne. destruct (eqb k k') eqn:E; [|reflexivity].
  apply eqb_eq in E. contradiction.
Qed.

Lemma get_set_same k v m : JsMap.get eqb k (JsMap.set eqb k v m) = Some v.
Proof.
  induction m as [|[k' v'] m IH]; simpl.
  - now rewrite eqb_refl_K.
  - destruct (eqb k k') eqn:E; simpl.
    + now rewrite eqb_refl_K.
    + now rewrite E.
Qed.

Lemma get_set_other k k' v m :
  k <> k' -> JsMap.get eqb k' (JsMap.set eqb k v m) = JsMap.get eqb k' m.
Proof.
  intros Hne. induction m as [|[k0 v0] m IH]; simpl.
  - rewrite eqb_neq_K; [reflexivity|]. congruence.
  - destruct (eqb k k0) eqn:E; simpl.
    + apply eqb_eq in E. subst k0.
      rewrite eqb_neq_K; [reflexivity|]. congruence.
    + now rewrite IH.
Qed.

Lemma get_In k v m : JsMap.get eqb k m = Some v -> In (k, v) m.
Proof.
  induction m as [|[k' v'] m IH]; simpl; [discriminate|].
  destruct (eqb k k') eqn:E.
  - apply eqb_eq in E. intros [= ->]. left. now subst.
  - intros H. right. now apply IH.
Qed.

Lemma get_In_values k v m :
  JsMap.get eqb k m = Some v -> In v (JsMap.values m).
Proof.
  intros H. apply get_In in H.
  unfold JsMap.values. now apply (in_map snd) in H.
Qed.

Lemma get_None_keys k m :
  JsMap.get eqb k m = None <-> ~ In k (JsMap.keys m).
Proof.
  induction m as [|[k' v'] m IH]; simpl.
  - tauto.
  - destruct (eqb k k') eqn:E.
    + apply eqb_eq in E. subst. split; [discriminate|]. tauto.
    + rewrite IH. split.
      * intros Hn [Heq|Hin]; [|tauto].
        subst. rewrite eqb_refl_K in E. discriminate.
      * tauto.
Qed.

Lemma In_set e k v m :
  In e (JsMap.set eqb k v m) -> e = (k, v) \/ In e m.
Proof.
  induction m as [|[k' v'] m IH]; simpl.
  - intros [H|[]]. now left.
  - destruct (eqb k k'); simpl.
    + intros [H|H]; [now left | right; now right].
    + intros [H|H]; [right; now left |].
      destruct (IH H); [now left | right; now right].
Qed.

Lemma Forall_set (Q : K * V -> Prop) k v m :
  Q (k, v) -> Forall Q m -> Forall Q (JsMap.set eqb k v m).
Proof.
  intros Hv Hm. apply Forall_forall. intros e He.
  destruct (In_set _ _ _ _ He) as [->|Hin]; [assumption|].
  rewrite Forall_forall in Hm. now apply Hm.
Qed.

Lemma Forall_values_set (P : V -> Prop) k v m :
  P v -> Forall P (JsMap.values m) ->
  Forall P (JsMap.values (JsMap.set eqb k v m)).
Proof.
  unfold JsMap.values. rewrite !Forall_map.
  intros Hv Hm. now apply Forall_set.
Qed.

Lemma Forall_delete (Q : K * V -> Prop) k m :
  Forall Q m -> Forall Q (JsMap.delete eqb k m).
Proof.
  unfold JsMap.delete. rewrite !Forall_forall.
  intros H e He. apply filter_In in He. now apply H.
Qed.

Lemma Forall_values_delete (P : V -> Prop) k m :
  Forall P (JsMap.values m) ->
  Forall P (JsMap.values (JsMap.delete eqb k m)).
Proof.
  unfold JsMap.values. rewrite !Forall_map. apply Forall_delete.
Qed.

Lemma keys_set_absent k v m :
  JsMap.get eqb k m = None -> JsMap.set eqb k v m = m ++ [(k, v)].
Proof.
  induction m as [|[k' v'] m IH]; simpl; [reflexivity|].
  destruct (eqb k k'); [discriminate|].
  intros H. now rewrite IH.
Qed.

Lemma keys_set_present k v m :
  JsMap.get eqb k m <> None ->
  JsMap.keys (JsMap.set eqb k v m) = JsMap.keys m.
Proof.
  induction m as [|[k' v'] m IH]; simpl; [congruence|].
  destruct (eqb k k') eqn:E; simpl.
  - apply eqb_eq in E. now subst.
  - intros H. now rewrite IH.
Qed.

Lemma NoDup_keys_set k v m :
  NoDup (JsMap.keys m) -> NoDup (JsMap.keys (JsMap.set eqb k v m)).
Proof.
  intros Hnd. destruct (JsMap.get eqb k m) eqn:G.
  - rewrite keys_set_present; [assumption | congruence].
  - rewrite keys_set_absent by assumption.
    unfold JsMap.keys in *. rewrite map_app. simpl.
    apply get_None_keys in G. unfold JsMap.keys in G.
    apply NoDup_app; repeat split; try assumption.
    + constructor; [simpl; tauto | constructor].
    + intros x Hx [Hk|[]]. subst. contradiction.
Qed.

Lemma NoDup_keys_delete k m :
  NoDup (JsMap.keys m) -> NoDup (JsMap.keys (JsMap.delete eqb k m)).
Proof.
  unfold JsMap.keys, JsMap.delete.
  induction m as [|[k' v'] m IH]; simpl; [constructor|].
  intros Hnd. inversion Hnd as [|? ? Hnin Hnd']; subst.
  destruct (negb (eqb k k')); simpl; [|now apply IH].
  constructor; [|now apply IH].
  intros Hin. apply Hnin. apply in_map_iff in Hin.
  destruct Hin as [e [He Hin]]. apply filter_In in Hin.
  apply in_map_iff. exists e. tauto.
Qed.

Lemma fold_set_fresh (l acc : list (K * V)) :
  NoDup (JsMap.keys (acc ++ l)) ->
  fold_left (fun m e => JsMap.set eqb (fst e) (snd e) m) l acc = acc ++ l.
Proof.
  revert acc. induction l as [|[k v] l IH]; intros acc Hnd; simpl.
  - now rewrite app_nil_r.
  - assert (Hacc : JsMap.get eqb k acc = None).
    { apply get_None_keys. unfold JsMap.keys in *.
      rewrite map_app in Hnd. simpl in Hnd.
      apply NoDup_remove_2 in Hnd. intros Hin. apply Hnd.
      apply in_or_app. now left. }
    rewrite keys_set_absent by assumption.
    rewrite IH; rewrite <- app_assoc; simpl; [reflexivity | assumption].
Qed.

(** [new Map(entries)] gives back a map's own entries. *)
Lemma of_entries_id m :
  NoDup (JsMap.keys m) -> JsMap.of_entries eqb m = m.
Proof.
  intros Hnd. unfold JsMap.of_entries.
  now rewrite fold_set_fresh.
Qed.

Lemma fold_set_values (l acc : list (K * V)) x :
  In x (JsMap.values
          (fold_left (fun m e => JsMap.set eqb (fst e) (snd e) m) l acc)) ->
  In x (JsMap.values acc) \/ In x (map snd l).
Proof.
  revert acc. induction l as [|[k v] l IH]; intros acc; simpl.
  - now left.
  - intros H. apply IH in H. destruct H as [H|H]; [|right; now right].
    unfold JsMap.values in H. apply in_map_iff in H.
    destruct H as [e [He Hin]]. apply In_set in Hin.
    destruct Hin as [->|Hin].
    + right. left. now simpl in He.
    + left. unfold JsMap.values. apply in_map_iff. now exists e.
Qed.

Lemma of_entries_values (l : list (K * V)) x :
  In x (JsMap.values (JsMap.of_entries eqb l)) -> In x (map snd l).
Proof.
  intros H. apply fold_set_values in H. destruct H as [[]|H]. exact H.
Qed.

Lemma has_true_iff k m :
  JsMap.has eqb k m = true <-> JsMap.get eqb k m <> None.
Proof.
  unfold JsMap.has. destruct (JsMap.get eqb k m); split;
    congruence.
Qed.

Lemma has_false_iff k m :
  JsMap.has eqb k m = false <-> JsMap.get eqb k m = None.
Proof.
  unfold JsMap.has. destruct (JsMap.get eqb k m); split;
    congruence.
Qed.
End JsMapFacts.

(** ** Roster operations keep one manager per team *)

Lemma filter_none (ms : list Member.t) :
  (forall m, In m ms -> Member.isManager m = false) ->
  filter Member.isManager ms = [].
Proof.
  induction ms as [|a ms IH]; simpl; intros H; [reflexivity|].
  rewrite (H a) by now left. apply IH. intros m Hm. apply H. now right.
Qed.

Lemma filter_manager_unique (ms : list Member.t) (mid : string) :
  NoDup (map Member.playerId ms) ->
  In mid (map Member.playerId ms) ->
  (forall m, In m ms ->
     Member.isManager m = String.eqb (Member.playerId m) mid) ->
  exists m, filter Member.isManager ms = [m] /\ Member.playerId m = mid.
Proof.
  induction ms as [|a ms IH]; simpl; intros Hnd Hin Hflag; [contradiction|].
  inversion Hnd as [|? ? Hnotin Hnd']; subst.
  destruct (String.eqb_spec (Member.playerId a) mid) as [Heq|Hne].
  - rewrite (Hflag a) by now left.
    rewrite Heq, String.eqb_refl.
    exists a. split; [|assumption]. f_equal.
    apply filter_none. intros m Hm. rewrite Hflag by now right.
    apply String.eqb_neq. intros Hm'. apply Hnotin.
    rewrite Heq, <- Hm'. now apply in_map.
  - rewrite (Hflag a) by now left.
    apply String.eqb_neq in Hne. rewrite Hne.
    apply IH; try assumption.
    + destruct Hin as [Hin|Hin]; [|assumption].
      apply String.eqb_neq in Hne. contradiction.
    + intros m Hm. apply Hflag. now right.
Qed.

Lemma TeamOk_oneManager (team : Team.t) : TeamOk team -> oneManager team.
Proof.
  intros [Hnd [mid [Hman [Hin Hflag]]]].
  destruct (filter_manager_unique _ _ Hnd Hin Hflag) as [m [Hf Hm]].
  exists m. split; [assumption|]. now rewrite Hm.
Qed.

Lemma markManager_ids (p : string) (ms : list Member.t) :
  map Member.playerId (markManager p ms) = map Member.playerId ms.
Proof.
  unfold markManager. rewrite map_map. now apply map_ext.
Qed.

Lemma markManager_flags (p : string) (ms : list Member.t) (m : Member.t) :
  In m (markManager p ms) ->
  Member.isManager m = String.eqb (Member.playerId m) p.
Proof.
  unfold markManager. intros H. apply in_map_iff in H.
  destruct H as [x [Hx _]]. now subst.
Qed.

Lemma markManager_descriptors (p : string) (ms : list Member.t) :
  map descriptor (markManager p ms) = map descriptor ms.
Proof.
  unfold markManager. rewrite map_map. now apply map_ext.
Qed.

Lemma find_member_None (p : string) (ms : list Member.t) :
  find (fun m => String.eqb (Member.playerId m) p) ms = None ->
  ~ In p (map Member.playerId ms).
Proof.
  intros Hf Hin. apply in_map_iff in Hin. destruct Hin as [m [Hm Hin]].
  apply (find_none _ _ Hf) in Hin. simpl in Hin.
  rewrite Hm, String.eqb_refl in Hin. discriminate.
Qed.

Lemma find_member_Some (p : string) (ms : list Member.t) (m : Member.t) :
  find (fun m => String.eqb (Member.playerId m) p) ms = Some m ->
  In p (map Member.playerId ms).
Proof.
  intros Hf. apply find_some in Hf. destruct Hf as [Hin Heq].
  apply String.eqb_eq in Heq. subst p. now apply in_map.
Qed.

Lemma addToTeam_ok (playerId : string) (playerData : PlayerData.t)
    (team : Team.t) :
  teamOrFresh team -> TeamOk (addToTeam playerId playerData team).
Proof.
  intros Hpre. unfold addToTeam.
  destruct (find _ (Team.members team)) as [m0|] eqn:Hfind.
  - (* rejoin: the member list is kept *)
    apply find_member_Some in Hfind.
    assert (Hok : TeamOk team).
    { destruct Hpre as [H|[Hnil _]]; [assumption|].
      rewrite Hnil in Hfind. contradiction. }
    destruct (PlayerData.isManager playerData
              || manager_falsy (Team.manager _)) eqn:Hc.
    + destruct Hok as [Hnd _]. split.
      * unfold memberIds. simpl. now rewrite markManager_ids.
      * exists playerId. repeat split; simpl.
        -- unfold memberIds. simpl. now rewrite markManager_ids.
        -- apply markManager_flags.
    + destruct team; exact Hok.
  - (* a new member is pushed *)
    apply find_member_None in Hfind.
    assert (Hnd : NoDup (map Member.playerId (Team.members team))).
    { destruct Hpre as [[H _]|[Hnil _]]; [exact H|].
      rewrite Hnil. constructor. }
    assert (Hnd' : NoDup (map Member.playerId
               (Team.members team ++
                [Member.mk playerId (PlayerData.name playerData)
                   (PlayerData.isManager playerData
                    || Nat.eqb (List.length (Team.members team)) 0)]))).
    { rewrite map_app. simpl. apply NoDup_app; repeat split.
      - assumption.
      - constructor; [simpl; tauto | constructor].
      - intros x Hx [Hk|[]]. subst. contradiction. }
    destruct (PlayerData.isManager playerData
              || manager_falsy (Team.manager _)) eqn:Hc.
    + split.
      * unfold memberIds. simpl. now rewrite markManager_ids.
      * exists playerId. repeat split; simpl.
        -- unfold memberIds. simpl. rewrite markManager_ids, map_app.
           apply in_or_app. right. now left.
        -- apply markManager_flags.
    + apply orb_false_iff in Hc. destruct Hc as [Hflag Hfalsy].
      simpl in Hfalsy.
      destruct Hpre as [[_ [mid [Hman [Hin Hfl]]]]|[_ Hnone]].
      2:{ rewrite Hnone in Hfalsy. discriminate. }
      split; [exact Hnd'|].
      exists mid. repeat split; simpl.
      * exact Hman.
      * unfold memberIds. simpl. rewrite map_app. apply in_or_app. now left.
      * intros m Hm. apply in_app_or in Hm. destruct Hm as [Hm|[Hm|[]]].
        -- now apply Hfl.
        -- subst m. simpl. rewrite Hflag. simpl.
           unfold memberIds in Hin.
           destruct (Team.members team) as [|a l]; [contradiction|].
           simpl. symmetry. apply String.eqb_neq.
           intros ->. contradiction.
Qed.

Lemma filter_ids (p : string) (ms : list Member.t) :
  map Member.playerId
    (filter (fun m => negb (String.eqb (Member.playerId m) p)) ms)
  = filter (fun i => negb (String.eqb i p)) (map Member.playerId ms).
Proof.
  induction ms as [|a ms IH]; simpl; [reflexivity|].
  destruct (negb (String.eqb (Member.playerId a) p)); simpl; now rewrite IH.
Qed.

Lemma removeFromTeam_ok (playerId : string) (team : Team.t) :
  TeamOk team ->
  Team.members (removeFromTeam playerId team) <> [] ->
  TeamOk (removeFromTeam playerId team).
Proof.
  intros [Hnd [mid [Hman [Hin Hfl]]]]. unfold removeFromTeam. simpl.
  set (keep := fun m => negb (String.eqb (Member.playerId m) playerId)).
  assert (Hnd1 : NoDup (map Member.playerId (filter keep (Team.members team)))).
  { unfold keep. rewrite filter_ids. now apply NoDup_filter. }
  rewrite Hman. simpl.
  destruct (String.eqb_spec mid playerId) as [Heq|Hne]; simpl.
  - (* the manager leaves *)
    destruct (filter keep (Team.members team)) as [|m0 rest] eqn:Hrest;
      simpl; [intros H; now elim H|].
    intros _. simpl in Hnd1. split; [exact Hnd1|].
    exists (Member.playerId m0). repeat split; simpl.
    + now left.
    + intros m [Hm|Hm].
      * subst m. simpl. now rewrite String.eqb_refl.
      * assert (Hk : In m (filter keep (Team.members team))).
        { rewrite Hrest. now right. }
        apply filter_In in Hk. destruct Hk as [Hmem Hkeep].
        rewrite (Hfl m Hmem). unfold keep in Hkeep. rewrite Heq.
        apply negb_true_iff in Hkeep. rewrite Hkeep.
        symmetry. apply String.eqb_neq. intros Hsame.
        inversion Hnd1 as [|? ? Hnotin _]; subst.
        apply Hnotin. rewrite <- Hsame. now apply in_map.
  - (* someone else leaves *)
    intros _. split; [exact Hnd1|].
    exists mid. repeat split; simpl.
    + exact Hman.
    + unfold memberIds. simpl. unfold keep. rewrite filter_ids.
      apply filter_In. split; [exact Hin|].
      apply negb_true_iff. now apply String.eqb_neq.
    + intros m Hm. apply filter_In in Hm. apply Hfl. tauto.
Qed.

Lemma addPlayer_rosterOk (playerId : string) (playerData : PlayerData.t)
    (g : GameState.t) :
  rosterOk g -> rosterOk (addPlayer playerId playerData g).
Proof.
  unfold rosterOk, addPlayer. simpl. intros Hok.
  apply Forall_values_set; [|assumption].
  apply addToTeam_ok.
  destruct (JsMap.get _ _ _) as [team|] eqn:G.
  - left. apply (get_In_values _ String.eqb_eq) in G.
    rewrite Forall_forall in Hok. now apply Hok.
  - right. now split.
Qed.

Lemma removePlayer_rosterOk (playerId : string) (g : GameState.t) :
  rosterOk g -> rosterOk (removePlayer playerId g).
Proof.
  unfold rosterOk, removePlayer. simpl. intros Hok.
  destruct (JsMap.get _ playerId _) as [player|]; [|assumption].
  destruct (JsMap.get _ (PlayerData.teamName player) _) as [team|] eqn:G;
    [|assumption].
  destruct (Nat.eqb _ 0) eqn:Hlen.
  - now apply Forall_values_delete.
  - apply Forall_values_set; [|assumption].
    apply removeFromTeam_ok.
    + apply (get_In_values _ String.eqb_eq) in G.
      rewrite Forall_forall in Hok. now apply Hok.
    + intros Hnil. rewrite Hnil in Hlen. discriminate.
Qed.

Lemma runRoster_rosterOk (ops : list RosterOp) (g : GameState.t) :
  rosterOk g -> rosterOk (runRoster g ops).
Proof.
  unfold runRoster. revert g.
  induction ops as [|op ops IH]; intros g Hok; simpl; [assumption|].
  apply IH. destruct op; simpl.
  - now apply addPlayer_rosterOk.
  - now apply removePlayer_rosterOk.
Qed.

(** C1.  After any sequence of [addPlayer] / [removePlayer] calls on a
    new session, every team of the session that has a member has
    exactly one member whose [isManager] flag is set, and that member's
    [playerId] is the team's [manager] field. *)
Theorem roster_ops_keep_one_manager :
  forall (now : Z) (gameCode hostId : string) (ops : list RosterOp)
         (team : Team.t),
    In team
      (JsMap.values
         (GameState.teams
            (runRoster (GameState.new now gameCode hostId) ops))) ->
    Team.members team <> [] ->
    oneManager team.
Proof.
  intros now gameCode hostId ops team Hin _.
  apply TeamOk_oneManager.
  assert (Hok : rosterOk (runRoster (GameState.new now gameCode hostId) ops)).
  { apply runRoster_rosterOk. constructor. }
  unfold rosterOk in Hok. rewrite Forall_forall in Hok. now apply Hok.
Qed.

(** ** Rejoining keeps the member descriptors *)

Lemma find_member_In (p : string) (ms : list Member.t) :
  In p (map Member.playerId ms) ->
  exists m, find (fun m => String.eqb (Member.playerId m) p) ms = Some m.
Proof.
  intros Hin.
  destruct (find _ ms) as [m|] eqn:Hf; [now exists m|].
  apply find_member_None in Hf. contradiction.
Qed.

Lemma addToTeam_rejoin (playerId : string) (playerData : PlayerData.t)
    (team : Team.t) :
  In playerId (memberIds team) ->
  map descriptor (Team.members (addToTeam playerId playerData team))
  = map descriptor (Team.members team)
  /\ Team.name (addToTeam playerId playerData team) = Team.name team
  /\ Team.totalScore (addToTeam playerId playerData team)
     = Team.totalScore team
  /\ Team.roundScores (addToTeam playerId playerData team)
     = Team.roundScores team.
Proof.
  intros Hin. unfold addToTeam.
  destruct (find_member_In _ _ Hin) as [m Hf]. rewrite Hf.
  destruct (PlayerData.isManager playerData || manager_falsy _); simpl.
  - now rewrite markManager_descriptors.
  - tauto.
Qed.

(** C10.  When [addPlayer] is called for a player id that is already a
    member of the named team, the team's list of member descriptors
    (player id and display name, in order) is what it was -- so the
    member keeps its original name even if the call carries another --
    and only [isManager] flags may differ; the team's name and scores
    are untouched, and the players map now holds the new player data. *)
Theorem addPlayer_rejoin_keeps_descriptors :
  forall (playerId : string) (playerData : PlayerData.t)
         (g : GameState.t) (team : Team.t),
    JsMap.get String.eqb (PlayerData.teamName playerData)
      (GameState.teams g) = Some team ->
    In playerId (memberIds team) ->
    exists team',
      JsMap.get String.eqb (PlayerData.teamName playerData)
        (GameState.teams (addPlayer playerId playerData g)) = Some team'
      /\ map descriptor (Team.members team')
         = map descriptor (Team.members team)
      /\ Team.name team' = Team.name team
      /\ Team.totalScore team' = Team.totalScore team
      /\ Team.roundScores team' = Team.roundScores team
      /\ JsMap.get String.eqb playerId
           (GameState.players (addPlayer playerId playerData g))
         = Some playerData.
Proof.
  intros playerId playerData g team Hget Hin.
  exists (addToTeam playerId playerData team).
  unfold addPlayer. simpl. rewrite Hget.
  rewrite !(get_set_same _ String.eqb_eq).
  destruct (addToTeam_rejoin playerId playerData team Hin)
    as [Hd [Hn [Ht Hr]]].
  repeat split; assumption.
Qed.

(** ** Exact arithmetic

    Up to [maxExact] in magnitude every integer is a double, so sums
    that stay there are the sums of the integers. *)

Lemma maxExact_lt_maxDouble : maxExact < maxDouble.
Proof. vm_compute. reflexivity. Qed.

Lemma round53_pos_exact (p : Z) :
  0 < p <= maxExact -> round53_pos p = p.
Proof.
  intros [Hpos Hle]. unfold round53_pos.
  destruct (Z.eq_dec p maxExact) as [->|Hne]; [vm_compute; reflexivity|].
  assert (Hlog : Z.log2 p < 53).
  { apply Z.log2_lt_pow2; [exact Hpos|]. unfold maxExact in *. lia. }
  destruct (Z.leb_spec (Z.log2 p - 52) 0); [reflexivity | lia].
Qed.

Lemma round53_exact (z : Z) : Z.abs z <= maxExact -> round53 z = z.
Proof.
  intros Hle. destruct z as [|p|p]; [reflexivity| |]; unfold round53.
  - apply round53_pos_exact. lia.
  - rewrite round53_pos_exact; lia.
Qed.

Lemma ofZ_exact (z : Z) : Z.abs z <= maxExact -> ofZ z = Fin z.
Proof.
  intros Hle. unfold ofZ. rewrite (round53_exact z Hle).
  pose proof maxExact_lt_maxDouble as Hmax.
  destruct (Z.ltb_spec maxDouble z); [lia|].
  destruct (Z.ltb_spec z (- maxDouble)); [lia | reflexivity].
Qed.


Lemma jsAdd_exact (x y : Z) :
  Z.abs (x + y) <= maxExact -> jsAdd (Fin x) y = Fin (x + y).
Proof. intros Hle. simpl. now apply ofZ_exact. Qed.

Lemma sumZ_nonneg (l : list Z) : Forall (fun z => 0 <= z) l -> 0 <= sumZ l.
Proof.
  unfold sumZ. induction 1 as [|z l Hz _ IH]; simpl; lia.
Qed.

(** ** The flattened round index *)













(** Over the empty array the loop leaves the index as it is. *)
Lemma computeRoundIndex_empty_loop (n : nat) (g : Z) (acc : Num) :
  roundIndexLoop (Some []) g n acc = Normal acc.
Proof.
  revert g. induction n as [|n IH]; intros g; [reflexivity|].
  cbn [roundIndexLoop games_index]. unfold games_at.
  destruct (g - 1 <? 0); cbn [entry_truthy]; [apply IH|].
  destruct (Z.to_nat (g - 1)); cbn [nth_error entry_truthy]; apply IH.
Qed.



(** Beyond [maxExact] the loop over a games array does not end. *)
Lemma computeRoundIndex_unending (games : list GameDef) (gameNum round : Z) :
  maxExact < gameNum ->
  computeRoundIndex (Some games) gameNum round = Unending.
Proof.
  intros Hlt. unfold computeRoundIndex.
  destruct (Z.ltb_spec maxExact gameNum); [reflexivity | lia].
Qed.

(** ** Sums of scores *)

Lemma sumAbs_nonneg (a : Scores) : 0 <= sumAbs a.
Proof.
  unfold sumAbs. apply sumZ_nonneg. apply Forall_forall. intros z Hin.
  apply in_map_iff in Hin. destruct Hin as [x [<- _]]. lia.
Qed.

Lemma fold_sum_exact (a : Scores) (acc : Z) :
  Z.abs acc + sumAbs a <= maxExact ->
  fold_left (fun sum s => jsAdd sum (orZero s)) a (Fin acc)
  = Fin (acc + sumZ (map orZero a)).
Proof.
  revert acc. induction a as [|x a IH]; intros acc Hle.
  - simpl. f_equal. lia.
  - pose proof (sumAbs_nonneg a) as Hrest.
    unfold sumAbs in *. cbn [map sumZ fold_right fold_left] in *.
    fold (sumZ (map (fun s => Z.abs (orZero s)) a)) in *.
    rewrite jsAdd_exact by lia. rewrite IH by lia.
    f_equal. unfold sumZ. lia.
Qed.

(** Within the exact integers the total the code computes is the sum
    of the defined entries. *)
Lemma sumScores_exact (a : Scores) :
  sumAbs a <= maxExact -> sumScores a = Fin (sumZ (map orZero a)).
Proof.
  intros Hle. unfold sumScores. rewrite fold_sum_exact by (simpl; lia).
  f_equal.
Qed.

(** ** Writing into an array with holes *)

Lemma nth_error_array_set_nat (a : Scores) (i : nat) (v : Z) :
  nth_error (array_set_nat a i v) i = Some (Some v).
Proof.
  revert a. induction i as [|i IH]; intros [|x a]; simpl;
    try reflexivity; apply IH.
Qed.

Lemma array_set_nat_other (a : Scores) (i j : nat) (v : Z) :
  j <> i -> nth j (array_set_nat a i v) None = nth j a None.
Proof.
  revert a j. induction i as [|i IH]; intros [|x a] [|j] Hne; simpl;
    try reflexivity; try congruence.
  - now destruct j.
  - rewrite IH by congruence. now destruct j.
  - apply IH. congruence.
Qed.

Lemma array_set_nat_length (a : Scores) (i : nat) (v : Z) :
  List.length (array_set_nat a i v) = Nat.max (List.length a) (S i).
Proof.
  revert a. induction i as [|i IH]; intros [|x a]; simpl;
    try reflexivity.
  - now destruct (List.length a).
  - rewrite IH. simpl. reflexivity.
  - now rewrite IH.
Qed.

Lemma array_set_nat_sum (a : Scores) (i : nat) (v : Z) :
  sumZ (map orZero (array_set_nat a i v))
  = sumZ (map orZero a) - orZero (nth i a None) + v.
Proof.
  revert a. induction i as [|i IH]; intros [|x a]; simpl.
  - lia.
  - lia.
  - rewrite IH. simpl. now destruct i.
  - rewrite IH. lia.
Qed.

Lemma array_set_nat_twice (a : Scores) (i : nat) (v w : Z) :
  array_set_nat (array_set_nat a i w) i v = array_set_nat a i v.
Proof.
  revert a. induction i as [|i IH]; intros [|x a]; simpl; try reflexivity;
    now rewrite IH.
Qed.

Lemma isIndex_true (z : Z) : 0 <= z <= maxIndex -> isIndex (Fin z) = true.
Proof.
  intros [Hlo Hhi]. unfold isIndex.
  destruct (Z.leb_spec 0 z); [|lia].
  destruct (Z.leb_spec z maxIndex); [reflexivity | lia].
Qed.

Lemma array_set_index (a : Scores) (z v : Z) :
  0 <= z <= maxIndex -> array_set a (Fin z) v = array_set_nat a (Z.to_nat z) v.
Proof. intros H. unfold array_set. now rewrite isIndex_true. Qed.

(** ** The arithmetic beyond the exact integers *)

(** From 10^21 on [parseInt] returns the leading digit: the number is
    rendered as [1e+21], [1.5e+21], [-2e+21].  The double just below
    10^21 is still read back in full, and the double nearest to 10^23,
    which is smaller than 10^23, is rendered as [1e+23]. *)
Example parseInt_exponent_notation :
  parseInt (10 ^ 21) = 1
  /\ parseInt (15 * 10 ^ 20) = 1
  /\ parseInt (- (2 * 10 ^ 21)) = -2
  /\ parseInt (10 ^ 21 - 2 ^ 17) = 10 ^ 21 - 2 ^ 17
  /\ round53 (10 ^ 23) = 99999999999999991611392
  /\ parseInt 99999999999999991611392 = 1.
Proof. repeat split; vm_compute; reflexivity. Qed.

(** A round count of 10^21 moves the index of the next game by 1. *)
Example computeRoundIndex_huge_round_count :
  computeRoundIndex (Some [Some ("A", 10 ^ 21)]) 2 1 = Normal (Fin 1).
Proof. vm_compute. reflexivity. Qed.

(** At 2^53 the loop counter stops advancing: a game number beyond it
    is never reached.  Without a games array the first round of the
    body throws before that matters. *)
Example computeRoundIndex_counter_sticks :
  round53 (2 ^ 53 + 1) = 2 ^ 53
  /\ computeRoundIndex (Some []) (2 ^ 53 + 2) 1 = Unending
  /\ computeRoundIndex (Some []) (2 ^ 53) 1 = Normal (Fin 0)
  /\ computeRoundIndex None (2 ^ 53 + 2) 1 = TypeError.
Proof.
  split; [vm_compute; reflexivity|].
  split; [vm_compute; reflexivity|].
  split; [|vm_compute; reflexivity].
  unfold computeRoundIndex.
  replace (maxExact <? 2 ^ 53) with false by (vm_compute; reflexivity).
  rewrite (computeRoundIndex_empty_loop (Z.to_nat (2 ^ 53 - 1)) 1 (Fin 0)).
  vm_compute. reflexivity.
Qed.

(** Sums are rounded: 2^53 + 1 is 2^53, and a sum beyond the largest
    double is an infinity. *)
Example sumScores_rounds :
  sumScores [Some (2 ^ 53); Some 1] = Fin (2 ^ 53)
  /\ sumScores [Some (2 ^ 53); Some 1; Some 1] = Fin (2 ^ 53)
  /\ sumScores [Some 1; Some 1; Some (2 ^ 53)] = Fin (2 ^ 53 + 2)
  /\ sumScores [Some maxDouble; Some maxDouble] = PosInf.
Proof. repeat split; vm_compute; reflexivity. Qed.

(** Under 2^32 - 1 or a negative number the score is not stored among
    the elements, and the total does not count it. *)
Example array_set_not_an_index :
  array_set [Some 1] (Fin (2 ^ 32 - 1)) 7 = [Some 1]
  /\ array_set [Some 1] (Fin (-1)) 7 = [Some 1]
  /\ array_set [Some 1] PosInf 7 = [Some 1]
  /\ sumScores (array_set [Some 1] (Fin (2 ^ 32 - 1)) 7) = Fin 1
  /\ array_set [Some 1] (Fin 2) 7 = [Some 1; None; Some 7].
Proof. repeat split; vm_compute; reflexivity. Qed.

(** ** [handleSubmitScore] *)

Lemma manager_is_true (m : option string) (p : string) :
  manager_is m p = true <-> m = Some p.
Proof.
  destruct m as [x|]; simpl.
  - rewrite String.eqb_eq. split; congruence.
  - split; discriminate.
Qed.

(** C3.  When the named game and team exist and the claimed player id
    is unknown to the session or is not the team's [manager], the
    handler changes nothing in the server state -- so the team's
    [roundScores] and [totalScore] are as before -- and its only send is
    the "Only team managers can submit scores" error to the sender. *)
Theorem submitScore_non_manager_unauthorized :
  forall (env : Env.t) (s : Server.t) (ws : Conn) (m : Req.Submit)
         (game : GameState.t) (team : Team.t),
    JsMap.get String.eqb (Req.s_gameCode m) (Server.games s) = Some game ->
    JsMap.get String.eqb (Req.s_teamName m) (GameState.teams game)
      = Some team ->
    (JsMap.get String.eqb (Req.s_playerId m) (GameState.players game) = None
     \/ Team.manager team <> Some (Req.s_playerId m)) ->
    handleSubmitScore env s ws m = Some (s, [(ws, unauthorized)], false)
    /\ onMessage env s ws (Some (Req.SUBMIT_SCORE m))
       = Some (s, [(ws, unauthorized)]).
Proof.
  intros env s ws m game team Hgame Hteam Hnot.
  assert (H : handleSubmitScore env s ws m
              = Some (s, [(ws, unauthorized)], false)).
  { unfold handleSubmitScore. rewrite Hgame, Hteam.
    destruct Hnot as [Hunknown|Hother].
    - apply (has_false_iff _ (Req.s_playerId m)) in Hunknown.
      now rewrite Hunknown.
    - destruct (manager_is (Team.manager team) (Req.s_playerId m)) eqn:E.
      + apply manager_is_true in E. contradiction.
      + now rewrite orb_true_r. }
  split; [exact H|]. unfold onMessage, handleMessage. now rewrite H.
Qed.

(** C7, as the code has it.  A score submission that names a team
    absent from the session is dropped without a word: the server state
    is unchanged and nothing is sent, neither to the sender nor to the
    host. *)
Theorem submitScore_absent_team_dropped :
  forall (env : Env.t) (s : Server.t) (ws : Conn) (m : Req.Submit)
         (game : GameState.t),
    JsMap.get String.eqb (Req.s_gameCode m) (Server.games s) = Some game ->
    JsMap.get String.eqb (Req.s_teamName m) (GameState.teams game) = None ->
    handleSubmitScore env s ws m = Some (s, [], false)
    /\ onMessage env s ws (Some (Req.SUBMIT_SCORE m)) = Some (s, []).
Proof.
  intros env s ws m game Hgame Hteam.
  assert (H : handleSubmitScore env s ws m = Some (s, [], false)).
  { unfold handleSubmitScore. now rewrite Hgame, Hteam. }
  split; [exact H|]. unfold onMessage, handleMessage. now rewrite H.
Qed.

(** C7 fails as stated: in the sample session, which has no team Blue,
    Ann's submission for Blue produces no event at all, so no error
    reaches her channel. *)
Lemma submitScore_absent_team_no_error_event :
  JsMap.get String.eqb "Blue" (GameState.teams (exSession exServer)) = None
  /\ onMessage exEnv exServer 1%nat (Some (Req.SUBMIT_SCORE exSubmitBlue))
     = Some (exServer, [])
  /\ forall out s',
       onMessage exEnv exServer 1%nat (Some (Req.SUBMIT_SCORE exSubmitBlue))
       = Some (s', out) ->
       ~ exists message, In (1%nat, Ev.ERROR message) out.
Proof.
  assert (H : onMessage exEnv exServer 1%nat
                (Some (Req.SUBMIT_SCORE exSubmitBlue))
              = Some (exServer, [])) by (vm_compute; reflexivity).
  split; [vm_compute; reflexivity|]. split; [exact H|].
  intros out s' Hrun. rewrite H in Hrun. injection Hrun as _ <-.
  intros [message []].
Qed.


(** What [handleSubmitScore] does to the server when it returns:
    nothing, or it replaces one team of one session by the team with
    an array of scores and the total computed from it. *)
Lemma handleSubmitScore_cases env s ws m s' out threw :
  handleSubmitScore env s ws m = Some (s', out, threw) ->
  s' = s
  \/ exists game team roundScores,
       JsMap.get String.eqb (Req.s_gameCode m) (Server.games s) = Some game
       /\ JsMap.get String.eqb (Req.s_teamName m) (GameState.teams game)
          = Some team
       /\ s' = Server.put_game (Req.s_gameCode m)
                 (GameState.set_teams
                    (JsMap.set String.eqb (Req.s_teamName m)
                       (Team.set_scores (Some roundScores)
                          (sumScores roundScores) team)
                       (GameState.teams game)) game) s.
Proof.
  unfold handleSubmitScore. intros Hrun.
  destruct (JsMap.get _ _ (Server.games s)) as [game|] eqn:G;
    [|injection Hrun as <- _ _; now left].
  destruct (JsMap.get _ _ (GameState.teams game)) as [team|] eqn:T;
    [|injection Hrun as <- _ _; now left].
  destruct (negb _ || negb _); [injection Hrun as <- _ _; now left|].
  destruct (computeRoundIndex _ _ _) as [roundIndex| |];
    [|injection Hrun as <- _ _; now left|discriminate].
  injection Hrun as <- _ _. right.
  exists game, team,
    (array_set (orEmpty (Team.roundScores team)) roundIndex (Req.s_score m)).
  split; [reflexivity|]. split; [exact T|]. reflexivity.
Qed.


(** ** Lifting a session invariant to every reachable server state

    [P] is a property of sessions that only looks at [teams] and
    [players].  If the session operations keep it, every session in the
    registry of a reachable server state has it. *)

Section Lifting.
Variable P : GameState.t -> Prop.
Variable allowed : Input -> Prop.

Hypothesis P_frame :
  forall g g',
    GameState.teams g' = GameState.teams g ->
    GameState.players g' = GameState.players g -> P g -> P g'.
Hypothesis P_new : forall now gameCode hostId,
    P (GameState.new now gameCode hostId).
Hypothesis P_addPlayer : forall playerId playerData g,
    P g -> P (addPlayer playerId playerData g).
Hypothesis P_removePlayer : forall playerId g,
    P g -> P (removePlayer playerId g).
Hypothesis P_manager : forall g teamName team newManagerId,
    P g ->
    JsMap.get String.eqb teamName (GameState.teams g) = Some team ->
    P (GameState.set_teams
         (JsMap.set String.eqb teamName
            (Team.set_members
               (markManager newManagerId (Team.members team))
               (Team.set_manager (Some newManagerId) team))
            (GameState.teams g)) g).
Hypothesis P_submit : forall g teamName team roundScores,
    P g ->
    JsMap.get String.eqb teamName (GameState.teams g) = Some team ->
    P (GameState.set_teams
         (JsMap.set String.eqb teamName
            (Team.set_scores (Some roundScores) (sumScores roundScores)
               team)
            (GameState.teams g)) g).
Hypothesis P_scoreUpdated :
  forall ws gameCode teamName scores totalScore,
    allowed (OnMessage ws
               (Some (Req.SCORE_UPDATED gameCode teamName scores
                        totalScore))) ->
    forall g team,
      P g ->
      JsMap.get String.eqb teamName (GameState.teams g) = Some team ->
      P (GameState.set_teams
           (JsMap.set String.eqb teamName
              (Team.set_scores scores (Fin totalScore) team)
              (GameState.teams g)) g).
Hypothesis P_load : forall now now' g g',
    P g ->
    loadGameState now' (Some (saveGameState now g)) = Some g' -> P g'.

Lemma serverInv_game s gameCode game :
  serverInv P s ->
  JsMap.get String.eqb gameCode (Server.games s) = Some game -> P game.
Proof.
  intros [Hg _] Hget. apply (get_In_values _ String.eqb_eq) in Hget.
  rewrite Forall_forall in Hg. now apply Hg.
Qed.

Lemma serverInv_same s s' :
  Server.games s' = Server.games s -> Server.db s' = Server.db s ->
  serverInv P s -> serverInv P s'.
Proof. unfold serverInv. now intros -> ->. Qed.

Lemma serverInv_put s gameCode game :
  P game -> serverInv P s -> serverInv P (Server.put_game gameCode game s).
Proof.
  intros Hp [Hg Hd]. split; simpl; [|assumption].
  now apply Forall_values_set.
Qed.

Lemma serverInv_delete s gameCode :
  serverInv P s ->
  serverInv P
    (Server.set_games (JsMap.delete String.eqb gameCode (Server.games s)) s).
Proof.
  intros [Hg Hd]. split; simpl; [|assumption].
  now apply Forall_values_delete.
Qed.

Lemma hostGuard_game s ws gameCode game :
  hostGuard s ws gameCode = Some game ->
  JsMap.get String.eqb gameCode (Server.games s) = Some game.
Proof.
  unfold hostGuard. destruct (JsMap.get _ _ _); [|discriminate].
  now destruct (isHost s ws).
Qed.

Lemma finishJoin_inv env s ws j :
  serverInv P s -> serverInv P (fst (finishJoin env s ws j)).
Proof.
  intros Hinv. unfold finishJoin.
  destruct (JsMap.get _ _ _) as [game|] eqn:G; simpl; [|assumption].
  eapply serverInv_same; [reflexivity | reflexivity |].
  apply serverInv_put; [|assumption].
  apply P_addPlayer. eapply serverInv_game; eassumption.
Qed.

Lemma handleJoinGame_inv env s ws j :
  serverInv P s -> serverInv P (fst (fst (handleJoinGame env s ws j))).
Proof.
  intros Hinv. unfold handleJoinGame.
  destruct (JsMap.get _ _ _) as [game|]; simpl; [|assumption].
  pose proof (finishJoin_inv env s ws j Hinv) as H1.
  destruct (finishJoin env s ws j) as [s1 out1]. simpl in H1.
  pose proof (finishJoin_inv env s1 ws j H1) as H2.
  destruct (finishJoin env s1 ws j) as [s2 out2]. exact H2.
Qed.

Lemma resolveLoad_inv env s k :
  serverInv P s -> serverInv P (fst (resolveLoad env s k)).
Proof.
  intros Hinv. unfold resolveLoad.
  destruct (nth_error _ k) as [[ws j]|]; [|assumption].
  destruct (JsMap.get _ _ (Server.db s)) as [doc|] eqn:Hdoc;
    [|simpl; assumption].
  destruct (loadGameState _ _) as [restored|] eqn:Hload;
    [|simpl; assumption].
  apply finishJoin_inv. apply serverInv_put.
  - apply (get_In_values _ String.eqb_eq) in Hdoc.
    destruct Hinv as [_ Hd]. rewrite Forall_forall in Hd.
    destruct (Hd _ Hdoc) as [now0 [g0 [-> Hg0]]].
    eapply P_load; eassumption.
  - eapply serverInv_same; [reflexivity | reflexivity | assumption].
Qed.

Lemma handleCreateGame_inv env s ws requested hostId s' out :
  handleCreateGame env s ws requested hostId = Some (s', out) ->
  serverInv P s -> serverInv P s'.
Proof.
  unfold handleCreateGame.
  destruct (chooseCode _ _ _) as [gameCode|]; [|discriminate].
  intros [= <- _] [Hg Hd].
  assert (Hnew : P (GameState.set_hostConnection (Some ws)
                      (GameState.new (Env.now env) gameCode hostId))).
  { apply (P_frame (GameState.new (Env.now env) gameCode hostId));
      [reflexivity | reflexivity | apply P_new]. }
  split; simpl.
  - now apply Forall_values_set.
  - apply Forall_values_set; [|assumption].
    exists (Env.now env). eexists. split; [reflexivity | exact Hnew].
Qed.

(** A handler that replaces the session under [gameCode] by one with
    the same teams and players. *)
Lemma serverInv_put_frame s gameCode game game' :
  serverInv P s ->
  JsMap.get String.eqb gameCode (Server.games s) = Some game ->
  GameState.teams game' = GameState.teams game ->
  GameState.players game' = GameState.players game ->
  serverInv P (Server.put_game gameCode game' s).
Proof.
  intros Hinv Hget Ht Hp. apply serverInv_put; [|assumption].
  eapply P_frame; [exact Ht | exact Hp |].
  eapply serverInv_game; eassumption.
Qed.

Lemma handleBuzz_frame now playerId g :
  GameState.teams (fst (handleBuzz now playerId g)) = GameState.teams g
  /\ GameState.players (fst (handleBuzz now playerId g))
     = GameState.players g.
Proof.
  unfold handleBuzz. destruct (JsMap.get _ _ _); [|now split].
  destruct (negb _); [now split|].
  destruct (teamHasBuzzed _ _); now split.
Qed.

Lemma sweep_inv now s : serverInv P s -> serverInv P (sweep now s).
Proof.
  intros [Hg Hd]. split; simpl; [|assumption].
  generalize (Server.games s) at 1 as l.
  revert Hg. generalize (Server.games s) as acc.
  intros acc Hacc l. revert acc Hacc.
  induction l as [|e l IH]; intros acc Hacc; simpl; [assumption|].
  apply IH. destruct (oneHour <? _); [|assumption].
  now apply Forall_values_delete.
Qed.

Lemma cleanupTimer_inv k s : serverInv P s -> serverInv P (cleanupTimer k s).
Proof.
  intros Hinv. unfold cleanupTimer.
  destruct (nth_error _ k) as [gameCode|]; [|assumption].
  eapply serverInv_same; [reflexivity | reflexivity |].
  now apply serverInv_delete.
Qed.

Lemma handleDisconnection_inv env s ws :
  serverInv P s -> serverInv P (fst (handleDisconnection env s ws)).
Proof.
  intros Hinv. unfold handleDisconnection.
  destruct (JsMap.get Nat.eqb ws (Server.connections s)) as [connInfo|];
    [|assumption].
  destruct (JsMap.get String.eqb _ (Server.games s)) as [game|] eqn:G;
    [|assumption].
  destruct connInfo as [gameCode hostId|gameCode playerId teamName];
    simpl in *.
  - eapply serverInv_same; [reflexivity | reflexivity | assumption].
  - eapply serverInv_same; [reflexivity | reflexivity |].
    eapply serverInv_put_frame; try eassumption; reflexivity.
Qed.

Lemma handleLeaveGame_inv env s ws gameCode playerId :
  serverInv P s ->
  serverInv P (fst (handleLeaveGame env s ws gameCode playerId)).
Proof.
  intros Hinv. unfold handleLeaveGame.
  destruct (JsMap.get Nat.eqb ws (Server.connections s)); [|assumption].
  destruct (JsMap.get String.eqb gameCode (Server.games s)) as [game|] eqn:G;
    simpl.
  - eapply serverInv_same; [reflexivity | reflexivity |].
    apply serverInv_put; [|assumption].
    apply P_removePlayer. eapply serverInv_game; eassumption.
  - eapply serverInv_same; [reflexivity | reflexivity | assumption].
Qed.

Lemma handleSubmitScore_inv env s ws m s' out threw :
  handleSubmitScore env s ws m = Some (s', out, threw) ->
  serverInv P s -> serverInv P s'.
Proof.
  intros Hrun Hinv. unfold handleSubmitScore in Hrun.
  destruct (JsMap.get _ _ (Server.games s)) as [game|] eqn:G;
    [|now injection Hrun as <- _ _].
  destruct (JsMap.get _ _ (GameState.teams game)) as [team|] eqn:T;
    [|now injection Hrun as <- _ _].
  destruct (negb _ || negb _); [now injection Hrun as <- _ _|].
  destruct (computeRoundIndex _ _ _);
    [|now injection Hrun as <- _ _|discriminate].
  injection Hrun as <- _ _.
  apply serverInv_put; [|assumption].
  apply P_submit; [|assumption]. eapply serverInv_game; eassumption.
Qed.

Lemma handleMessage_inv env s ws message s' out threw :
  allowed (OnMessage ws (Some message)) ->
  handleMessage env s ws message = Some (s', out, threw) ->
  serverInv P s -> serverInv P s'.
Proof.
  intros Hallowed Hrun Hinv.
  destruct message; simpl in Hrun; unfold noThrow in Hrun.
  - (* CREATE_GAME *)
    destruct (handleCreateGame env s ws gameCode hostId) as [[s1 o1]|] eqn:E;
      [|discriminate].
    simpl in Hrun. injection Hrun as <- _ _.
    eapply handleCreateGame_inv; eassumption.
  - injection Hrun as Hs.
    pose proof (handleJoinGame_inv env s ws j Hinv) as H.
    now rewrite Hs in H.
  - injection Hrun as Hs.
    pose proof (handleJoinGame_inv env s ws j Hinv) as H.
    now rewrite Hs in H.
  - (* GAME_STARTED *)
    injection Hrun as <- _ _. unfold handleGameStarted.
    destruct (hostGuard s ws gameCode) as [game|] eqn:G; [|assumption].
    apply hostGuard_game in G. simpl.
    eapply serverInv_put_frame; try eassumption; reflexivity.
  - (* ROUND_UPDATE *)
    injection Hrun as <- _ _. unfold handleRoundUpdate.
    destruct (hostGuard s ws gameCode) as [game|] eqn:G; [|assumption].
    apply hostGuard_game in G. simpl.
    eapply serverInv_put_frame; try eassumption; reflexivity.
  - (* PLAYER_BUZZ *)
    injection Hrun as <- _ _. unfold handlePlayerBuzz.
    destruct (JsMap.get _ _ _) as [game|] eqn:G; [|assumption].
    pose proof (handleBuzz_frame (Env.now env) playerId game) as [Ht Hp].
    destruct (handleBuzz _ _ _) as [game' success]. simpl in *.
    eapply serverInv_put_frame; eassumption.
  - (* CLEAR_BUZZERS *)
    injection Hrun as <- _ _. unfold handleClearBuzzers.
    destruct (hostGuard s ws gameCode) as [game|] eqn:G; [|assumption].
    apply hostGuard_game in G. simpl.
    eapply serverInv_put_frame; try eassumption; reflexivity.
  - (* CLEAR_PLAYER_BUZZ *)
    injection Hrun as <- _ _. unfold handleClearPlayerBuzz.
    destruct (hostGuard s ws gameCode) as [game|] eqn:G; [|assumption].
    apply hostGuard_game in G.
    destruct (spliceBuzz _ _) as [[cleared rest]|]; [|assumption]. simpl.
    eapply serverInv_put_frame; try eassumption; reflexivity.
  - (* ENABLE_SCORING *)
    injection Hrun as <- _ _. unfold handleEnableScoring.
    destruct (hostGuard s ws gameCode) as [game|] eqn:G; [|assumption].
    apply hostGuard_game in G. simpl.
    eapply serverInv_put_frame; try eassumption; reflexivity.
  - (* SUBMIT_SCORE *)
    eapply handleSubmitScore_inv; eassumption.
  - (* MANAGER_CHANGED *)
    injection Hrun as <- _ _. unfold handleManagerChanged.
    destruct (hostGuard s ws gameCode) as [game|] eqn:G; [|assumption].
    apply hostGuard_game in G.
    destruct (JsMap.get _ _ (GameState.teams game)) as [team|] eqn:T;
      [|assumption]. simpl.
    apply serverInv_put; [|assumption].
    apply P_manager; [|assumption]. eapply serverInv_game; eassumption.
  - (* SCORE_UPDATED *)
    injection Hrun as <- _ _. unfold handleScoreUpdated.
    destruct (hostGuard s ws gameCode) as [game|] eqn:G; [|assumption].
    apply hostGuard_game in G.
    destruct (JsMap.get _ _ (GameState.teams game)) as [team|] eqn:T;
      [|assumption]. simpl.
    apply serverInv_put; [|assumption].
    eapply P_scoreUpdated; [exact Hallowed | | assumption].
    eapply serverInv_game; eassumption.
  - (* REVEAL_FINAL_SCORES *)
    injection Hrun as <- _ _. unfold handleRevealFinalScores.
    destruct (hostGuard s ws gameCode) as [game|] eqn:G; [|assumption].
    apply hostGuard_game in G. simpl.
    eapply serverInv_put_frame; try eassumption; reflexivity.
  - (* LEAVE_GAME *)
    injection Hrun as <- _ _. now apply handleLeaveGame_inv.
  - (* PLAYER_DISCONNECT *)
    injection Hrun as <- _ _. now apply handleDisconnection_inv.
  - (* GET_TEAMS *)
    injection Hrun as <- _ _. unfold handleGetTeams.
    now destruct (JsMap.get _ _ _).
  - injection Hrun as <- _ _. assumption.
Qed.

Lemma step_inv env s i s' out :
  allowed i -> step env s i = Some (s', out) ->
  serverInv P s -> serverInv P s'.
Proof.
  intros Hallowed Hstep Hinv. destruct i as [ws data|ws|k|k|]; simpl in Hstep.
  - destruct data as [message|]; simpl in Hstep.
    + destruct (handleMessage env s ws message) as [[[s1 o1] t1]|] eqn:E;
        [|discriminate].
      injection Hstep as <- _. eapply handleMessage_inv; eassumption.
    + now injection Hstep as <- _.
  - injection Hstep as Hs.
    pose proof (handleDisconnection_inv env s ws Hinv) as H.
    now rewrite Hs in H.
  - injection Hstep as Hs.
    pose proof (resolveLoad_inv env s k Hinv) as H.
    now rewrite Hs in H.
  - injection Hstep as <- _. now apply cleanupTimer_inv.
  - injection Hstep as <- _. now apply sweep_inv.
Qed.

Lemma reachableBy_inv s : reachableBy allowed s -> serverInv P s.
Proof.
  induction 1 as [|s env i s' out _ IH Hallowed Hstep].
  - split; constructor.
  - eapply step_inv; eassumption.
Qed.
End Lifting.

(** ** Traces and reachability *)

Lemma run_reachableBy (allowed : Input -> Prop) (trace : list (Env.t * Input)) :
  forall s s' out,
    reachableBy allowed s ->
    Forall (fun ei => allowed (snd ei)) trace ->
    run s trace = Some (s', out) -> reachableBy allowed s'.
Proof.
  induction trace as [|[env i] trace IH]; intros s s' out Hs Hall Hrun;
    simpl in Hrun.
  - now injection Hrun as <- _.
  - inversion Hall as [|? ? Hi Hrest]; subst. simpl in Hi.
    destruct (step env s i) as [[s1 out1]|] eqn:Hstep; [|discriminate].
    destruct (run s1 trace) as [[s2 out2]|] eqn:Hrun'; [|discriminate].
    injection Hrun as <- _.
    eapply IH; [|exact Hrest|exact Hrun'].
    eapply reachBy_step; eassumption.
Qed.

Lemma stateAfter_reachableBy (allowed : Input -> Prop)
    (trace : list (Env.t * Input)) :
  Forall (fun ei => allowed (snd ei)) trace ->
  run Server.init trace <> None ->
  reachableBy allowed (stateAfter trace).
Proof.
  intros Hall Hrun. unfold stateAfter.
  destruct (run Server.init trace) as [[s out]|] eqn:E; [|congruence].
  eapply run_reachableBy; [apply reachBy_init | exact Hall | exact E].
Qed.

(** ** Score totals *)

Lemma addToTeam_scores (playerId : string) (playerData : PlayerData.t)
    (team : Team.t) :
  Team.name (addToTeam playerId playerData team) = Team.name team
  /\ Team.totalScore (addToTeam playerId playerData team)
     = Team.totalScore team
  /\ Team.roundScores (addToTeam playerId playerData team)
     = Team.roundScores team.
Proof.
  unfold addToTeam.
  destruct (find _ _);
    destruct (PlayerData.isManager playerData || manager_falsy _);
    simpl; tauto.
Qed.

Lemma removeFromTeam_scores (playerId : string) (team : Team.t) :
  Team.name (removeFromTeam playerId team) = Team.name team
  /\ Team.totalScore (removeFromTeam playerId team) = Team.totalScore team
  /\ Team.roundScores (removeFromTeam playerId team) = Team.roundScores team.
Proof.
  unfold removeFromTeam.
  destruct (manager_is _ _ && _); [|simpl; tauto].
  destruct (filter _ _); simpl; tauto.
Qed.

Lemma scoresOk_frame (g g' : GameState.t) :
  GameState.teams g' = GameState.teams g ->
  GameState.players g' = GameState.players g -> scoresOk g -> scoresOk g'.
Proof. unfold scoresOk. now intros -> _. Qed.

Lemma scoresOk_team (g : GameState.t) (teamName : string) (team : Team.t) :
  scoresOk g ->
  JsMap.get String.eqb teamName (GameState.teams g) = Some team ->
  scoreConsistent team.
Proof.
  unfold scoresOk. intros Hok Hget.
  apply (get_In_values _ String.eqb_eq) in Hget.
  rewrite Forall_forall in Hok. now apply Hok.
Qed.

Lemma scoresOk_addPlayer (playerId : string) (playerData : PlayerData.t)
    (g : GameState.t) :
  scoresOk g -> scoresOk (addPlayer playerId playerData g).
Proof.
  intros Hok. unfold scoresOk, addPlayer. simpl.
  apply Forall_values_set; [|exact Hok].
  unfold scoreConsistent.
  destruct (addToTeam_scores playerId playerData
              match JsMap.get String.eqb (PlayerData.teamName playerData)
                      (GameState.teams g) with
              | Some team => team
              | None => newTeam (PlayerData.teamName playerData)
              end) as [_ [-> ->]].
  destruct (JsMap.get _ _ _) as [team|] eqn:G; [|reflexivity].
  eapply scoresOk_team; eassumption.
Qed.

Lemma scoresOk_removePlayer (playerId : string) (g : GameState.t) :
  scoresOk g -> scoresOk (removePlayer playerId g).
Proof.
  intros Hok. unfold scoresOk, removePlayer. simpl.
  destruct (JsMap.get _ playerId _) as [player|]; [|exact Hok].
  destruct (JsMap.get _ (PlayerData.teamName player) _) as [team|] eqn:G;
    [|exact Hok].
  destruct (Nat.eqb _ 0).
  - now apply Forall_values_delete.
  - apply Forall_values_set; [|exact Hok].
    unfold scoreConsistent.
    destruct (removeFromTeam_scores playerId team) as [_ [-> ->]].
    eapply scoresOk_team; eassumption.
Qed.

Lemma scoresOk_load (now now' : Z) (g g' : GameState.t) :
  scoresOk g ->
  loadGameState now' (Some (saveGameState now g)) = Some g' -> scoresOk g'.
Proof.
  unfold loadGameState, scoresOk. intros Hok.
  destruct (expired now' (Persisted.expiresAt (saveGameState now g)));
    [discriminate|].
  intros [= <-]. simpl.
  apply Forall_forall. intros team Hin.
  apply of_entries_values in Hin. rewrite map_map in Hin. simpl in Hin.
  rewrite map_id in Hin. rewrite Forall_forall in Hok. now apply Hok.
Qed.

Lemma reachable_scoresOk (s : Server.t) :
  reachableBy notScoreUpdated s -> serverInv scoresOk s.
Proof.
  apply reachableBy_inv.
  - exact scoresOk_frame.
  - intros. constructor.
  - exact scoresOk_addPlayer.
  - exact scoresOk_removePlayer.
  - intros g teamName team newManagerId Hok Hget. unfold scoresOk. simpl.
    apply Forall_values_set; [|exact Hok].
    unfold scoreConsistent. simpl. eapply scoresOk_team; eassumption.
  - intros g teamName team roundScores Hok Hget. unfold scoresOk. simpl.
    apply Forall_values_set; [|exact Hok]. reflexivity.
  - intros ws gameCode teamName scores totalScore [].
  - exact scoresOk_load.
Qed.

(** ** Maps keyed by name, and the save / load round trip *)

Lemma keyedByName_get (teams : list (string * Team.t)) (teamName : string)
    (team : Team.t) :
  keyedByName teams ->
  JsMap.get String.eqb teamName teams = Some team ->
  Team.name team = teamName.
Proof.
  unfold keyedByName. intros Hk Hget.
  apply (get_In _ String.eqb_eq) in Hget.
  rewrite Forall_forall in Hk. exact (Hk _ Hget).
Qed.

Lemma keyedByName_rekey (teams : list (string * Team.t)) :
  keyedByName teams ->
  map (fun team => (Team.name team, team)) (JsMap.values teams) = teams.
Proof.
  unfold keyedByName, JsMap.values.
  induction teams as [|[k t] teams IH]; intros Hk; [reflexivity|].
  inversion Hk as [|? ? Hhead Htail]; subst. simpl in *.
  now rewrite Hhead, IH.
Qed.

Lemma mapsOk_frame (g g' : GameState.t) :
  GameState.teams g' = GameState.teams g ->
  GameState.players g' = GameState.players g -> mapsOk g -> mapsOk g'.
Proof. unfold mapsOk. now intros -> ->. Qed.

(** Storing, under a team's key, a team that still carries that name. *)
Lemma mapsOk_set_team (g : GameState.t) (teamName : string) (team' : Team.t) :
  mapsOk g -> Team.name team' = teamName ->
  mapsOk (GameState.set_teams
            (JsMap.set String.eqb teamName team' (GameState.teams g)) g).
Proof.
  intros [Hnd [Hk Hp]] Hname. unfold mapsOk. simpl. repeat split.
  - now apply (NoDup_keys_set _ String.eqb_eq).
  - apply Forall_set; assumption.
  - exact Hp.
Qed.

Lemma mapsOk_addPlayer (playerId : string) (playerData : PlayerData.t)
    (g : GameState.t) :
  mapsOk g -> mapsOk (addPlayer playerId playerData g).
Proof.
  intros [Hnd [Hk Hp]]. unfold mapsOk, addPlayer. simpl. repeat split.
  - now apply (NoDup_keys_set _ String.eqb_eq).
  - apply Forall_set; [|exact Hk]. simpl.
    destruct (addToTeam_scores playerId playerData
                match JsMap.get String.eqb (PlayerData.teamName playerData)
                        (GameState.teams g) with
                | Some team => team
                | None => newTeam (PlayerData.teamName playerData)
                end) as [-> _].
    destruct (JsMap.get _ _ _) as [team|] eqn:G; [|reflexivity].
    eapply keyedByName_get; eassumption.
  - now apply (NoDup_keys_set _ String.eqb_eq).
Qed.

Lemma mapsOk_removePlayer (playerId : string) (g : GameState.t) :
  mapsOk g -> mapsOk (removePlayer playerId g).
Proof.
  intros [Hnd [Hk Hp]]. unfold mapsOk, removePlayer. simpl.
  assert (Hp' : NoDup (JsMap.keys
                         (JsMap.delete String.eqb playerId
                            (GameState.players g))))
    by now apply NoDup_keys_delete.
  destruct (JsMap.get _ playerId _) as [player|]; [|now repeat split].
  destruct (JsMap.get _ (PlayerData.teamName player) _) as [team|] eqn:G;
    [|now repeat split].
  destruct (Nat.eqb _ 0); repeat split; try assumption.
  - now apply NoDup_keys_delete.
  - now apply Forall_delete.
  - now apply (NoDup_keys_set _ String.eqb_eq).
  - apply Forall_set; [|exact Hk]. simpl.
    destruct (removeFromTeam_scores playerId team) as [-> _].
    eapply keyedByName_get; eassumption.
Qed.

Lemma not_expired (now now' : Z) :
  now' <= now + fourHours -> expired now' (Some (now + fourHours)) = false.
Proof.
  intros Hle. unfold expired.
  destruct (Z.ltb_spec (now + fourHours) now'); [lia|].
  apply andb_false_r.
Qed.

(** What [loadGameState] rebuilds from a record that has not expired:
    the saved session, with no host connection, and with the empty
    games array where the session had none. *)
Lemma load_save (now now' : Z) (g : GameState.t) :
  mapsOk g ->
  expired now' (Some (now + fourHours)) = false ->
  loadGameState now' (Some (saveGameState now g))
  = Some (GameState.set_games (Some (orEmpty (GameState.games g)))
            (GameState.set_hostConnection None g)).
Proof.
  intros [Hnd [Hk Hp]] Hexp. unfold loadGameState.
  cbn [saveGameState Persisted.expiresAt]. rewrite Hexp.
  f_equal. destruct g as [gc hid hc cg cr gs ts ps bs se st en ca].
  simpl in *. unfold GameState.set_hostConnection. simpl.
  rewrite (keyedByName_rekey _ Hk).
  unfold JsMap.entries.
  rewrite !(of_entries_id _ String.eqb_eq) by assumption.
  reflexivity.
Qed.

Lemma mapsOk_load (now now' : Z) (g g' : GameState.t) :
  mapsOk g ->
  loadGameState now' (Some (saveGameState now g)) = Some g' -> mapsOk g'.
Proof.
  intros Hok Hload.
  destruct (expired now' (Some (now + fourHours))) eqn:Hexp.
  - unfold loadGameState in Hload.
    cbn [saveGameState Persisted.expiresAt] in Hload.
    rewrite Hexp in Hload. discriminate.
  - rewrite (load_save _ _ _ Hok Hexp) in Hload. injection Hload as <-.
    eapply mapsOk_frame; [| |exact Hok]; reflexivity.
Qed.

Lemma reachable_mapsOk (s : Server.t) : reachable s -> serverInv mapsOk s.
Proof.
  apply reachableBy_inv.
  - exact mapsOk_frame.
  - intros. repeat split; constructor.
  - exact mapsOk_addPlayer.
  - exact mapsOk_removePlayer.
  - intros g teamName team newManagerId Hok Hget.
    apply mapsOk_set_team; [exact Hok|]. simpl.
    destruct Hok as [_ [Hk _]]. eapply keyedByName_get; eassumption.
  - intros g teamName team roundScores Hok Hget.
    apply mapsOk_set_team; [exact Hok|]. simpl.
    destruct Hok as [_ [Hk _]]. eapply keyedByName_get; eassumption.
  - intros ws gameCode teamName scores totalScore _ g team Hok Hget.
    apply mapsOk_set_team; [exact Hok|]. simpl.
    destruct Hok as [_ [Hk _]]. eapply keyedByName_get; eassumption.
  - exact mapsOk_load.
Qed.

(** C5, as the code has it.  For every session a reachable server
    holds: the record [saveGameState] writes at time [now], read back by
    [loadGameState] no later than four hours after [now], yields a
    session with the same teams (names, members, scores, managers, in
    the same order), buzz queue, cursor, games list and flags as the
    original, and with no host connection.  (A session that has no
    games list, its [games] field being undefined, comes back with the
    empty one.) *)
Theorem save_load_roundtrip_before_expiry :
  forall (s : Server.t) (gameCode : string) (g : GameState.t) (now now' : Z),
    reachable s ->
    JsMap.get String.eqb gameCode (Server.games s) = Some g ->
    now' <= now + fourHours ->
    exists g',
      loadGameState now' (Some (saveGameState now g)) = Some g'
      /\ GameState.teams g' = GameState.teams g
      /\ GameState.buzzedPlayers g' = GameState.buzzedPlayers g
      /\ GameState.currentGame g' = GameState.currentGame g
      /\ GameState.currentRound g' = GameState.currentRound g
      /\ (GameState.games g <> None ->
          GameState.games g' = GameState.games g)
      /\ GameState.games g' = Some (orEmpty (GameState.games g))
      /\ GameState.gameStarted g' = GameState.gameStarted g
      /\ GameState.gameEnded g' = GameState.gameEnded g
      /\ GameState.scoringEnabled g' = GameState.scoringEnabled g
      /\ GameState.hostConnection g' = None.
Proof.
  intros s gameCode g now now' Hreach Hget Hle.
  exists (GameState.set_games (Some (orEmpty (GameState.games g)))
            (GameState.set_hostConnection None g)).
  split; [|repeat split; try reflexivity;
           simpl; destruct (GameState.games g); [reflexivity | congruence]].
  apply load_save; [|now apply not_expired].
  eapply serverInv_game; [|exact Hget]. now apply reachable_mapsOk.
Qed.

(** C5 fails as stated: the record of the sample session written at
    time 1000 and read one millisecond after its four hours yields no
    session. *)
Lemma load_after_expiry_yields_nothing :
  reachable exServer
  /\ JsMap.get String.eqb "123456" (Server.games exServer)
     = Some (exSession exServer)
  /\ loadGameState (1000 + fourHours + 1)
       (Some (saveGameState 1000 (exSession exServer))) = None.
Proof.
  split.
  { apply stateAfter_reachableBy.
    - apply Forall_forall. intros ei _. exact I.
    - vm_compute. discriminate. }
  split; vm_compute; reflexivity.
Qed.

(** ** The buzz queue *)

(** What the test of [handleBuzz] does achieve: while every record
    names the current team of its player, a buzz keeps the queue at one
    record per team. *)
Lemma handleBuzz_oneBuzzPerTeam (now : Z) (playerId : string)
    (g : GameState.t) :
  oneBuzzPerTeam g -> buzzCurrent g ->
  oneBuzzPerTeam (fst (handleBuzz now playerId g))
  /\ buzzCurrent (fst (handleBuzz now playerId g)).
Proof.
  intros Hone Hcur. unfold handleBuzz.
  destruct (JsMap.get String.eqb playerId (GameState.players g))
    as [player|] eqn:Hplayer; [|now split].
  destruct (negb (GameState.gameStarted g)); [now split|].
  destruct (teamHasBuzzed (PlayerData.teamName player) g) eqn:Hteam;
    [now split|].
  simpl. split.
  - unfold oneBuzzPerTeam in *. simpl. rewrite map_app. simpl.
    apply NoDup_app; repeat split; try assumption.
    + constructor; [simpl; tauto | constructor].
    + intros tn Hin [Heq|[]]. subst tn.
      apply in_map_iff in Hin. destruct Hin as [b [Hb Hin]].
      destruct (Hcur b Hin) as [pb [Hget Hsame]].
      unfold teamHasBuzzed in Hteam.
      assert (Hex : existsb
                (fun b0 =>
                   match JsMap.get String.eqb (Buzz.playerId b0)
                           (GameState.players g) with
                   | Some buzzedPlayer =>
                       String.eqb (PlayerData.teamName buzzedPlayer)
                                  (PlayerData.teamName player)
                   | None => false
                   end) (GameState.buzzedPlayers g) = true).
      { apply existsb_exists. exists b. split; [exact Hin|].
        rewrite Hget, Hsame, Hb. apply String.eqb_refl. }
      rewrite Hex in Hteam. discriminate.
  - intros b Hin. simpl in *. apply in_app_or in Hin.
    destruct Hin as [Hin|[<-|[]]].
    + now apply Hcur.
    + simpl. exists player. now split.
Qed.

(** C2 fails on the code.  In the sample run, Ann buzzes for Red, then
    joins again under team Blue without leaving, and Bob's buzz for Red
    is accepted: the queue of this reachable state holds two records
    with team name Red. *)
Theorem buzz_queue_same_team_twice :
  reachable (stateAfter exSwitchTrace)
  /\ map Buzz.playerId
       (GameState.buzzedPlayers (exSession (stateAfter exSwitchTrace)))
     = ["P1"; "P2"]
  /\ map Buzz.teamName
       (GameState.buzzedPlayers (exSession (stateAfter exSwitchTrace)))
     = ["Red"; "Red"]
  /\ ~ oneBuzzPerTeam (exSession (stateAfter exSwitchTrace)).
Proof.
  split.
  { apply stateAfter_reachableBy.
    - apply Forall_forall. intros ei _. exact I.
    - vm_compute. discriminate. }
  split; [vm_compute; reflexivity|].
  assert (H : map Buzz.teamName
                (GameState.buzzedPlayers (exSession (stateAfter exSwitchTrace)))
              = ["Red"; "Red"]) by (vm_compute; reflexivity).
  split; [exact H|].
  unfold oneBuzzPerTeam. rewrite H. intros Hnd.
  inversion Hnd as [|? ? Hnotin _]; subst. apply Hnotin. now left.
Qed.

(** ** [handleCreateGame] *)

Lemma uniqueCode_eq (games : list (string * GameState.t)) (gameCode : string)
    (draws : list N) :
  uniqueCode games gameCode draws
  = if JsMap.has String.eqb gameCode games
    then match draws with
         | [] => None
         | u :: rest => uniqueCode games (generateGameCode u) rest
         end
    else Some gameCode.
Proof. destruct draws; reflexivity. Qed.

Lemma uniqueCode_fresh (games : list (string * GameState.t)) (draws : list N) :
  forall gameCode newCode,
    uniqueCode games gameCode draws = Some newCode ->
    JsMap.has String.eqb newCode games = false.
Proof.
  induction draws as [|u rest IH]; intros gameCode newCode;
    rewrite uniqueCode_eq;
    destruct (JsMap.has String.eqb gameCode games) eqn:Hhas;
    try discriminate; try (intros [= <-]; exact Hhas).
  apply IH.
Qed.

Lemma nextCode_terminates (games : list (string * GameState.t))
    (draws : list N) :
  (exists u, In u draws
             /\ JsMap.has String.eqb (generateGameCode u) games = false) ->
  exists newCode,
    match draws with
    | [] => None
    | u :: rest => uniqueCode games (generateGameCode u) rest
    end = Some newCode.
Proof.
  induction draws as [|u rest IH]; intros [v [Hin Hfresh]]; [contradiction|].
  rewrite uniqueCode_eq.
  destruct (JsMap.has String.eqb (generateGameCode u) games) eqn:Hhas;
    [|now eexists].
  apply IH. exists v. split; [|exact Hfresh].
  destruct Hin as [->|Hin]; [congruence | exact Hin].
Qed.

Lemma chooseCode_resident (games : list (string * GameState.t))
    (gameCode : string) (draws : list N) :
  JsMap.has String.eqb gameCode games = true ->
  (exists u, In u draws
             /\ JsMap.has String.eqb (generateGameCode u) games = false) ->
  exists newCode,
    chooseCode games (Some gameCode) draws = Some newCode
    /\ JsMap.has String.eqb newCode games = false.
Proof.
  intros Hres Hdraw.
  destruct (nextCode_terminates games draws Hdraw) as [newCode Hnext].
  exists newCode.
  assert (Hc : chooseCode games (Some gameCode) draws = Some newCode).
  { unfold chooseCode, truthy_code.
    destruct (String.eqb gameCode ""); [exact Hnext|].
    rewrite uniqueCode_eq, Hres. exact Hnext. }
  split; [exact Hc|].
  destruct draws as [|u rest]; [discriminate|].
  eapply uniqueCode_fresh; exact Hnext.
Qed.

(** C8.  When [CREATE_GAME] asks for a code that is already resident
    and the random draws contain a code that is not, the handler
    returns: it settles on a code different from the requested one and
    unused so far, stores a new session under it -- the sender is its
    host connection, it carries the new code and the host id of the
    message, and it is otherwise as the constructor leaves it --
    records the sender in the directory as host of that code, and
    confirms that code to the sender.  The session under the requested
    code, and every other resident session, is the object it was (host
    connection, teams and flags included), and no other directory
    entry changes. *)
Theorem createGame_resident_code_gets_fresh_session :
  forall (env : Env.t) (s : Server.t) (ws : Conn) (gameCode hostId : string)
         (existing : GameState.t),
    JsMap.get String.eqb gameCode (Server.games s) = Some existing ->
    (exists u, In u (Env.draws env)
               /\ JsMap.has String.eqb (generateGameCode u) (Server.games s)
                  = false) ->
    exists newCode s',
      handleCreateGame env s ws (Some gameCode) hostId
      = Some (s', [(ws, Ev.GAME_CREATED newCode false)])
      /\ newCode <> gameCode
      /\ JsMap.get String.eqb newCode (Server.games s) = None
      /\ (exists created,
            JsMap.get String.eqb newCode (Server.games s') = Some created
            /\ GameState.hostConnection created = Some ws
            /\ GameState.hostId created = hostId
            /\ GameState.gameCode created = newCode
            /\ GameState.teams created = []
            /\ GameState.players created = []
            /\ GameState.buzzedPlayers created = []
            /\ GameState.games created = Some []
            /\ GameState.currentGame created = 1
            /\ GameState.currentRound created = 1
            /\ GameState.gameStarted created = false
            /\ GameState.gameEnded created = false
            /\ GameState.scoringEnabled created = false
            /\ GameState.createdAt created = Env.now env)
      /\ JsMap.get String.eqb gameCode (Server.games s') = Some existing
      /\ (forall c, c <> newCode ->
            JsMap.get String.eqb c (Server.games s')
            = JsMap.get String.eqb c (Server.games s))
      /\ JsMap.get Nat.eqb ws (Server.connections s')
         = Some (HostConn newCode hostId)
      /\ (forall w, w <> ws ->
            JsMap.get Nat.eqb w (Server.connections s')
            = JsMap.get Nat.eqb w (Server.connections s))
      /\ (forall c, c <> newCode ->
            JsMap.get String.eqb c (Server.db s')
            = JsMap.get String.eqb c (Server.db s)).
Proof.
  intros env s ws gameCode hostId existing Hres Hdraw.
  assert (Hhas : JsMap.has String.eqb gameCode (Server.games s) = true).
  { apply has_true_iff. congruence. }
  destruct (chooseCode_resident _ _ _ Hhas Hdraw) as [newCode [Hc Hfresh]].
  assert (Hne : newCode <> gameCode) by congruence.
  exists newCode. eexists. unfold handleCreateGame. rewrite Hc.
  split; [reflexivity|]. simpl.
  split; [exact Hne|].
  split; [now apply has_false_iff|].
  split.
  { eexists. split; [apply (get_set_same _ String.eqb_eq)|].
    repeat split. }
  split; [now rewrite (get_set_other _ String.eqb_eq)|].
  split; [intros c Hc'; apply (get_set_other _ String.eqb_eq); congruence|].
  split; [apply (get_set_same _ Nat.eqb_eq)|].
  split; [intros w Hw; apply (get_set_other _ Nat.eqb_eq); congruence|].
  intros c Hc'. apply (get_set_other _ String.eqb_eq). congruence.
Qed.

(** ** The theorems at the sample inputs *)

Lemma roster_ops_keep_one_manager_witness :
  In (exRed exRosterSession) (JsMap.values (GameState.teams exRosterSession))
  /\ Team.members (exRed exRosterSession) <> []
  /\ oneManager (exRed exRosterSession).
Proof.
  assert (H1 : In (exRed exRosterSession)
                 (JsMap.values (GameState.teams exRosterSession)))
    by (vm_compute; now left).
  assert (H2 : Team.members (exRed exRosterSession) <> [])
    by (vm_compute; discriminate).
  split; [exact H1|]. split; [exact H2|].
  exact (roster_ops_keep_one_manager 0 "123456" "host-1" exRoster
           (exRed exRosterSession) H1 H2).
Defined.

Lemma submitScore_non_manager_unauthorized_witness :
  JsMap.get String.eqb "123456" (Server.games exServer)
  = Some (exSession exServer)
  /\ JsMap.get String.eqb "Red" (GameState.teams (exSession exServer))
     = Some (exRed (exSession exServer))
  /\ Team.manager (exRed (exSession exServer)) <> Some "P2"
  /\ handleSubmitScore exEnv exServer 2%nat exSubmitBob
     = Some (exServer, [(2%nat, unauthorized)], false)
  /\ onMessage exEnv exServer 2%nat (Some (Req.SUBMIT_SCORE exSubmitBob))
     = Some (exServer, [(2%nat, unauthorized)]).
Proof.
  assert (H1 : JsMap.get String.eqb (Req.s_gameCode exSubmitBob)
                 (Server.games exServer) = Some (exSession exServer))
    by (vm_compute; reflexivity).
  assert (H2 : JsMap.get String.eqb (Req.s_teamName exSubmitBob)
                 (GameState.teams (exSession exServer))
               = Some (exRed (exSession exServer)))
    by (vm_compute; reflexivity).
  assert (H3 : Team.manager (exRed (exSession exServer))
               <> Some (Req.s_playerId exSubmitBob))
    by (vm_compute; discriminate).
  split; [exact H1|]. split; [exact H2|]. split; [exact H3|].
  exact (submitScore_non_manager_unauthorized exEnv exServer 2%nat exSubmitBob
           (exSession exServer) (exRed (exSession exServer)) H1 H2
           (or_intror H3)).
Defined.

Lemma submitScore_absent_team_dropped_witness :
  JsMap.get String.eqb "123456" (Server.games exServer)
  = Some (exSession exServer)
  /\ JsMap.get String.eqb "Blue" (GameState.teams (exSession exServer)) = None
  /\ handleSubmitScore exEnv exServer 1%nat exSubmitBlue
     = Some (exServer, [], false)
  /\ onMessage exEnv exServer 1%nat (Some (Req.SUBMIT_SCORE exSubmitBlue))
     = Some (exServer, []).
Proof.
  assert (H1 : JsMap.get String.eqb (Req.s_gameCode exSubmitBlue)
                 (Server.games exServer) = Some (exSession exServer))
    by (vm_compute; reflexivity).
  assert (H2 : JsMap.get String.eqb (Req.s_teamName exSubmitBlue)
                 (GameState.teams (exSession exServer)) = None)
    by (vm_compute; reflexivity).
  split; [exact H1|]. split; [exact H2|].
  exact (submitScore_absent_team_dropped exEnv exServer 1%nat exSubmitBlue
           (exSession exServer) H1 H2).
Defined.



Lemma save_load_roundtrip_before_expiry_witness :
  reachable exServer
  /\ JsMap.get String.eqb "123456" (Server.games exServer)
     = Some (exSession exServer)
  /\ 2000 <= 1000 + fourHours
  /\ exists g',
       loadGameState 2000 (Some (saveGameState 1000 (exSession exServer)))
       = Some g'
       /\ GameState.teams g' = GameState.teams (exSession exServer)
       /\ GameState.buzzedPlayers g'
          = GameState.buzzedPlayers (exSession exServer)
       /\ GameState.games g' = GameState.games (exSession exServer)
       /\ GameState.gameStarted g' = GameState.gameStarted (exSession exServer).
Proof.
  assert (H1 : reachable exServer).
  { apply stateAfter_reachableBy.
    - apply Forall_forall. intros ei _. exact I.
    - vm_compute. discriminate. }
  assert (H2 : JsMap.get String.eqb "123456" (Server.games exServer)
               = Some (exSession exServer)) by (vm_compute; reflexivity).
  assert (H3 : 2000 <= 1000 + fourHours) by (vm_compute; discriminate).
  split; [exact H1|]. split; [exact H2|]. split; [exact H3|].
  destruct (save_load_roundtrip_before_expiry exServer "123456"
              (exSession exServer) 1000 2000 H1 H2 H3)
    as [g' [Hload [Ht [Hb [_ [_ [Hg [_ [Hs _]]]]]]]]].
  exists g'. repeat split; try assumption.
  apply Hg. vm_compute. discriminate.
Defined.

Lemma createGame_resident_code_gets_fresh_session_witness :
  JsMap.get String.eqb "123456" (Server.games exServer)
  = Some (exSession exServer)
  /\ In 5%N (Env.draws exDrawEnv)
  /\ JsMap.has String.eqb (generateGameCode 5) (Server.games exServer) = false
  /\ exists newCode s',
       handleCreateGame exDrawEnv exServer 7%nat (Some "123456") "host-2"
       = Some (s', [(7%nat, Ev.GAME_CREATED newCode false)])
       /\ newCode <> "123456"
       /\ (exists created,
             JsMap.get String.eqb newCode (Server.games s') = Some created
             /\ GameState.hostConnection created = Some 7%nat
             /\ GameState.hostId created = "host-2")
       /\ JsMap.get String.eqb "123456" (Server.games s')
          = Some (exSession exServer)
       /\ JsMap.get Nat.eqb 7%nat (Server.connections s')
          = Some (HostConn newCode "host-2").
Proof.
  assert (H1 : JsMap.get String.eqb "123456" (Server.games exServer)
               = Some (exSession exServer)) by (vm_compute; reflexivity).
  assert (H2 : In 5%N (Env.draws exDrawEnv)) by (simpl; now left).
  assert (H3 : JsMap.has String.eqb (generateGameCode 5)
                 (Server.games exServer) = false)
    by (vm_compute; reflexivity).
  split; [exact H1|]. split; [exact H2|]. split; [exact H3|].
  destruct (createGame_resident_code_gets_fresh_session exDrawEnv exServer
              7%nat "123456" "host-2" (exSession exServer) H1
              (ex_intro _ 5%N (conj H2 H3)))
    as [newCode [s' [Hrun [Hne [_ [Hnew [Hold [_ [Hconn _]]]]]]]]].
  destruct Hnew as [created [Hget [Hhost [Hid _]]]].
  exists newCode, s'. split; [exact Hrun|]. split; [exact Hne|].
  split; [exists created; repeat split; assumption|].
  split; assumption.
Defined.

Lemma addPlayer_rejoin_keeps_descriptors_witness :
  JsMap.get String.eqb "Red" (GameState.teams (exSession exServer))
  = Some (exRed (exSession exServer))
  /\ In "P1" (memberIds (exRed (exSession exServer)))
  /\ exists team',
       JsMap.get String.eqb "Red"
         (GameState.teams (addPlayer "P1" exAnnie (exSession exServer)))
       = Some team'
       /\ map descriptor (Team.members team')
          = map descriptor (Team.members (exRed (exSession exServer)))
       /\ JsMap.get String.eqb "P1"
            (GameState.players (addPlayer "P1" exAnnie (exSession exServer)))
          = Some exAnnie.
Proof.
  assert (H1 : JsMap.get String.eqb (PlayerData.teamName exAnnie)
                 (GameState.teams (exSession exServer))
               = Some (exRed (exSession exServer)))
    by (vm_compute; reflexivity).
  assert (H2 : In "P1" (memberIds (exRed (exSession exServer))))
    by (vm_compute; now left).
  split; [exact H1|]. split; [exact H2|].
  destruct (addPlayer_rejoin_keeps_descriptors "P1" exAnnie
              (exSession exServer) (exRed (exSession exServer)) H1 H2)
    as [team' [Hget [Hdesc [_ [_ [_ Hplayer]]]]]].
  exists team'. repeat split; assumption.
Defined.

(** ** Scenarios of the specification *)

(** P1 and P2 are on Red; P1 buzzes and is accepted, P2 buzzes and is
    refused. *)
Example scenario_teammate_locked_out :
  map Buzz.playerId (GameState.buzzedPlayers (exSession (stateAfter exBuzzTrace)))
  = ["P1"]
  /\ In (1%nat, Ev.BUZZ_RESPONSE (Some "P1") true "Buzzed in!")
        (sendsOf exBuzzTrace)
  /\ In (2%nat, Ev.BUZZ_RESPONSE (Some "P2") false
                  "Team already buzzed or game not started")
        (sendsOf exBuzzTrace).
Proof.
  split; [vm_compute; reflexivity|].
  split; vm_compute; tauto.
Qed.

(** One game of three rounds: 50 for round 1 lands at index 0 with total
    50, then 20 for round 2 lands at index 1 with total 70. *)
Example scenario_two_submissions :
  filter isScoreSubmitted (sendsOf exQuizTrace)
  = [ (0%nat, Ev.SCORE_SUBMITTED "Red" 50 (Fin 0) (Fin 50) [Some 50]);
      (0%nat, Ev.SCORE_SUBMITTED "Red" 20 (Fin 1) (Fin 70)
                [Some 50; Some 20]) ].
Proof. vm_compute. reflexivity. Qed.

(** A buzz is refused while the game has not started. *)
Example buzz_refused_before_start (now : Z) (playerId : string)
    (g : GameState.t) :
  GameState.gameStarted g = false -> handleBuzz now playerId g = (g, false).
Proof.
  intros Hs. unfold handleBuzz. rewrite Hs.
  now destruct (JsMap.get _ _ _).
Qed.

Example generateGameCode_sample : generateGameCode 5 = "100005".
Proof. vm_compute. reflexivity. Qed.

(* ================================================================= *)
(** * Further properties of the handlers *)

(** ** The host guard *)

Lemma hostGuard_not_host (s : Server.t) (ws : Conn) (gameCode : string) :
  isHost s ws = false -> hostGuard s ws gameCode = None.
Proof.
  intros H. unfold hostGuard. rewrite H.
  now destruct (JsMap.get String.eqb gameCode (Server.games s)).
Qed.

Lemma hostGuard_host (s : Server.t) (ws : Conn) (gameCode : string)
    (game : GameState.t) :
  isHost s ws = true ->
  JsMap.get String.eqb gameCode (Server.games s) = Some game ->
  hostGuard s ws gameCode = Some game.
Proof. intros H G. unfold hostGuard. now rewrite G, H. Qed.

(** X1.  A host-only message from a socket that the directory does not
    list as a host (a player's socket, or one not bound at all) is
    dropped: the server state is the same and nothing is sent, not even
    an error. *)
Theorem host_only_message_from_non_host_dropped :
  forall (env : Env.t) (s : Server.t) (ws : Conn) (message : Req.t),
    hostOnly message = true ->
    isHost s ws = false ->
    onMessage env s ws (Some message) = Some (s, []).
Proof.
  intros env s ws message Honly Hnot.
  destruct message; try discriminate Honly; unfold onMessage; simpl;
    unfold handleGameStarted, handleRoundUpdate, handleClearBuzzers,
      handleClearPlayerBuzz, handleEnableScoring, handleManagerChanged,
      handleScoreUpdated, handleRevealFinalScores;
    now rewrite (hostGuard_not_host s ws _ Hnot).
Qed.

(** X2.  The host guard looks at the sender's role only, never at the
    game it hosts: a socket registered as host of one game can clear the
    buzz queue, end the game and overwrite a team's scores of any other
    resident game. *)
Theorem host_of_one_game_controls_any_game :
  forall (env : Env.t) (s : Server.t) (ws : Conn)
         (ownCode hostId gameCode : string) (game : GameState.t),
    JsMap.get Nat.eqb ws (Server.connections s) = Some (HostConn ownCode hostId) ->
    JsMap.get String.eqb gameCode (Server.games s) = Some game ->
    gameAfter (onMessage env s ws (Some (Req.CLEAR_BUZZERS gameCode))) gameCode
    = Some (GameState.set_buzzedPlayers [] game)
    /\ (forall standings,
          gameAfter
            (onMessage env s ws
               (Some (Req.REVEAL_FINAL_SCORES gameCode standings))) gameCode
          = Some (GameState.set_gameEnded true game))
    /\ (forall teamName team scores totalScore,
          JsMap.get String.eqb teamName (GameState.teams game) = Some team ->
          gameAfter
            (onMessage env s ws
               (Some (Req.SCORE_UPDATED gameCode teamName scores totalScore)))
            gameCode
          = Some (GameState.set_teams
                    (JsMap.set String.eqb teamName
                       (Team.set_scores scores (Fin totalScore) team)
                       (GameState.teams game)) game)).
Proof.
  intros env s ws ownCode hostId gameCode game Hconn Hgame.
  assert (Hhost : isHost s ws = true) by (unfold isHost; now rewrite Hconn).
  pose proof (hostGuard_host s ws gameCode game Hhost Hgame) as Hguard.
  repeat split.
  - unfold onMessage. simpl. unfold handleClearBuzzers. rewrite Hguard.
    simpl. apply (get_set_same _ String.eqb_eq).
  - intros standings. unfold onMessage. simpl.
    unfold handleRevealFinalScores. rewrite Hguard. simpl.
    apply (get_set_same _ String.eqb_eq).
  - intros teamName team scores totalScore Hteam. unfold onMessage. simpl.
    unfold handleScoreUpdated. rewrite Hguard, Hteam. simpl.
    apply (get_set_same _ String.eqb_eq).
Qed.

Lemma host_of_one_game_controls_any_game_witness :
  JsMap.get Nat.eqb 9%nat (Server.connections exTwoGames)
  = Some (HostConn "777777" "host-9")
  /\ JsMap.get String.eqb "123456" (Server.games exTwoGames)
     = Some (exSession exTwoGames)
  /\ gameAfter
       (onMessage exEnv exTwoGames 9%nat
          (Some (Req.REVEAL_FINAL_SCORES "123456" "final")))
       "123456"
     = Some (GameState.set_gameEnded true (exSession exTwoGames)).
Proof.
  assert (H1 : JsMap.get Nat.eqb 9%nat (Server.connections exTwoGames)
               = Some (HostConn "777777" "host-9"))
    by (vm_compute; reflexivity).
  assert (H2 : JsMap.get String.eqb "123456" (Server.games exTwoGames)
               = Some (exSession exTwoGames)) by (vm_compute; reflexivity).
  split; [exact H1|]. split; [exact H2|].
  destruct (host_of_one_game_controls_any_game exEnv exTwoGames 9%nat
              "777777" "host-9" "123456" (exSession exTwoGames) H1 H2)
    as [_ [Hend _]].
  exact (Hend "final").
Defined.

Lemma host_only_message_from_non_host_dropped_witness :
  hostOnly (Req.CLEAR_BUZZERS "123456") = true
  /\ isHost exServer 1%nat = false
  /\ onMessage exEnv exServer 1%nat (Some (Req.CLEAR_BUZZERS "123456"))
     = Some (exServer, []).
Proof.
  assert (H1 : hostOnly (Req.CLEAR_BUZZERS "123456") = true) by reflexivity.
  assert (H2 : isHost exServer 1%nat = false) by (vm_compute; reflexivity).
  split; [exact H1|]. split; [exact H2|].
  exact (host_only_message_from_non_host_dropped exEnv exServer 1%nat
           (Req.CLEAR_BUZZERS "123456") H1 H2).
Defined.

(** ** [handleBuzz] *)

Lemma teamHasBuzzed_false_iff (teamName : string) (g : GameState.t) :
  teamHasBuzzed teamName g = false <->
  forall b buzzedPlayer,
    In b (GameState.buzzedPlayers g) ->
    JsMap.get String.eqb (Buzz.playerId b) (GameState.players g)
    = Some buzzedPlayer ->
    PlayerData.teamName buzzedPlayer <> teamName.
Proof.
  unfold teamHasBuzzed. split.
  - intros Hfalse b bp Hin Hget Hsame.
    assert (Htrue : existsb
              (fun b0 =>
                 match JsMap.get String.eqb (Buzz.playerId b0)
                         (GameState.players g) with
                 | Some buzzedPlayer =>
                     String.eqb (PlayerData.teamName buzzedPlayer) teamName
                 | None => false
                 end) (GameState.buzzedPlayers g) = true).
    { apply existsb_exists. exists b. split; [exact Hin|].
      rewrite Hget, Hsame. apply String.eqb_refl. }
    rewrite Htrue in Hfalse. discriminate.
  - intros Hall.
    destruct (existsb _ (GameState.buzzedPlayers g)) eqn:E; [|reflexivity].
    apply existsb_exists in E. destruct E as [b [Hin Hb]].
    destruct (JsMap.get String.eqb (Buzz.playerId b) (GameState.players g))
      as [bp|] eqn:Hget; [|discriminate].
    apply String.eqb_eq in Hb. elim (Hall b bp Hin Hget Hb).
Qed.

(** X3.  [handleBuzz] accepts exactly when the player is known, the
    game has started, and no queued record belongs to a player who is
    known and currently on the same team.  A refused buzz leaves the
    session as it was; an accepted one appends one record -- the
    player's id, name and current team and the time -- and changes
    nothing else. *)
Theorem handleBuzz_accepts_iff :
  forall (now : Z) (playerId : string) (g : GameState.t),
    (snd (handleBuzz now playerId g) = true <->
     exists player,
       JsMap.get String.eqb playerId (GameState.players g) = Some player
       /\ GameState.gameStarted g = true
       /\ forall b buzzedPlayer,
            In b (GameState.buzzedPlayers g) ->
            JsMap.get String.eqb (Buzz.playerId b) (GameState.players g)
            = Some buzzedPlayer ->
            PlayerData.teamName buzzedPlayer <> PlayerData.teamName player)
    /\ (snd (handleBuzz now playerId g) = false ->
        fst (handleBuzz now playerId g) = g)
    /\ (forall player,
          JsMap.get String.eqb playerId (GameState.players g) = Some player ->
          snd (handleBuzz now playerId g) = true ->
          fst (handleBuzz now playerId g)
          = GameState.set_buzzedPlayers
              (GameState.buzzedPlayers g
               ++ [Buzz.mk playerId (PlayerData.name player)
                     (PlayerData.teamName player) now]) g).
Proof.
  intros now playerId g. unfold handleBuzz.
  destruct (JsMap.get String.eqb playerId (GameState.players g))
    as [player|] eqn:Hplayer.
  2:{ simpl. repeat split; try discriminate; try reflexivity.
      intros [p [Hp _]]. discriminate. }
  destruct (GameState.gameStarted g) eqn:Hstarted; simpl.
  2:{ repeat split; try discriminate; try reflexivity.
      intros [p [_ [Hs _]]]. discriminate. }
  destruct (teamHasBuzzed (PlayerData.teamName player) g) eqn:Hteam; simpl.
  - repeat split; try discriminate; try reflexivity.
    intros [p [Hp [_ Hall]]]. injection Hp as <-.
    apply teamHasBuzzed_false_iff in Hall. congruence.
  - repeat split; try discriminate.
    + intros _. exists player. repeat split.
      now apply teamHasBuzzed_false_iff.
    + intros p [= <-] _. reflexivity.
Qed.

(** X4.  Once a buzz is accepted, every known player who is currently
    on the buzzing player's team -- the player itself included -- is
    refused until the record leaves the queue. *)
Theorem accepted_buzz_locks_team :
  forall (now now' : Z) (playerId teammateId : string)
         (g g' : GameState.t) (player teammate : PlayerData.t),
    handleBuzz now playerId g = (g', true) ->
    JsMap.get String.eqb playerId (GameState.players g) = Some player ->
    JsMap.get String.eqb teammateId (GameState.players g) = Some teammate ->
    PlayerData.teamName teammate = PlayerData.teamName player ->
    handleBuzz now' teammateId g' = (g', false).
Proof.
  intros now now' playerId teammateId g g' player teammate Hrun Hp Ht Hsame.
  unfold handleBuzz in Hrun. rewrite Hp in Hrun.
  destruct (negb (GameState.gameStarted g)); [discriminate|].
  destruct (teamHasBuzzed (PlayerData.teamName player) g); [discriminate|].
  injection Hrun as <-.
  unfold handleBuzz. simpl. rewrite Ht.
  destruct (negb (GameState.gameStarted g)); [reflexivity|].
  assert (Hlocked : teamHasBuzzed (PlayerData.teamName teammate)
            (GameState.set_buzzedPlayers
               (GameState.buzzedPlayers g
                ++ [Buzz.mk playerId (PlayerData.name player)
                      (PlayerData.teamName player) now]) g) = true).
  { unfold teamHasBuzzed. simpl. apply existsb_exists.
    eexists. split; [apply in_or_app; right; now left|].
    simpl. rewrite Hp, Hsame. apply String.eqb_refl. }
  now rewrite Hlocked.
Qed.

Lemma accepted_buzz_locks_team_witness :
  handleBuzz 1000 "P1" (exSession exServer) = (exAfterAnnBuzz, true)
  /\ JsMap.get String.eqb "P1" (GameState.players (exSession exServer))
     = Some (PlayerData.mk "Ann" "Red" false 1%nat)
  /\ JsMap.get String.eqb "P2" (GameState.players (exSession exServer))
     = Some (PlayerData.mk "Bob" "Red" false 2%nat)
  /\ handleBuzz 2000 "P2" exAfterAnnBuzz = (exAfterAnnBuzz, false).
Proof.
  assert (H1 : handleBuzz 1000 "P1" (exSession exServer)
               = (exAfterAnnBuzz, true)) by (vm_compute; reflexivity).
  assert (H2 : JsMap.get String.eqb "P1"
                 (GameState.players (exSession exServer))
               = Some (PlayerData.mk "Ann" "Red" false 1%nat))
    by (vm_compute; reflexivity).
  assert (H3 : JsMap.get String.eqb "P2"
                 (GameState.players (exSession exServer))
               = Some (PlayerData.mk "Bob" "Red" false 2%nat))
    by (vm_compute; reflexivity).
  split; [exact H1|]. split; [exact H2|]. split; [exact H3|].
  exact (accepted_buzz_locks_team 1000 2000 "P1" "P2" (exSession exServer)
           exAfterAnnBuzz _ _ H1 H2 H3 eq_refl).
Defined.

Lemma handleBuzz_accepts_iff_witness :
  JsMap.get String.eqb "P1" (GameState.players (exSession exServer))
  = Some (PlayerData.mk "Ann" "Red" false 1%nat)
  /\ snd (handleBuzz 1000 "P1" (exSession exServer)) = true
  /\ fst (handleBuzz 1000 "P1" (exSession exServer))
     = GameState.set_buzzedPlayers
         (GameState.buzzedPlayers (exSession exServer)
          ++ [Buzz.mk "P1" "Ann" "Red" 1000]) (exSession exServer).
Proof.
  assert (H1 : JsMap.get String.eqb "P1"
                 (GameState.players (exSession exServer))
               = Some (PlayerData.mk "Ann" "Red" false 1%nat))
    by (vm_compute; reflexivity).
  assert (H2 : snd (handleBuzz 1000 "P1" (exSession exServer)) = true)
    by (vm_compute; reflexivity).
  split; [exact H1|]. split; [exact H2|].
  destruct (handleBuzz_accepts_iff 1000 "P1" (exSession exServer))
    as [_ [_ Hrec]].
  exact (Hrec _ H1 H2).
Defined.

(** ** More facts about [JsMap] *)

Section JsMapMore.
Context {K V : Type}.
Variable eqb : K -> K -> bool.
Hypothesis eqb_eq : forall a b, eqb a b = true <-> a = b.

Implicit Types (k : K) (v : V) (m : list (K * V)).

Lemma get_delete_same k m : JsMap.get eqb k (JsMap.delete eqb k m) = None.
Proof.
  unfold JsMap.delete.
  induction m as [|[k' v'] m IH]; simpl; [reflexivity|].
  destruct (eqb k k') eqn:E; simpl; [exact IH|].
  now rewrite E.
Qed.

Lemma get_delete_other k k' m :
  k <> k' -> JsMap.get eqb k' (JsMap.delete eqb k m) = JsMap.get eqb k' m.
Proof.
  intros Hne. unfold JsMap.delete.
  induction m as [|[k0 v0] m IH]; simpl; [reflexivity|].
  destruct (eqb k k0) eqn:E; simpl.
  - apply eqb_eq in E. subst k0.
    rewrite (eqb_neq_K eqb eqb_eq k' k) by congruence. exact IH.
  - now rewrite IH.
Qed.

Lemma delete_delete k m :
  JsMap.delete eqb k (JsMap.delete eqb k m) = JsMap.delete eqb k m.
Proof.
  unfold JsMap.delete.
  induction m as [|[k' v'] m IH]; simpl; [reflexivity|].
  destruct (eqb k k') eqn:E; simpl; [exact IH|].
  rewrite E. simpl. now rewrite IH.
Qed.

Lemma set_set_same k v v' m :
  JsMap.set eqb k v (JsMap.set eqb k v' m) = JsMap.set eqb k v m.
Proof.
  induction m as [|[k0 v0] m IH]; simpl.
  - now rewrite (eqb_refl_K eqb eqb_eq).
  - destruct (eqb k k0) eqn:E; simpl.
    + now rewrite (eqb_refl_K eqb eqb_eq).
    + now rewrite E, IH.
Qed.

Lemma delete_absent k m :
  JsMap.get eqb k m = None -> JsMap.delete eqb k m = m.
Proof.
  unfold JsMap.delete.
  induction m as [|[k' v'] m IH]; simpl; [reflexivity|].
  destruct (eqb k k'); [discriminate|]. simpl. intros H. now rewrite IH.
Qed.
End JsMapMore.

(** ** [removePlayer] *)

Lemma filter_twice {A : Type} (f : A -> bool) (l : list A) :
  filter f (filter f l) = filter f l.
Proof.
  induction l as [|a l IH]; simpl; [reflexivity|].
  destruct (f a) eqn:E; simpl; [rewrite E|]; now rewrite IH.
Qed.

(** X5.  [removePlayer] forgets the player: the player is gone from the
    players map and owns no record of the buzz queue, while the records
    of other players stay; a buzz under the removed id is refused; and
    removing the same id again changes nothing more. *)
Theorem removePlayer_forgets_player :
  forall (playerId : string) (g : GameState.t),
    JsMap.get String.eqb playerId
      (GameState.players (removePlayer playerId g)) = None
    /\ (forall b, In b (GameState.buzzedPlayers (removePlayer playerId g)) <->
                  In b (GameState.buzzedPlayers g)
                  /\ Buzz.playerId b <> playerId)
    /\ (forall now,
          handleBuzz now playerId (removePlayer playerId g)
          = (removePlayer playerId g, false))
    /\ removePlayer playerId (removePlayer playerId g)
       = removePlayer playerId g.
Proof.
  intros playerId g.
  assert (Hgone : JsMap.get String.eqb playerId
                    (GameState.players (removePlayer playerId g)) = None).
  { unfold removePlayer. simpl. apply (get_delete_same _ playerId). }
  split; [exact Hgone|]. split; [|split].
  - intros b. unfold removePlayer. simpl. rewrite filter_In.
    rewrite negb_true_iff, String.eqb_neq. reflexivity.
  - intros now. unfold handleBuzz. now rewrite Hgone.
  - unfold removePlayer at 1. rewrite Hgone.
    unfold removePlayer. simpl.
    now rewrite filter_twice, delete_delete.
Qed.

(** ** What roster operations leave alone *)

(** X6.  [addPlayer] only touches the team its player data names, and
    [removePlayer] only the team the players map records for the id (or
    no team when the id is unknown).  So a player who joins another
    team without leaving stays on the first team's roster, and leaving
    afterwards does not take it off that roster either. *)
Theorem roster_ops_touch_one_team :
  (forall playerId playerData g teamName,
      teamName <> PlayerData.teamName playerData ->
      JsMap.get String.eqb teamName
        (GameState.teams (addPlayer playerId playerData g))
      = JsMap.get String.eqb teamName (GameState.teams g))
  /\ (forall playerId g player teamName,
        JsMap.get String.eqb playerId (GameState.players g) = Some player ->
        teamName <> PlayerData.teamName player ->
        JsMap.get String.eqb teamName
          (GameState.teams (removePlayer playerId g))
        = JsMap.get String.eqb teamName (GameState.teams g))
  /\ (forall playerId g,
        JsMap.get String.eqb playerId (GameState.players g) = None ->
        GameState.teams (removePlayer playerId g) = GameState.teams g)
  /\ (forall playerId playerData g teamName,
        teamName <> PlayerData.teamName playerData ->
        JsMap.get String.eqb teamName
          (GameState.teams
             (removePlayer playerId (addPlayer playerId playerData g)))
        = JsMap.get String.eqb teamName (GameState.teams g)).
Proof.
  assert (Hadd : forall playerId playerData g teamName,
             teamName <> PlayerData.teamName playerData ->
             JsMap.get String.eqb teamName
               (GameState.teams (addPlayer playerId playerData g))
             = JsMap.get String.eqb teamName (GameState.teams g)).
  { intros playerId playerData g teamName Hne. unfold addPlayer. simpl.
    apply (get_set_other _ String.eqb_eq). congruence. }
  assert (Hrem : forall playerId g player teamName,
             JsMap.get String.eqb playerId (GameState.players g)
             = Some player ->
             teamName <> PlayerData.teamName player ->
             JsMap.get String.eqb teamName
               (GameState.teams (removePlayer playerId g))
             = JsMap.get String.eqb teamName (GameState.teams g)).
  { intros playerId g player teamName Hp Hne. unfold removePlayer. simpl.
    rewrite Hp.
    destruct (JsMap.get String.eqb (PlayerData.teamName player)
                (GameState.teams g)); [|reflexivity].
    destruct (Nat.eqb _ 0).
    - apply (get_delete_other _ String.eqb_eq). congruence.
    - apply (get_set_other _ String.eqb_eq). congruence. }
  split; [exact Hadd|]. split; [exact Hrem|]. split.
  - intros playerId g Hnone. unfold removePlayer. simpl. now rewrite Hnone.
  - intros playerId playerData g teamName Hne.
    rewrite (Hrem playerId (addPlayer playerId playerData g) playerData).
    + now apply Hadd.
    + unfold addPlayer. simpl. apply (get_set_same _ String.eqb_eq).
    + exact Hne.
Qed.

(** ** Joining twice *)

Lemma markManager_twice (p : string) (ms : list Member.t) :
  markManager p (markManager p ms) = markManager p ms.
Proof.
  unfold markManager. rewrite map_map. apply map_ext. intros m.
  now destruct m.
Qed.

Lemma addToTeam_contains (playerId : string) (playerData : PlayerData.t)
    (team : Team.t) :
  In playerId (memberIds (addToTeam playerId playerData team)).
Proof.
  unfold addToTeam, memberIds.
  destruct (find _ (Team.members team)) as [m|] eqn:Hfind.
  - apply find_member_Some in Hfind.
    destruct (PlayerData.isManager playerData || manager_falsy _); simpl;
      [rewrite markManager_ids|]; exact Hfind.
  - destruct (PlayerData.isManager playerData || manager_falsy _); simpl;
      [rewrite markManager_ids|]; rewrite map_app; apply in_or_app;
      right; now left.
Qed.

(** [addToTeam] on a team that already lists the player. *)
Lemma addToTeam_member (playerId : string) (playerData : PlayerData.t)
    (team : Team.t) :
  In playerId (memberIds team) ->
  addToTeam playerId playerData team
  = if PlayerData.isManager playerData || manager_falsy (Team.manager team)
    then Team.set_members (markManager playerId (Team.members team))
           (Team.set_manager (Some playerId) team)
    else team.
Proof.
  intros Hin. unfold addToTeam.
  destruct (find_member_In _ _ Hin) as [m Hf]. rewrite Hf. simpl.
  destruct (PlayerData.isManager playerData || manager_falsy _).
  - now destruct team.
  - now destruct team.
Qed.

Lemma addToTeam_manager (playerId : string) (playerData : PlayerData.t)
    (team : Team.t) :
  Team.manager (addToTeam playerId playerData team)
  = if PlayerData.isManager playerData || manager_falsy (Team.manager team)
    then Some playerId else Team.manager team.
Proof.
  unfold addToTeam. simpl.
  now destruct (PlayerData.isManager playerData || manager_falsy _).
Qed.

Lemma addToTeam_twice (playerId : string) (playerData : PlayerData.t)
    (team : Team.t) :
  addToTeam playerId playerData (addToTeam playerId playerData team)
  = addToTeam playerId playerData team.
Proof.
  rewrite (addToTeam_member playerId playerData
             (addToTeam playerId playerData team))
    by apply addToTeam_contains.
  rewrite addToTeam_manager.
  destruct (PlayerData.isManager playerData
            || manager_falsy (Team.manager team)) eqn:Hc.
  - (* the first call made the player manager *)
    destruct (PlayerData.isManager playerData
              || manager_falsy (Some playerId)); [|reflexivity].
    unfold addToTeam. simpl in *. rewrite Hc.
    destruct (find _ (Team.members team)); simpl;
      now rewrite markManager_twice.
  - now rewrite Hc.
Qed.

Lemma addPlayer_again (playerId : string) (playerData : PlayerData.t)
    (g : GameState.t) :
  addPlayer playerId playerData (addPlayer playerId playerData g)
  = addPlayer playerId playerData g.
Proof.
  unfold addPlayer. simpl.
  rewrite !(get_set_same _ String.eqb_eq).
  rewrite addToTeam_twice.
  now rewrite !(set_set_same _ String.eqb_eq).
Qed.

(** X7.  [addPlayer] is idempotent: calling it again with the same id
    and player data gives the same session.  After it the players map
    holds the player data under the id and the named team exists with
    the id on its roster; a player who joins with the manager flag is
    the team's manager. *)
Theorem addPlayer_twice :
  forall (playerId : string) (playerData : PlayerData.t) (g : GameState.t),
    addPlayer playerId playerData (addPlayer playerId playerData g)
    = addPlayer playerId playerData g
    /\ JsMap.get String.eqb playerId
         (GameState.players (addPlayer playerId playerData g))
       = Some playerData
    /\ exists team,
         JsMap.get String.eqb (PlayerData.teamName playerData)
           (GameState.teams (addPlayer playerId playerData g)) = Some team
         /\ In playerId (memberIds team)
         /\ (PlayerData.isManager playerData = true ->
             Team.manager team = Some playerId).
Proof.
  intros playerId playerData g. split; [apply addPlayer_again|].
  unfold addPlayer. simpl. rewrite !(get_set_same _ String.eqb_eq).
  split; [reflexivity|]. eexists. split; [reflexivity|].
  split; [apply addToTeam_contains|].
  intros Hflag. rewrite addToTeam_manager, Hflag. reflexivity.
Qed.

Lemma put_game_again (gameCode : string) (g : GameState.t)
    (c c' : list (Conn * ConnInfo)) (s : Server.t) :
  Server.set_connections c
    (Server.put_game gameCode g
       (Server.set_connections c' (Server.put_game gameCode g s)))
  = Server.set_connections c (Server.put_game gameCode g s).
Proof.
  unfold Server.set_connections, Server.put_game, Server.set_games. simpl.
  now rewrite (set_set_same _ String.eqb_eq).
Qed.

Lemma finishJoin_again (env : Env.t) (s : Server.t) (ws : Conn)
    (j : Req.Join) (game : GameState.t) :
  JsMap.get String.eqb (Req.gameCode j) (Server.games s) = Some game ->
  finishJoin env (fst (finishJoin env s ws j)) ws j = finishJoin env s ws j.
Proof.
  intros Hgame. unfold finishJoin at 2 3. rewrite Hgame.
  remember (addPlayer (Req.playerId j)
              (PlayerData.mk (Req.playerName j) (Req.teamName j)
                 (Req.isManager j) ws) game) as game' eqn:Hgame'.
  assert (Hidem : addPlayer (Req.playerId j)
                    (PlayerData.mk (Req.playerName j) (Req.teamName j)
                       (Req.isManager j) ws) game' = game').
  { rewrite Hgame'. apply addPlayer_again. }
  cbn [fst]. unfold finishJoin.
  cbn [Server.games Server.connections Server.put_game Server.set_games
       Server.set_connections Server.db Server.pendingLoads
       Server.cleanupTimers].
  rewrite (get_set_same _ String.eqb_eq). rewrite Hidem.
  rewrite (set_set_same _ Nat.eqb_eq).
  now rewrite !put_game_again.
Qed.

(** X8.  A join for a resident game runs the join statements twice.
    The state is the one a single run leaves -- the session with the
    player added once and the sender bound in the directory -- but every
    send is made twice: the sender gets [GAME_JOINED] twice and an open
    host socket gets [PLAYER_JOINED] twice. *)
Theorem join_resident_game_acknowledged_twice :
  forall (env : Env.t) (s : Server.t) (ws : Conn) (j : Req.Join)
         (game : GameState.t),
    JsMap.get String.eqb (Req.gameCode j) (Server.games s) = Some game ->
    let game' :=
      addPlayer (Req.playerId j)
        (PlayerData.mk (Req.playerName j) (Req.teamName j)
           (Req.isManager j) ws) game in
    let s' :=
      Server.set_connections
        (JsMap.set Nat.eqb ws
           (PlayerConn (Req.gameCode j) (Req.playerId j) (Req.teamName j))
           (Server.connections s))
        (Server.put_game (Req.gameCode j) game' s) in
    let out :=
      (ws, Ev.GAME_JOINED (Req.gameCode j) (GameState.gameStarted game')
             (GameState.currentGame game') (GameState.currentRound game')
             (GameState.games game') (getTeamsData game')
             (GameState.buzzedPlayers game') true)
      :: sendToHost env s' (Req.gameCode j)
           (Ev.PLAYER_JOINED (Req.playerId j) (Req.playerName j)
              (Req.teamName j) (Req.isManager j)
              (JsMap.values (GameState.teams game'))) in
    handleJoinGame env s ws j = (s', out ++ out, false)
    /\ onMessage env s ws (Some (Req.JOIN_GAME j)) = Some (s', out ++ out)
    /\ onMessage env s ws (Some (Req.REJOIN_GAME j)) = Some (s', out ++ out).
Proof.
  intros env s ws j game Hgame. cbv zeta.
  assert (Hfin : finishJoin env s ws j
                 = (Server.set_connections
                      (JsMap.set Nat.eqb ws
                         (PlayerConn (Req.gameCode j) (Req.playerId j)
                            (Req.teamName j))
                         (Server.connections s))
                      (Server.put_game (Req.gameCode j)
                         (addPlayer (Req.playerId j)
                            (PlayerData.mk (Req.playerName j) (Req.teamName j)
                               (Req.isManager j) ws) game) s),
                    (ws, Ev.GAME_JOINED (Req.gameCode j)
                           (GameState.gameStarted game)
                           (GameState.currentGame game)
                           (GameState.currentRound game)
                           (GameState.games game)
                           (getTeamsData
                              (addPlayer (Req.playerId j)
                                 (PlayerData.mk (Req.playerName j)
                                    (Req.teamName j) (Req.isManager j) ws)
                                 game))
                           (GameState.buzzedPlayers game) true)
                    :: sendToHost env
                         (Server.set_connections
                            (JsMap.set Nat.eqb ws
                               (PlayerConn (Req.gameCode j) (Req.playerId j)
                                  (Req.teamName j))
                               (Server.connections s))
                            (Server.put_game (Req.gameCode j)
                               (addPlayer (Req.playerId j)
                                  (PlayerData.mk (Req.playerName j)
                                     (Req.teamName j) (Req.isManager j) ws)
                                  game) s))
                         (Req.gameCode j)
                         (Ev.PLAYER_JOINED (Req.playerId j) (Req.playerName j)
                            (Req.teamName j) (Req.isManager j)
                            (JsMap.values
                               (GameState.teams
                                  (addPlayer (Req.playerId j)
                                     (PlayerData.mk (Req.playerName j)
                                        (Req.teamName j) (Req.isManager j)
                                        ws) game)))))).
  { unfold finishJoin. now rewrite Hgame. }
  assert (Hjoin : handleJoinGame env s ws j
                  = (fst (finishJoin env s ws j),
                     snd (finishJoin env s ws j)
                     ++ snd (finishJoin env s ws j), false)).
  { unfold handleJoinGame. rewrite Hgame.
    pose proof (finishJoin_again env s ws j game Hgame) as Hagain.
    destruct (finishJoin env s ws j) as [s1 out1]. simpl in Hagain.
    now rewrite Hagain. }
  rewrite Hfin in Hjoin. simpl in Hjoin.
  split; [exact Hjoin|].
  unfold onMessage, handleMessage. now rewrite Hjoin.
Qed.

Lemma roster_ops_touch_one_team_witness :
  "Red" <> PlayerData.teamName (PlayerData.mk "Ann" "Blue" false 1%nat)
  /\ JsMap.get String.eqb "Red"
       (GameState.teams
          (removePlayer "P1"
             (addPlayer "P1" (PlayerData.mk "Ann" "Blue" false 1%nat)
                (exSession exServer))))
     = JsMap.get String.eqb "Red" (GameState.teams (exSession exServer)).
Proof.
  assert (H1 : "Red" <> PlayerData.teamName
                          (PlayerData.mk "Ann" "Blue" false 1%nat))
    by (simpl; discriminate).
  split; [exact H1|].
  destruct roster_ops_touch_one_team as [_ [_ [_ Hdangling]]].
  exact (Hdangling "P1" (PlayerData.mk "Ann" "Blue" false 1%nat)
           (exSession exServer) "Red" H1).
Defined.

Lemma join_resident_game_acknowledged_twice_witness :
  JsMap.get String.eqb (Req.gameCode exJoinCat) (Server.games exServer)
  = Some (exSession exServer)
  /\ exists s' out,
       handleJoinGame exEnv exServer 3%nat exJoinCat = (s', out ++ out, false).
Proof.
  assert (H1 : JsMap.get String.eqb (Req.gameCode exJoinCat)
                 (Server.games exServer) = Some (exSession exServer))
    by (vm_compute; reflexivity).
  split; [exact H1|].
  destruct (join_resident_game_acknowledged_twice exEnv exServer 3%nat
              exJoinCat (exSession exServer) H1) as [Hjoin _].
  eexists _, _. exact Hjoin.
Defined.

(** ** Joining a game that is not resident *)

Lemma remove_nth_last {A : Type} (l : list A) (x : A) :
  remove_nth (List.length l) (l ++ [x]) = l.
Proof.
  unfold remove_nth. induction l as [|a l IH]; [reflexivity|].
  cbn [List.length app firstn skipn]. cbn [app]. f_equal. exact IH.
Qed.

Lemma nth_error_last {A : Type} (l : list A) (x : A) :
  nth_error (l ++ [x]) (List.length l) = Some x.
Proof. rewrite nth_error_app2, Nat.sub_diag by lia. reflexivity. Qed.

(** X9.  A join for a game that is not resident starts the load and
    then throws, so the sender first gets the "Invalid message format"
    error while the registry and the directory stay as they are.  If
    the store has no usable document when the load resolves, the sender
    gets "Game not found" and the server is exactly as before the
    join. *)
Theorem join_unknown_game_two_errors :
  forall (env env' : Env.t) (s : Server.t) (ws : Conn) (j : Req.Join),
    JsMap.get String.eqb (Req.gameCode j) (Server.games s) = None ->
    let waiting :=
      Server.set_pendingLoads (Server.pendingLoads s ++ [(ws, j)]) s in
    onMessage env s ws (Some (Req.JOIN_GAME j))
    = Some (waiting, [(ws, invalidFormat)])
    /\ (loadGameState (Env.now env')
          (JsMap.get String.eqb (Req.gameCode j) (Server.db s)) = None ->
        step env' waiting (OnLoadResolved (List.length (Server.pendingLoads s)))
        = Some (s, [(ws, Ev.ERROR "Game not found")])).
Proof.
  intros env env' s ws j Hgame. cbv zeta. split.
  - unfold onMessage, handleMessage, handleJoinGame. now rewrite Hgame.
  - intros Hload. simpl. unfold resolveLoad. simpl.
    rewrite nth_error_last, Hload, remove_nth_last.
    now destruct s.
Qed.

Lemma join_unknown_game_two_errors_witness :
  JsMap.get String.eqb (Req.gameCode exJoinNowhere) (Server.games exServer)
  = None
  /\ loadGameState 1000
       (JsMap.get String.eqb (Req.gameCode exJoinNowhere) (Server.db exServer))
     = None
  /\ onMessage exEnv exServer 3%nat (Some (Req.JOIN_GAME exJoinNowhere))
     = Some (Server.set_pendingLoads [(3%nat, exJoinNowhere)] exServer,
             [(3%nat, invalidFormat)]).
Proof.
  assert (H1 : JsMap.get String.eqb (Req.gameCode exJoinNowhere)
                 (Server.games exServer) = None) by (vm_compute; reflexivity).
  split; [exact H1|]. split; [vm_compute; reflexivity|].
  destruct (join_unknown_game_two_errors exEnv exEnv exServer 3%nat
              exJoinNowhere H1) as [Hjoin _].
  exact Hjoin.
Defined.

Lemma load_hostConnection (now : Z) (snapshot : option Persisted.t)
    (g : GameState.t) :
  loadGameState now snapshot = Some g ->
  GameState.hostConnection g = None
  /\ GameState.createdAt g
     = match snapshot with
       | Some data => Persisted.createdAt data
       | None => 0
       end.
Proof.
  unfold loadGameState. destruct snapshot as [data|]; [|discriminate].
  destruct (expired now (Persisted.expiresAt data)); [discriminate|].
  intros [= <-]. now split.
Qed.

Lemma addPlayer_hostConnection (playerId : string)
    (playerData : PlayerData.t) (g : GameState.t) :
  GameState.hostConnection (addPlayer playerId playerData g)
  = GameState.hostConnection g.
Proof. reflexivity. Qed.

(** X10.  When a pending load resolves with a usable document, the
    session rebuilt from the store is put under the game code, whatever
    is resident there at that moment, and the player is added to it.
    The rebuilt session has no host connection, so only the joining
    socket is told. *)
Theorem resolved_load_replaces_session :
  forall (env : Env.t) (s : Server.t) (k : nat) (ws : Conn) (j : Req.Join)
         (restored : GameState.t),
    nth_error (Server.pendingLoads s) k = Some (ws, j) ->
    loadGameState (Env.now env)
      (JsMap.get String.eqb (Req.gameCode j) (Server.db s)) = Some restored ->
    let game' :=
      addPlayer (Req.playerId j)
        (PlayerData.mk (Req.playerName j) (Req.teamName j)
           (Req.isManager j) ws) restored in
    gameAfter (step env s (OnLoadResolved k)) (Req.gameCode j) = Some game'
    /\ GameState.hostConnection game' = None
    /\ snd (resolveLoad env s k)
       = [(ws, Ev.GAME_JOINED (Req.gameCode j) (GameState.gameStarted game')
                 (GameState.currentGame game') (GameState.currentRound game')
                 (GameState.games game') (getTeamsData game')
                 (GameState.buzzedPlayers game') true)].
Proof.
  intros env s k ws j restored Hnth Hload. cbv zeta.
  destruct (load_hostConnection _ _ _ Hload) as [Hhost _].
  assert (Hrun : resolveLoad env s k
                 = finishJoin env
                     (Server.put_game (Req.gameCode j) restored
                        (Server.set_pendingLoads
                           (remove_nth k (Server.pendingLoads s)) s)) ws j).
  { unfold resolveLoad. now rewrite Hnth, Hload. }
  split; [|split].
  - simpl. rewrite Hrun. unfold finishJoin. simpl.
    rewrite !(get_set_same _ String.eqb_eq). simpl.
    apply (get_set_same _ String.eqb_eq).
  - rewrite addPlayer_hostConnection. exact Hhost.
  - rewrite Hrun. unfold finishJoin. simpl.
    rewrite !(get_set_same _ String.eqb_eq). simpl.
    unfold sendToHost. simpl.
    rewrite !(get_set_same _ String.eqb_eq).
    rewrite addPlayer_hostConnection, Hhost. reflexivity.
Qed.

Lemma resolved_load_replaces_session_witness :
  nth_error (Server.pendingLoads exEvicted) 0 = Some (3%nat, exJoinCat)
  /\ loadGameState 2000
       (JsMap.get String.eqb (Req.gameCode exJoinCat) (Server.db exEvicted))
     = Some (GameState.new 1000 "123456" "host-1")
  /\ gameAfter (step exDrawEnv exEvicted (OnLoadResolved 0)) "123456"
     = Some (addPlayer "P3" (PlayerData.mk "Cat" "Blue" false 3%nat)
               (GameState.new 1000 "123456" "host-1")).
Proof.
  assert (H1 : nth_error (Server.pendingLoads exEvicted) 0
               = Some (3%nat, exJoinCat)) by (vm_compute; reflexivity).
  assert (H2 : loadGameState (Env.now exDrawEnv)
                 (JsMap.get String.eqb (Req.gameCode exJoinCat)
                    (Server.db exEvicted))
               = Some (GameState.new 1000 "123456" "host-1"))
    by (vm_compute; reflexivity).
  split; [exact H1|]. split; [exact H2|].
  destruct (resolved_load_replaces_session exDrawEnv exEvicted 0 3%nat
              exJoinCat _ H1 H2) as [Hgame _].
  exact Hgame.
Defined.

(** ** Expiry of stored documents *)

(** X11.  A document written at time [now] can be loaded exactly until
    [now] + 4 hours: later than that [loadGameState] yields nothing,
    and up to then it yields a session without host connection that
    keeps the original's creation time (not the time of the load).  A
    missing document yields nothing either. *)
Theorem load_succeeds_until_expiry :
  forall (now now' : Z) (g : GameState.t),
    now + fourHours <> 0 ->
    (loadGameState now' (Some (saveGameState now g)) = None
     <-> now + fourHours < now')
    /\ (forall g',
          loadGameState now' (Some (saveGameState now g)) = Some g' ->
          GameState.hostConnection g' = None
          /\ GameState.createdAt g' = GameState.createdAt g
          /\ GameState.gameCode g' = GameState.gameCode g
          /\ GameState.hostId g' = GameState.hostId g)
    /\ loadGameState now' None = None.
Proof.
  intros now now' g Hnz.
  assert (Hexp : expired now' (Some (now + fourHours))
                 = (now + fourHours <? now')).
  { unfold expired. destruct (Z.eqb_spec (now + fourHours) 0); [lia|].
    reflexivity. }
  unfold loadGameState. cbn [saveGameState Persisted.expiresAt].
  rewrite Hexp. split; [|split].
  - destruct (Z.ltb_spec (now + fourHours) now'); split;
      try reflexivity; try discriminate; try lia; intros; assumption.
  - intros g'. destruct (now + fourHours <? now'); [discriminate|].
    intros [= <-]. simpl. repeat split.
  - reflexivity.
Qed.

Lemma load_succeeds_until_expiry_witness :
  1000 + fourHours <> 0
  /\ (loadGameState 20000000 (Some (saveGameState 1000 (exSession exServer)))
      = None <-> 1000 + fourHours < 20000000).
Proof.
  assert (H1 : 1000 + fourHours <> 0) by (vm_compute; discriminate).
  split; [exact H1|].
  destruct (load_succeeds_until_expiry 1000 20000000 (exSession exServer) H1)
    as [Hiff _].
  exact Hiff.
Defined.

(** ** Creating a game *)

Lemma truthy_code_nonempty (gameCode : string) :
  gameCode <> "" -> truthy_code (Some gameCode) = Some gameCode.
Proof.
  intros Hne. unfold truthy_code.
  now destruct (String.eqb_spec gameCode "").
Qed.

(** X12.  [CREATE_GAME] with a non-empty code that is not resident uses
    that very code, whatever the random draws are: the new session --
    the constructor's state with the sender as host connection -- is
    stored under it, the sender is bound as its host and told the code,
    and the store receives the session's document, from which the
    session can be loaded for the next four hours (without its host
    connection). *)
Theorem createGame_uses_requested_fresh_code :
  forall (env : Env.t) (s : Server.t) (ws : Conn) (gameCode hostId : string),
    gameCode <> "" ->
    JsMap.get String.eqb gameCode (Server.games s) = None ->
    exists s',
      handleCreateGame env s ws (Some gameCode) hostId
      = Some (s', [(ws, Ev.GAME_CREATED gameCode false)])
      /\ JsMap.get String.eqb gameCode (Server.games s')
         = Some (GameState.set_hostConnection (Some ws)
                   (GameState.new (Env.now env) gameCode hostId))
      /\ JsMap.get Nat.eqb ws (Server.connections s')
         = Some (HostConn gameCode hostId)
      /\ (forall now',
            now' <= Env.now env + fourHours ->
            loadGameState now'
              (JsMap.get String.eqb gameCode (Server.db s'))
            = Some (GameState.new (Env.now env) gameCode hostId)).
Proof.
  intros env s ws gameCode hostId Hne Hfresh.
  assert (Hc : chooseCode (Server.games s) (Some gameCode) (Env.draws env)
               = Some gameCode).
  { unfold chooseCode. rewrite (truthy_code_nonempty _ Hne).
    rewrite uniqueCode_eq.
    apply (has_false_iff String.eqb) in Hfresh. now rewrite Hfresh. }
  eexists. unfold handleCreateGame. rewrite Hc.
  split; [reflexivity|]. simpl.
  split; [apply (get_set_same _ String.eqb_eq)|].
  split; [apply (get_set_same _ Nat.eqb_eq)|].
  intros now' Hle. rewrite (get_set_same _ String.eqb_eq).
  rewrite load_save.
  - reflexivity.
  - repeat split; constructor.
  - now apply not_expired.
Qed.

Lemma createGame_uses_requested_fresh_code_witness :
  "555555" <> ""
  /\ JsMap.get String.eqb "555555" (Server.games exServer) = None
  /\ exists s',
       handleCreateGame exEnv exServer 7%nat (Some "555555") "host-7"
       = Some (s', [(7%nat, Ev.GAME_CREATED "555555" false)]).
Proof.
  assert (H1 : "555555" <> "") by discriminate.
  assert (H2 : JsMap.get String.eqb "555555" (Server.games exServer) = None)
    by (vm_compute; reflexivity).
  split; [exact H1|]. split; [exact H2|].
  destruct (createGame_uses_requested_fresh_code exEnv exServer 7%nat
              "555555" "host-7" H1 H2) as [s' [Hrun _]].
  exists s'. exact Hrun.
Defined.

(** ** What reaches the store *)

Ltac frame_cases :=
  repeat match goal with
         | |- context [match ?x with _ => _ end] => destruct x
         end;
  try reflexivity.

Lemma finishJoin_db env s ws j :
  Server.db (fst (finishJoin env s ws j)) = Server.db s.
Proof. unfold finishJoin. frame_cases. Qed.

Lemma handleJoinGame_db env s ws j :
  Server.db (fst (fst (handleJoinGame env s ws j))) = Server.db s.
Proof.
  unfold handleJoinGame.
  destruct (JsMap.get String.eqb (Req.gameCode j) (Server.games s));
    [|reflexivity].
  pose proof (finishJoin_db env s ws j) as H1.
  destruct (finishJoin env s ws j) as [s1 out1]. simpl in H1.
  pose proof (finishJoin_db env s1 ws j) as H2.
  destruct (finishJoin env s1 ws j) as [s2 out2]. simpl in *. congruence.
Qed.

Lemma resolveLoad_db env s k :
  Server.db (fst (resolveLoad env s k)) = Server.db s.
Proof.
  unfold resolveLoad.
  destruct (nth_error (Server.pendingLoads s) k) as [[ws j]|];
    [|reflexivity].
  destruct (loadGameState _ _); [|reflexivity].
  now rewrite finishJoin_db.
Qed.

Lemma handleDisconnection_db env s ws :
  Server.db (fst (handleDisconnection env s ws)) = Server.db s.
Proof.
  unfold handleDisconnection.
  destruct (JsMap.get Nat.eqb ws (Server.connections s)) as [connInfo|];
    [|reflexivity].
  destruct (JsMap.get String.eqb (conn_gameCode connInfo) (Server.games s));
    [|reflexivity].
  now destruct connInfo.
Qed.

Lemma handleLeaveGame_db env s ws gameCode playerId :
  Server.db (fst (handleLeaveGame env s ws gameCode playerId)) = Server.db s.
Proof.
  unfold handleLeaveGame.
  destruct (JsMap.get Nat.eqb ws (Server.connections s)); [|reflexivity].
  now destruct (JsMap.get String.eqb gameCode (Server.games s)).
Qed.

Lemma handleSubmitScore_db env s ws m s' out threw :
  handleSubmitScore env s ws m = Some (s', out, threw) ->
  Server.db s' = Server.db s.
Proof.
  intros Hrun.
  destruct (handleSubmitScore_cases _ _ _ _ _ _ _ Hrun)
    as [->|[game [team [rs [_ [_ ->]]]]]]; reflexivity.
Qed.

(** Only [CREATE_GAME] writes to the store, and what it writes is the
    document of the session it has just constructed. *)
Lemma step_db env s i s' out :
  step env s i = Some (s', out) ->
  Server.db s' = Server.db s
  \/ exists ws gameCode hostId,
       Server.db s'
       = JsMap.set String.eqb gameCode
           (saveGameState (Env.now env)
              (GameState.set_hostConnection (Some ws)
                 (GameState.new (Env.now env) gameCode hostId)))
           (Server.db s).
Proof.
  intros Hstep. destruct i as [ws data|ws|k|k|]; simpl in Hstep.
  - destruct data as [message|]; simpl in Hstep;
      [|injection Hstep as <- _; now left].
    destruct (handleMessage env s ws message) as [[[s1 o1] t1]|] eqn:E;
      [|discriminate].
    injection Hstep as <- _.
    destruct message; simpl in E; unfold noThrow in E.
    + (* CREATE_GAME *)
      unfold handleCreateGame in E.
      destruct (chooseCode _ _ _) as [code|]; [|discriminate].
      simpl in E. injection E as <- _ _. right.
      exists ws, code, hostId. reflexivity.
    + injection E as E. left.
      pose proof (handleJoinGame_db env s ws j) as H. now rewrite E in H.
    + injection E as E. left.
      pose proof (handleJoinGame_db env s ws j) as H. now rewrite E in H.
    + injection E as <- _ _. left. unfold handleGameStarted. frame_cases.
    + injection E as <- _ _. left. unfold handleRoundUpdate. frame_cases.
    + injection E as <- _ _. left. unfold handlePlayerBuzz. frame_cases.
    + injection E as <- _ _. left. unfold handleClearBuzzers. frame_cases.
    + injection E as <- _ _. left. unfold handleClearPlayerBuzz. frame_cases.
    + injection E as <- _ _. left. unfold handleEnableScoring. frame_cases.
    + left. eapply handleSubmitScore_db; exact E.
    + injection E as <- _ _. left. unfold handleManagerChanged. frame_cases.
    + injection E as <- _ _. left. unfold handleScoreUpdated. frame_cases.
    + injection E as <- _ _. left. unfold handleRevealFinalScores.
      frame_cases.
    + injection E as <- _ _. left. apply handleLeaveGame_db.
    + injection E as <- _ _. left. apply handleDisconnection_db.
    + injection E as <- _ _. left. unfold handleGetTeams. frame_cases.
    + injection E as <- _ _. now left.
  - injection Hstep as Hs. left.
    pose proof (handleDisconnection_db env s ws) as H. now rewrite Hs in H.
  - injection Hstep as Hs. left.
    pose proof (resolveLoad_db env s k) as H. now rewrite Hs in H.
  - injection Hstep as <- _. left. unfold cleanupTimer. frame_cases.
  - injection Hstep as <- _. now left.
Qed.

Lemma reachable_store_creationDocs (s : Server.t) :
  reachable s -> Forall creationDoc (JsMap.values (Server.db s)).
Proof.
  induction 1 as [|s env i s' out _ IH _ Hstep]; [constructor|].
  destruct (step_db _ _ _ _ _ Hstep) as [->|[ws [code [hostId ->]]]];
    [exact IH|].
  apply Forall_values_set; [|exact IH].
  repeat split.
Qed.

(** X13.  The store only ever holds sessions as they were at creation:
    in every reachable state each stored document has no teams, no
    players, an empty buzz queue and games list, the initial cursor and
    all flags off -- joins, scores and progress are never written.  So
    a session loaded from the store starts empty, whatever had happened
    in the game before it left the registry. *)
Theorem store_holds_creation_state_only :
  forall (s : Server.t) (gameCode : string) (doc : Persisted.t),
    reachable s ->
    JsMap.get String.eqb gameCode (Server.db s) = Some doc ->
    creationDoc doc
    /\ forall now g,
         loadGameState now (Some doc) = Some g ->
         GameState.teams g = []
         /\ GameState.players g = []
         /\ GameState.buzzedPlayers g = []
         /\ GameState.games g = Some []
         /\ GameState.gameStarted g = false
         /\ GameState.gameEnded g = false
         /\ GameState.scoringEnabled g = false
         /\ GameState.currentGame g = 1
         /\ GameState.currentRound g = 1.
Proof.
  intros s gameCode doc Hreach Hget.
  assert (Hdoc : creationDoc doc).
  { apply reachable_store_creationDocs in Hreach.
    rewrite Forall_forall in Hreach. apply Hreach.
    eapply get_In_values; [exact String.eqb_eq | exact Hget]. }
  split; [exact Hdoc|].
  intros now g Hload. unfold loadGameState in Hload.
  destruct (expired now (Persisted.expiresAt doc)); [discriminate|].
  injection Hload as <-.
  destruct Hdoc as [Hg [Ht [Hp [Hb [Hs [He [Hsc [Hcg Hcr]]]]]]]].
  simpl. rewrite Hg, Ht, Hp, Hb, Hs, He, Hsc, Hcg, Hcr.
  repeat split.
Qed.

Lemma store_holds_creation_state_only_witness :
  reachable (stateAfter exSubmitTrace)
  /\ JsMap.get String.eqb "123456" (Server.db (stateAfter exSubmitTrace))
     = Some exDoc
  /\ creationDoc exDoc.
Proof.
  assert (H1 : reachable (stateAfter exSubmitTrace)).
  { apply stateAfter_reachableBy.
    - apply Forall_forall. intros ei _. exact I.
    - vm_compute. discriminate. }
  assert (H2 : JsMap.get String.eqb "123456"
                 (Server.db (stateAfter exSubmitTrace)) = Some exDoc)
    by (vm_compute; reflexivity).
  split; [exact H1|]. split; [exact H2|].
  destruct (store_holds_creation_state_only (stateAfter exSubmitTrace)
              "123456" exDoc H1 H2) as [Hdoc _].
  exact Hdoc.
Defined.

(** ** The registry has one entry per game code *)

Ltac games_cases :=
  repeat match goal with
         | |- context [match ?x with _ => _ end] => destruct x
         end;
  simpl;
  repeat (apply (NoDup_keys_set _ String.eqb_eq)
          || apply NoDup_keys_delete);
  try assumption.

Lemma finishJoin_games_NoDup env s ws j :
  NoDup (JsMap.keys (Server.games s)) ->
  NoDup (JsMap.keys (Server.games (fst (finishJoin env s ws j)))).
Proof. intros H. unfold finishJoin. games_cases. Qed.

Lemma sweep_fold_NoDup (now : Z) (l acc : list (string * GameState.t)) :
  NoDup (JsMap.keys acc) ->
  NoDup (JsMap.keys
           (fold_left
              (fun games e =>
                 if oneHour <? now - GameState.createdAt (snd e)
                 then JsMap.delete String.eqb (fst e) games
                 else games) l acc)).
Proof.
  revert acc. induction l as [|e l IH]; intros acc H; simpl; [exact H|].
  apply IH. destruct (oneHour <? _); [|exact H].
  now apply NoDup_keys_delete.
Qed.

Lemma step_games_NoDup env s i s' out :
  step env s i = Some (s', out) ->
  NoDup (JsMap.keys (Server.games s)) ->
  NoDup (JsMap.keys (Server.games s')).
Proof.
  intros Hstep Hnd. destruct i as [ws data|ws|k|k|]; simpl in Hstep.
  - destruct data as [message|]; simpl in Hstep;
      [|now injection Hstep as <- _].
    destruct (handleMessage env s ws message) as [[[s1 o1] t1]|] eqn:E;
      [|discriminate].
    injection Hstep as <- _.
    destruct message; simpl in E; unfold noThrow in E.
    + unfold handleCreateGame in E.
      destruct (chooseCode _ _ _) as [code|]; [|discriminate].
      simpl in E. injection E as <- _ _. simpl.
      now apply (NoDup_keys_set _ String.eqb_eq).
    + injection E as E. unfold handleJoinGame in E.
      destruct (JsMap.get String.eqb (Req.gameCode j) (Server.games s)).
      * pose proof (finishJoin_games_NoDup env s ws j Hnd) as H1.
        destruct (finishJoin env s ws j) as [a1 b1]. simpl in H1.
        pose proof (finishJoin_games_NoDup env a1 ws j H1) as H2.
        destruct (finishJoin env a1 ws j) as [a2 b2]. simpl in H2.
        now injection E as <- _ _.
      * now injection E as <- _ _.
    + injection E as E. unfold handleJoinGame in E.
      destruct (JsMap.get String.eqb (Req.gameCode j) (Server.games s)).
      * pose proof (finishJoin_games_NoDup env s ws j Hnd) as H1.
        destruct (finishJoin env s ws j) as [a1 b1]. simpl in H1.
        pose proof (finishJoin_games_NoDup env a1 ws j H1) as H2.
        destruct (finishJoin env a1 ws j) as [a2 b2]. simpl in H2.
        now injection E as <- _ _.
      * now injection E as <- _ _.
    + injection E as <- _ _. unfold handleGameStarted. games_cases.
    + injection E as <- _ _. unfold handleRoundUpdate. games_cases.
    + injection E as <- _ _. unfold handlePlayerBuzz. games_cases.
    + injection E as <- _ _. unfold handleClearBuzzers. games_cases.
    + injection E as <- _ _. unfold handleClearPlayerBuzz. games_cases.
    + injection E as <- _ _. unfold handleEnableScoring. games_cases.
    + destruct (handleSubmitScore_cases _ _ _ _ _ _ _ E)
        as [->|[game [team [rs [_ [_ ->]]]]]]; [exact Hnd|].
      simpl. now apply (NoDup_keys_set _ String.eqb_eq).
    + injection E as <- _ _. unfold handleManagerChanged. games_cases.
    + injection E as <- _ _. unfold handleScoreUpdated. games_cases.
    + injection E as <- _ _. unfold handleRevealFinalScores. games_cases.
    + injection E as <- _ _. unfold handleLeaveGame.
      destruct (JsMap.get Nat.eqb ws (Server.connections s)); [|exact Hnd].
      destruct (JsMap.get String.eqb gameCode (Server.games s)); simpl;
        [now apply (NoDup_keys_set _ String.eqb_eq) | exact Hnd].
    + injection E as <- _ _. unfold handleDisconnection.
      destruct (JsMap.get Nat.eqb ws (Server.connections s)) as [c|];
        [|exact Hnd].
      destruct (JsMap.get String.eqb (conn_gameCode c) (Server.games s));
        [|exact Hnd].
      destruct c; simpl;
        [exact Hnd | now apply (NoDup_keys_set _ String.eqb_eq)].
    + injection E as <- _ _. unfold handleGetTeams. games_cases.
    + now injection E as <- _ _.
  - injection Hstep as Hs.
    assert (H : NoDup (JsMap.keys (Server.games
                 (fst (handleDisconnection env s ws))))).
    { unfold handleDisconnection.
      destruct (JsMap.get Nat.eqb ws (Server.connections s)) as [c|];
        [|exact Hnd].
      destruct (JsMap.get String.eqb (conn_gameCode c) (Server.games s));
        [|exact Hnd].
      destruct c; simpl;
        [exact Hnd | now apply (NoDup_keys_set _ String.eqb_eq)]. }
    now rewrite Hs in H.
  - injection Hstep as Hs.
    assert (H : NoDup (JsMap.keys (Server.games (fst (resolveLoad env s k))))).
    { unfold resolveLoad.
      destruct (nth_error (Server.pendingLoads s) k) as [[w j]|];
        [|exact Hnd].
      destruct (loadGameState _ _); [|exact Hnd].
      apply finishJoin_games_NoDup. simpl.
      now apply (NoDup_keys_set _ String.eqb_eq). }
    now rewrite Hs in H.
  - injection Hstep as <- _. unfold cleanupTimer.
    destruct (nth_error (Server.cleanupTimers s) k); [|exact Hnd].
    simpl. now apply NoDup_keys_delete.
  - injection Hstep as <- _. simpl. now apply sweep_fold_NoDup.
Qed.

Lemma reachable_games_NoDup (s : Server.t) :
  reachable s -> NoDup (JsMap.keys (Server.games s)).
Proof.
  induction 1 as [|s env i s' out _ IH _ Hstep]; [constructor|].
  eapply step_games_NoDup; eassumption.
Qed.

(** ** The hourly sweep *)

Lemma filter_all {A : Type} (f : A -> bool) (l : list A) :
  (forall x, In x l -> f x = true) -> filter f l = l.
Proof.
  induction l as [|a l IH]; intros H; simpl; [reflexivity|].
  rewrite (H a) by now left. f_equal. apply IH. intros x Hx. apply H.
  now right.
Qed.

Lemma filter_filter {A : Type} (f g : A -> bool) (l : list A) :
  filter f (filter g l) = filter (fun x => g x && f x) l.
Proof.
  induction l as [|a l IH]; simpl; [reflexivity|].
  destruct (g a); simpl; [destruct (f a)|]; now rewrite IH.
Qed.

(** The sweep's loop keeps the entries whose key is not the key of an
    aged entry of the list it iterates. *)
Lemma sweep_fold (now : Z) (l acc : list (string * GameState.t)) :
  fold_left
    (fun games e =>
       if oneHour <? now - GameState.createdAt (snd e)
       then JsMap.delete String.eqb (fst e) games
       else games) l acc
  = filter
      (fun e =>
         negb (existsb
                 (fun o => aged now (snd o) && String.eqb (fst o) (fst e)) l))
      acc.
Proof.
  revert acc. induction l as [|o l IH]; intros acc; simpl.
  - symmetry. now apply filter_all.
  - rewrite IH. fold (aged now (snd o)).
    destruct (aged now (snd o)); simpl; [|reflexivity].
    unfold JsMap.delete. rewrite filter_filter.
    apply filter_ext. intros e. now rewrite negb_orb.
Qed.

Lemma keys_inj (l : list (string * GameState.t)) (a b : string * GameState.t) :
  NoDup (JsMap.keys l) -> In a l -> In b l -> fst a = fst b -> a = b.
Proof.
  unfold JsMap.keys. induction l as [|x l IH]; intros Hnd Ha Hb Hk;
    [contradiction|].
  inversion Hnd as [|? ? Hnotin Hnd']; subst.
  destruct Ha as [->|Ha]; destruct Hb as [->|Hb]; try reflexivity.
  - elim Hnotin. rewrite Hk. now apply in_map.
  - elim Hnotin. rewrite <- Hk. now apply in_map.
  - now apply IH.
Qed.

(** X14.  The hourly sweep removes exactly the sessions whose creation
    lies more than one hour before the sweep and keeps the others, in
    order and unchanged.  Nothing else is looked at: a session that has
    started, has players or pending buzzes goes all the same. *)
Theorem sweep_removes_aged_sessions :
  forall (s : Server.t) (now : Z),
    reachable s ->
    Server.games (sweep now s)
    = filter (fun e => negb (aged now (snd e))) (Server.games s)
    /\ (forall gameCode game,
          JsMap.get String.eqb gameCode (Server.games s) = Some game ->
          oneHour < now - GameState.createdAt game ->
          JsMap.get String.eqb gameCode (Server.games (sweep now s)) = None)
    /\ (forall gameCode game,
          JsMap.get String.eqb gameCode (Server.games (sweep now s))
          = Some game ->
          now - GameState.createdAt game <= oneHour).
Proof.
  intros s now Hreach.
  pose proof (reachable_games_NoDup s Hreach) as Hnd.
  assert (Hsweep : Server.games (sweep now s)
                   = filter (fun e => negb (aged now (snd e)))
                            (Server.games s)).
  { unfold sweep. simpl. rewrite sweep_fold.
    apply filter_ext_in. intros e He. f_equal.
    destruct (aged now (snd e)) eqn:Haged.
    - apply existsb_exists. exists e. split; [exact He|].
      now rewrite Haged, String.eqb_refl.
    - destruct (existsb _ (Server.games s)) eqn:Hex; [|reflexivity].
      apply existsb_exists in Hex. destruct Hex as [o [Ho Hoe]].
      apply andb_true_iff in Hoe. destruct Hoe as [Hold Hkey].
      apply String.eqb_eq in Hkey.
      rewrite (keys_inj _ o e Hnd Ho He Hkey) in Hold. congruence. }
  split; [exact Hsweep|]. split.
  - intros gameCode game Hget Hold. rewrite Hsweep.
    destruct (JsMap.get String.eqb gameCode (filter _ (Server.games s)))
      as [game'|] eqn:Hget'; [|reflexivity].
    apply (get_In _ String.eqb_eq) in Hget'. apply filter_In in Hget'.
    destruct Hget' as [Hin Hyoung]. apply (get_In _ String.eqb_eq) in Hget.
    assert (Hsame : (gameCode, game') = (gameCode, game))
      by (apply (keys_inj _ _ _ Hnd Hin Hget); reflexivity).
    injection Hsame as ->. simpl in Hyoung. unfold aged in Hyoung.
    destruct (Z.ltb_spec oneHour (now - GameState.createdAt game));
      [discriminate | lia].
  - intros gameCode game Hget. rewrite Hsweep in Hget.
    apply (get_In _ String.eqb_eq) in Hget. apply filter_In in Hget.
    destruct Hget as [_ Hyoung]. simpl in Hyoung. unfold aged in Hyoung.
    destruct (Z.ltb_spec oneHour (now - GameState.createdAt game));
      [discriminate | lia].
Qed.

Lemma sweep_removes_aged_sessions_witness :
  reachable (stateAfter exSubmitTrace)
  /\ JsMap.get String.eqb "123456" (Server.games (stateAfter exSubmitTrace))
     = Some (exSession (stateAfter exSubmitTrace))
  /\ oneHour < 3700000
               - GameState.createdAt (exSession (stateAfter exSubmitTrace))
  /\ JsMap.get String.eqb "123456"
       (Server.games (sweep 3700000 (stateAfter exSubmitTrace))) = None.
Proof.
  assert (H1 : reachable (stateAfter exSubmitTrace)).
  { apply stateAfter_reachableBy.
    - apply Forall_forall. intros ei _. exact I.
    - vm_compute. discriminate. }
  assert (H2 : JsMap.get String.eqb "123456"
                 (Server.games (stateAfter exSubmitTrace))
               = Some (exSession (stateAfter exSubmitTrace)))
    by (vm_compute; reflexivity).
  assert (H3 : oneHour < 3700000
                 - GameState.createdAt (exSession (stateAfter exSubmitTrace)))
    by (vm_compute; reflexivity).
  split; [exact H1|]. split; [exact H2|]. split; [exact H3|].
  destruct (sweep_removes_aged_sessions (stateAfter exSubmitTrace) 3700000 H1)
    as [_ [Hgone _]].
  exact (Hgone "123456" _ H2 H3).
Defined.

(** ** Clearing one player's buzz *)

(** X15.  [findIndex] with [splice]: when the queue holds a record of
    the player, the first such record is taken out and the other
    records stay, in order; when it holds none, nothing is found. *)
Theorem spliceBuzz_takes_first_record :
  forall (playerId : string) (bs : list Buzz.t),
    (forall cleared rest,
        spliceBuzz playerId bs = Some (cleared, rest) ->
        exists before after,
          bs = before ++ cleared :: after
          /\ rest = before ++ after
          /\ Buzz.playerId cleared = playerId
          /\ forall b, In b before -> Buzz.playerId b <> playerId)
    /\ (spliceBuzz playerId bs = None <->
        forall b, In b bs -> Buzz.playerId b <> playerId).
Proof.
  intros playerId bs. induction bs as [|b bs [IHsome IHnone]]; simpl.
  - split; [discriminate|]. split; [tauto | reflexivity].
  - destruct (String.eqb_spec (Buzz.playerId b) playerId) as [Heq|Hne].
    + split.
      * intros cleared rest [= <- <-]. exists [], bs. repeat split.
        -- exact Heq.
        -- intros x [].
      * split; [discriminate|]. intros H. elim (H b); [now left | exact Heq].
    + destruct (spliceBuzz playerId bs) as [[c r]|] eqn:Hs.
      * split.
        -- intros cleared rest [= <- <-].
           destruct (IHsome c r eq_refl) as [before [after [-> [-> [Hc Hb]]]]].
           exists (b :: before), after. repeat split; try assumption.
           intros x [<-|Hx]; [exact Hne | now apply Hb].
        -- split; [discriminate|]. intros H.
           assert (Hnone : @None (Buzz.t * list Buzz.t) = None) by reflexivity.
           destruct IHnone as [_ IH]. 
           assert (Hbad : Some (c, r) = None).
           { apply IH. intros x Hx. apply H. now right. }
           discriminate.
      * split; [discriminate|]. split; [|reflexivity].
        intros _ x [<-|Hx]; [exact Hne|].
        destruct IHnone as [IH _]. now apply IH.
Qed.

(** ** Changing the manager *)

(** X16.  [MANAGER_CHANGED] from a host stores the new id in the team's
    [manager] field and flags exactly the members with that id, leaving
    ids, names and scores alone.  If the id is on a roster of distinct
    ids the team has one manager again; if it is not on the roster, no
    member is flagged at all. *)
Theorem managerChanged_reflags_members :
  forall (env : Env.t) (s : Server.t) (ws : Conn)
         (gameCode teamName newManagerId : string)
         (game : GameState.t) (team : Team.t),
    hostGuard s ws gameCode = Some game ->
    JsMap.get String.eqb teamName (GameState.teams game) = Some team ->
    exists game' team',
      gameAfter
        (onMessage env s ws
           (Some (Req.MANAGER_CHANGED gameCode teamName newManagerId)))
        gameCode = Some game'
      /\ JsMap.get String.eqb teamName (GameState.teams game') = Some team'
      /\ Team.manager team' = Some newManagerId
      /\ map descriptor (Team.members team')
         = map descriptor (Team.members team)
      /\ Team.totalScore team' = Team.totalScore team
      /\ Team.roundScores team' = Team.roundScores team
      /\ (In newManagerId (memberIds team) -> NoDup (memberIds team) ->
          oneManager team')
      /\ (~ In newManagerId (memberIds team) ->
          filter Member.isManager (Team.members team') = []).
Proof.
  intros env s ws gameCode teamName newManagerId game team Hguard Hteam.
  eexists _, _. unfold onMessage. simpl. unfold handleManagerChanged.
  rewrite Hguard, Hteam. simpl.
  rewrite !(get_set_same _ String.eqb_eq).
  split; [reflexivity|]. simpl.
  rewrite (get_set_same _ String.eqb_eq).
  split; [reflexivity|]. simpl.
  split; [reflexivity|].
  split; [apply markManager_descriptors|].
  split; [reflexivity|]. split; [reflexivity|]. split.
  - intros Hin Hnd. apply TeamOk_oneManager. split.
    + unfold memberIds. simpl. now rewrite markManager_ids.
    + exists newManagerId. repeat split; simpl.
      * unfold memberIds. simpl. now rewrite markManager_ids.
      * apply markManager_flags.
  - intros Hnot. apply filter_none. intros m Hm.
    rewrite (markManager_flags _ _ _ Hm). apply String.eqb_neq.
    intros Hid. apply Hnot. unfold memberIds.
    apply (in_map Member.playerId) in Hm.
    rewrite markManager_ids, Hid in Hm. exact Hm.
Qed.

Lemma managerChanged_reflags_members_witness :
  hostGuard exServer 0%nat "123456" = Some (exSession exServer)
  /\ JsMap.get String.eqb "Red" (GameState.teams (exSession exServer))
     = Some (exRed (exSession exServer))
  /\ exists game' team',
       gameAfter
         (onMessage exEnv exServer 0%nat
            (Some (Req.MANAGER_CHANGED "123456" "Red" "P9")))
         "123456" = Some game'
       /\ JsMap.get String.eqb "Red" (GameState.teams game') = Some team'
       /\ Team.manager team' = Some "P9".
Proof.
  assert (H1 : hostGuard exServer 0%nat "123456" = Some (exSession exServer))
    by (vm_compute; reflexivity).
  assert (H2 : JsMap.get String.eqb "Red"
                 (GameState.teams (exSession exServer))
               = Some (exRed (exSession exServer)))
    by (vm_compute; reflexivity).
  split; [exact H1|]. split; [exact H2|].
  destruct (managerChanged_reflags_members exEnv exServer 0%nat "123456"
              "Red" "P9" _ _ H1 H2)
    as [game' [team' [Hg [Ht [Hm _]]]]].
  exists game', team'. repeat split; assumption.
Defined.

(** ** No empty teams *)

Lemma teamsNonEmpty_frame (g g' : GameState.t) :
  GameState.teams g' = GameState.teams g ->
  GameState.players g' = GameState.players g ->
  teamsNonEmpty g -> teamsNonEmpty g'.
Proof. unfold teamsNonEmpty. now intros -> _. Qed.

Lemma teamsNonEmpty_team (g : GameState.t) (teamName : string)
    (team : Team.t) :
  teamsNonEmpty g ->
  JsMap.get String.eqb teamName (GameState.teams g) = Some team ->
  Team.members team <> [].
Proof.
  unfold teamsNonEmpty. intros Hok Hget.
  apply (get_In_values _ String.eqb_eq) in Hget.
  rewrite Forall_forall in Hok. now apply Hok.
Qed.

Lemma reachable_teamsNonEmpty (s : Server.t) :
  reachable s -> serverInv teamsNonEmpty s.
Proof.
  apply reachableBy_inv.
  - exact teamsNonEmpty_frame.
  - intros. constructor.
  - intros playerId playerData g Hok. unfold teamsNonEmpty, addPlayer.
    simpl. apply Forall_values_set; [|exact Hok].
    intros Hnil.
    pose proof (addToTeam_contains playerId playerData
                  match JsMap.get String.eqb (PlayerData.teamName playerData)
                          (GameState.teams g) with
                  | Some team => team
                  | None => newTeam (PlayerData.teamName playerData)
                  end) as Hin.
    unfold memberIds in Hin. rewrite Hnil in Hin. exact Hin.
  - intros playerId g Hok. unfold teamsNonEmpty, removePlayer. simpl.
    destruct (JsMap.get String.eqb playerId (GameState.players g))
      as [player|]; [|exact Hok].
    destruct (JsMap.get String.eqb (PlayerData.teamName player)
                (GameState.teams g)) as [team|]; [|exact Hok].
    destruct (Nat.eqb _ 0) eqn:Hlen.
    + now apply Forall_values_delete.
    + apply Forall_values_set; [|exact Hok].
      intros Hnil. rewrite Hnil in Hlen. discriminate.
  - intros g teamName team newManagerId Hok Hget. unfold teamsNonEmpty.
    simpl. apply Forall_values_set; [|exact Hok]. simpl.
    pose proof (teamsNonEmpty_team _ _ _ Hok Hget) as Hne.
    unfold markManager. destruct (Team.members team); [congruence|].
    discriminate.
  - intros g teamName team roundScores Hok Hget. unfold teamsNonEmpty.
    simpl. apply Forall_values_set; [|exact Hok]. simpl.
    eapply teamsNonEmpty_team; eassumption.
  - intros ws gameCode teamName scores totalScore _ g team Hok Hget.
    unfold teamsNonEmpty. simpl.
    apply Forall_values_set; [|exact Hok]. simpl.
    eapply teamsNonEmpty_team; eassumption.
  - intros now now' g g' Hok. unfold loadGameState, teamsNonEmpty.
    destruct (expired now' (Persisted.expiresAt (saveGameState now g)));
      [discriminate|].
    intros [= <-]. simpl. apply Forall_forall. intros team Hin.
    apply of_entries_values in Hin. rewrite map_map in Hin. simpl in Hin.
    rewrite map_id in Hin. unfold teamsNonEmpty in Hok.
    rewrite Forall_forall in Hok. now apply Hok.
Qed.

(** X17.  A team exists only while it has members: in every reachable
    state each team of each resident session has at least one member,
    so every entry of a [TEAMS_LIST] reply carries a count of at least
    one. *)
Theorem teams_are_never_empty :
  forall (s : Server.t) (game : GameState.t),
    reachable s ->
    In game (JsMap.values (Server.games s)) ->
    (forall team,
        In team (JsMap.values (GameState.teams game)) ->
        Team.members team <> [])
    /\ (forall ws gameCode name count,
          JsMap.get String.eqb gameCode (Server.games s) = Some game ->
          In (name, count)
             match snd (handleGetTeams s ws gameCode) with
             | [(_, Ev.TEAMS_LIST teams)] => teams
             | _ => []
             end ->
          (1 <= count)%nat).
Proof.
  intros s game Hreach Hgame.
  assert (Hok : teamsNonEmpty game).
  { apply reachable_teamsNonEmpty in Hreach. destruct Hreach as [Hg _].
    rewrite Forall_forall in Hg. now apply Hg. }
  unfold teamsNonEmpty in Hok. rewrite Forall_forall in Hok.
  split; [exact Hok|].
  intros ws gameCode name count Hget Hin.
  unfold handleGetTeams in Hin. rewrite Hget in Hin. simpl in Hin.
  apply in_map_iff in Hin. destruct Hin as [team [[= _ <-] Hteam]].
  specialize (Hok team Hteam).
  destruct (Team.members team); [congruence | simpl; lia].
Qed.

Lemma teams_are_never_empty_witness :
  reachable exServer
  /\ In (exSession exServer) (JsMap.values (Server.games exServer))
  /\ In (exRed (exSession exServer))
        (JsMap.values (GameState.teams (exSession exServer)))
  /\ Team.members (exRed (exSession exServer)) <> [].
Proof.
  assert (H1 : reachable exServer).
  { apply stateAfter_reachableBy.
    - apply Forall_forall. intros ei _. exact I.
    - vm_compute. discriminate. }
  assert (H2 : In (exSession exServer) (JsMap.values (Server.games exServer)))
    by (vm_compute; now left).
  assert (H3 : In (exRed (exSession exServer))
                 (JsMap.values (GameState.teams (exSession exServer))))
    by (vm_compute; now left).
  split; [exact H1|]. split; [exact H2|]. split; [exact H3|].
  destruct (teams_are_never_empty exServer (exSession exServer) H1 H2)
    as [Hne _].
  exact (Hne _ H3).
Defined.

(** ** Generated game codes *)

(** X18.  A generated code is the decimal numeral of a number from
    100000 to 999999: read back as a numeral it gives 100000 plus the
    draw.  It is therefore never the empty (falsy) string, and two
    draws give the same code only when they give the same number. *)
Theorem generateGameCode_is_numeral_in_range :
  forall (u : N),
    (exists d,
        NilEmpty.uint_of_string (generateGameCode u) = Some d
        /\ N.of_uint d = (100000 + u mod 900000)%N
        /\ (100000 <= N.of_uint d < 1000000)%N)
    /\ generateGameCode u <> ""
    /\ (forall v,
          generateGameCode u = generateGameCode v <->
          (u mod 900000 = v mod 900000)%N).
Proof.
  intros u.
  assert (Hparse : forall w,
             NilEmpty.uint_of_string (generateGameCode w)
             = Some (N.to_uint (100000 + w mod 900000))).
  { intros w. unfold generateGameCode. apply NilEmpty.usu. }
  assert (Hrange : (u mod 900000 < 900000)%N)
    by (apply N.mod_upper_bound; discriminate).
  split; [|split].
  - exists (N.to_uint (100000 + u mod 900000)).
    rewrite Unsigned.of_to. split; [apply Hparse|]. split; [reflexivity|].
    remember (u mod 900000)%N as m. lia.
  - intros Hempty. pose proof (Hparse u) as H.
    remember (u mod 900000)%N as m eqn:Hm.
    remember (100000 + m)%N as x eqn:Hx.
    rewrite Hempty in H.
    change (Some Decimal.Nil = Some (N.to_uint x)) in H.
    injection H as H. apply (f_equal N.of_uint) in H.
    rewrite Unsigned.of_to in H.
    change (N.of_uint Decimal.Nil) with 0%N in H. lia.
  - intros v. split.
    + intros Heq. pose proof (Hparse u) as Hu. pose proof (Hparse v) as Hv.
      remember (u mod 900000)%N as m eqn:Hm.
      remember (v mod 900000)%N as m' eqn:Hm'.
      remember (100000 + m)%N as x eqn:Hx.
      remember (100000 + m')%N as x' eqn:Hx'.
      rewrite Heq, Hv in Hu. injection Hu as Hu.
      apply (f_equal N.of_uint) in Hu. rewrite !Unsigned.of_to in Hu. lia.
    + intros Heq. unfold generateGameCode. now rewrite Heq.
Qed.

(** ** Writing a score into the round scores *)

(** X19.  Storing a score under a number that is an array index (0 to
    [maxIndex]): the slot holds the score, every other slot reads as
    before (slots the array is extended by are holes), the array is as
    long as before or just long enough to hold the slot, and, while the
    sums stay within the exact integers, the recomputed total is the
    old sum minus what the slot held plus the new score -- so a second
    submission for the same round replaces the first instead of adding
    to it.  Under any other number (negative, beyond [maxIndex],
    infinite) the elements stay as they are. *)
Theorem array_set_replaces_one_slot :
  forall (a : Scores) (i v : Z),
    0 <= i <= maxIndex ->
    nth_error (array_set a (Fin i) v) (Z.to_nat i) = Some (Some v)
    /\ (forall j, j <> Z.to_nat i ->
          nth j (array_set a (Fin i) v) None = nth j a None)
    /\ List.length (array_set a (Fin i) v)
       = Nat.max (List.length a) (S (Z.to_nat i))
    /\ (sumAbs a <= maxExact ->
        sumAbs (array_set a (Fin i) v) <= maxExact ->
        sumScores a = Fin (sumZ (map orZero a))
        /\ sumScores (array_set a (Fin i) v)
           = Fin (sumZ (map orZero a) - orZero (nth (Z.to_nat i) a None) + v))
    /\ (forall w,
          array_set (array_set a (Fin i) w) (Fin i) v = array_set a (Fin i) v)
    /\ (forall k, k < 0 \/ maxIndex < k -> array_set a (Fin k) v = a)
    /\ array_set a PosInf v = a
    /\ array_set a NegInf v = a.
Proof.
  intros a i v Hi. rewrite !array_set_index by exact Hi.
  split; [apply nth_error_array_set_nat|].
  split; [intros j Hj; now apply array_set_nat_other|].
  split; [apply array_set_nat_length|].
  split.
  { intros Ha Hnew. rewrite !sumScores_exact by assumption.
    split; [reflexivity|]. f_equal. apply array_set_nat_sum. }
  split.
  { intros w. rewrite !array_set_index by exact Hi.
    apply array_set_nat_twice. }
  split; [|split; reflexivity].
  intros k Hk. unfold array_set, isIndex.
  destruct (Z.leb_spec 0 k); [|reflexivity].
  destruct (Z.leb_spec k maxIndex); [lia | reflexivity].
Qed.

Lemma array_set_replaces_one_slot_witness :
  0 <= 1 <= maxIndex
  /\ sumAbs [Some 50; Some 20] <= maxExact
  /\ sumAbs (array_set [Some 50; Some 20] (Fin 1) 30) <= maxExact
  /\ (-1 < 0 \/ maxIndex < -1)
  /\ sumScores (array_set [Some 50; Some 20] (Fin 1) 30)
     = Fin (sumZ (map orZero [Some 50; Some 20])
            - orZero (nth (Z.to_nat 1) [Some 50; Some 20] None) + 30)
  /\ array_set [Some 50; Some 20] (Fin (-1)) 30 = [Some 50; Some 20].
Proof.
  assert (H4 : -1 < 0 \/ maxIndex < -1) by (left; lia).
  assert (H1 : 0 <= 1 <= maxIndex) by (split; vm_compute; discriminate).
  assert (H2 : sumAbs [Some 50; Some 20] <= maxExact)
    by (vm_compute; discriminate).
  assert (H3 : sumAbs (array_set [Some 50; Some 20] (Fin 1) 30) <= maxExact)
    by (vm_compute; discriminate).
  split; [exact H1|]. split; [exact H2|]. split; [exact H3|].
  split; [exact H4|].
  destruct (array_set_replaces_one_slot [Some 50; Some 20] 1 30 H1)
    as [_ [_ [_ [Hsum [_ [Hout _]]]]]].
  split; [exact (proj2 (Hsum H2 H3)) | exact (Hout (-1) H4)].
Defined.

(** ** Who a broadcast reaches *)

(** X20.  [broadcast] writes the message to a socket exactly when the
    game is resident, the socket is not the excluded one, it is open,
    and the directory binds it to that game -- host or player alike.
    For a game that is not resident it sends nothing. *)
Theorem broadcast_reaches_open_sockets_of_game :
  forall (env : Env.t) (s : Server.t) (gameCode : string) (message : Ev.t)
         (excludeConnection : option Conn) (ws : Conn) (e : Ev.t),
    In (ws, e) (broadcast env s gameCode message excludeConnection) <->
    e = message
    /\ JsMap.get String.eqb gameCode (Server.games s) <> None
    /\ excludeConnection <> Some ws
    /\ Env.isOpen env ws = true
    /\ exists connInfo,
         In (ws, connInfo) (Server.connections s)
         /\ conn_gameCode connInfo = gameCode.
Proof.
  intros env s gameCode message excludeConnection ws e. unfold broadcast.
  destruct (JsMap.get String.eqb gameCode (Server.games s)) as [game|].
  2:{ simpl. split; [tauto|]. intros [_ [H _]]. congruence. }
  unfold sendWhere. rewrite in_map_iff. split.
  - intros [[w info] [[= <- <-] Hin]]. apply filter_In in Hin.
    destruct Hin as [Hin Htest]. simpl in Htest.
    apply andb_true_iff in Htest. destruct Htest as [Htest Hopen].
    apply andb_true_iff in Htest. destruct Htest as [Hexcl Hcode].
    apply String.eqb_eq in Hcode.
    repeat split; try assumption; try discriminate.
    + intros Hex. rewrite Hex in Hexcl. simpl in Hexcl.
      rewrite Nat.eqb_refl in Hexcl. discriminate.
    + now exists info.
  - intros [-> [_ [Hexcl [Hopen [info [Hin Hcode]]]]]].
    exists (ws, info). split; [reflexivity|].
    apply filter_In. split; [exact Hin|]. simpl.
    rewrite Hopen, Hcode, String.eqb_refl.
    destruct excludeConnection as [x|]; simpl; [|reflexivity].
    destruct (Nat.eqb_spec ws x); [subst; congruence | reflexivity].
Qed.

(** ** Disconnections *)

Lemma set_get_same {V : Type} (k : string) (v : V) (m : list (string * V)) :
  JsMap.get String.eqb k m = Some v -> JsMap.set String.eqb k v m = m.
Proof.
  induction m as [|[k' v'] m IH]; simpl; [discriminate|].
  destruct (String.eqb_spec k k') as [->|Hne].
  - now intros [= ->].
  - intros H. now rewrite IH.
Qed.

(** X21.  When a player's socket closes, the player stays on its team
    and in the players map -- teams, scores and managers are untouched
    -- while its pending buzz records and the socket's directory entry
    are removed; only an open host socket is told. *)
Theorem player_disconnection_keeps_roster :
  forall (env : Env.t) (s : Server.t) (ws : Conn)
         (gameCode playerId teamName : string) (game : GameState.t),
    JsMap.get Nat.eqb ws (Server.connections s)
    = Some (PlayerConn gameCode playerId teamName) ->
    JsMap.get String.eqb gameCode (Server.games s) = Some game ->
    exists s' game',
      step env s (OnClose ws)
      = Some (s', sendToHost env s gameCode (Ev.PLAYER_DISCONNECTED playerId))
      /\ JsMap.get String.eqb gameCode (Server.games s') = Some game'
      /\ GameState.teams game' = GameState.teams game
      /\ GameState.players game' = GameState.players game
      /\ (forall b, In b (GameState.buzzedPlayers game') <->
                    In b (GameState.buzzedPlayers game)
                    /\ Buzz.playerId b <> playerId)
      /\ JsMap.get Nat.eqb ws (Server.connections s') = None
      /\ (forall c, c <> gameCode ->
            JsMap.get String.eqb c (Server.games s')
            = JsMap.get String.eqb c (Server.games s)).
Proof.
  intros env s ws gameCode playerId teamName game Hconn Hgame.
  eexists _, _. simpl. unfold handleDisconnection.
  rewrite Hconn. simpl. rewrite Hgame. simpl.
  split.
  { f_equal. f_equal. unfold sendToHost. simpl.
    rewrite (get_set_same _ String.eqb_eq), Hgame. reflexivity. }
  simpl. split; [apply (get_set_same _ String.eqb_eq)|].
  split; [reflexivity|]. split; [reflexivity|]. split.
  - intros b. simpl. rewrite filter_In, negb_true_iff, String.eqb_neq.
    reflexivity.
  - split; [apply get_delete_same|].
    intros c Hc. apply (get_set_other _ String.eqb_eq). congruence.
Qed.

Lemma player_disconnection_keeps_roster_witness :
  JsMap.get Nat.eqb 1%nat (Server.connections exServer)
  = Some (PlayerConn "123456" "P1" "Red")
  /\ JsMap.get String.eqb "123456" (Server.games exServer)
     = Some (exSession exServer)
  /\ exists s' game',
       step exEnv exServer (OnClose 1%nat)
       = Some (s', sendToHost exEnv exServer "123456"
                     (Ev.PLAYER_DISCONNECTED "P1"))
       /\ JsMap.get String.eqb "123456" (Server.games s') = Some game'
       /\ GameState.teams game' = GameState.teams (exSession exServer).
Proof.
  assert (H1 : JsMap.get Nat.eqb 1%nat (Server.connections exServer)
               = Some (PlayerConn "123456" "P1" "Red"))
    by (vm_compute; reflexivity).
  assert (H2 : JsMap.get String.eqb "123456" (Server.games exServer)
               = Some (exSession exServer)) by (vm_compute; reflexivity).
  split; [exact H1|]. split; [exact H2|].
  destruct (player_disconnection_keeps_roster exEnv exServer 1%nat "123456"
              "P1" "Red" _ H1 H2) as [s' [game' [Hstep [Hg [Ht _]]]]].
  exists s', game'. repeat split; assumption.
Defined.

(** X22.  When a host's socket closes, its game stays resident and
    unchanged and every open socket bound to the game is told; the
    removal of the game is scheduled, and when that timer fires the
    game leaves the registry -- nothing cancels or re-checks it --
    while its document stays in the store. *)
Theorem host_disconnection_evicts_game :
  forall (env env' : Env.t) (s : Server.t) (ws : Conn)
         (gameCode hostId : string) (game : GameState.t),
    JsMap.get Nat.eqb ws (Server.connections s)
    = Some (HostConn gameCode hostId) ->
    JsMap.get String.eqb gameCode (Server.games s) = Some game ->
    exists s1 s2,
      step env s (OnClose ws)
      = Some (s1, broadcast env s gameCode Ev.HOST_DISCONNECTED None)
      /\ Server.games s1 = Server.games s
      /\ Server.cleanupTimers s1 = Server.cleanupTimers s ++ [gameCode]
      /\ JsMap.get Nat.eqb ws (Server.connections s1) = None
      /\ step env' s1 (OnCleanupTimer (List.length (Server.cleanupTimers s)))
         = Some (s2, [])
      /\ JsMap.get String.eqb gameCode (Server.games s2) = None
      /\ Server.cleanupTimers s2 = Server.cleanupTimers s
      /\ Server.db s2 = Server.db s.
Proof.
  intros env env' s ws gameCode hostId game Hconn Hgame.
  eexists _, _. simpl. unfold handleDisconnection.
  rewrite Hconn. simpl. rewrite Hgame. simpl.
  split; [reflexivity|]. simpl.
  split; [reflexivity|]. split; [reflexivity|].
  split; [apply get_delete_same|].
  unfold cleanupTimer. simpl. rewrite nth_error_last.
  split; [reflexivity|]. simpl.
  split; [apply get_delete_same|].
  split; [apply remove_nth_last | reflexivity].
Qed.

Lemma host_disconnection_evicts_game_witness :
  JsMap.get Nat.eqb 0%nat (Server.connections exServer)
  = Some (HostConn "123456" "host-1")
  /\ JsMap.get String.eqb "123456" (Server.games exServer)
     = Some (exSession exServer)
  /\ exists s1 s2,
       step exEnv exServer (OnClose 0%nat)
       = Some (s1, broadcast exEnv exServer "123456" Ev.HOST_DISCONNECTED None)
       /\ step exEnv s1 (OnCleanupTimer 0) = Some (s2, [])
       /\ JsMap.get String.eqb "123456" (Server.games s2) = None.
Proof.
  assert (H1 : JsMap.get Nat.eqb 0%nat (Server.connections exServer)
               = Some (HostConn "123456" "host-1"))
    by (vm_compute; reflexivity).
  assert (H2 : JsMap.get String.eqb "123456" (Server.games exServer)
               = Some (exSession exServer)) by (vm_compute; reflexivity).
  split; [exact H1|]. split; [exact H2|].
  destruct (host_disconnection_evicts_game exEnv exEnv exServer 0%nat
              "123456" "host-1" _ H1 H2)
    as [s1 [s2 [Hclose [_ [_ [_ [Htimer [Hgone _]]]]]]]].
  exists s1, s2. repeat split; assumption.
Defined.

(** ** Refused buzzes *)

Lemma handleBuzz_refused_same (now : Z) (playerId : string)
    (g : GameState.t) :
  snd (handleBuzz now playerId g) = false ->
  fst (handleBuzz now playerId g) = g.
Proof.
  unfold handleBuzz.
  destruct (JsMap.get String.eqb playerId (GameState.players g));
    [|reflexivity].
  destruct (negb (GameState.gameStarted g)); [reflexivity|].
  destruct (teamHasBuzzed _ g); [reflexivity | discriminate].
Qed.

(** X23.  A buzz the session refuses changes nothing on the server and
    is answered to the sender alone, with the one reason text that
    covers both causes; a buzz for a game that is not resident is
    answered "Game not found". *)
Theorem refused_buzz_only_answers_sender :
  forall (env : Env.t) (s : Server.t) (ws : Conn)
         (gameCode playerId playerName teamName : string),
    (forall game,
        JsMap.get String.eqb gameCode (Server.games s) = Some game ->
        snd (handleBuzz (Env.now env) playerId game) = false ->
        onMessage env s ws
          (Some (Req.PLAYER_BUZZ gameCode playerId playerName teamName))
        = Some (s, [(ws, Ev.BUZZ_RESPONSE (Some playerId) false
                           "Team already buzzed or game not started")]))
    /\ (JsMap.get String.eqb gameCode (Server.games s) = None ->
        onMessage env s ws
          (Some (Req.PLAYER_BUZZ gameCode playerId playerName teamName))
        = Some (s, [(ws, Ev.BUZZ_RESPONSE None false "Game not found")])).
Proof.
  intros env s ws gameCode playerId playerName teamName. split.
  - intros game Hgame Hrefused.
    pose proof (handleBuzz_refused_same _ _ _ Hrefused) as Hsame.
    unfold onMessage. simpl. unfold handlePlayerBuzz. rewrite Hgame.
    destruct (handleBuzz (Env.now env) playerId game) as [game' success].
    simpl in *. subst. simpl.
    unfold Server.put_game. rewrite (set_get_same _ _ _ Hgame).
    now destruct s.
  - intros Hnone. unfold onMessage. simpl. unfold handlePlayerBuzz.
    now rewrite Hnone.
Qed.

(** ** Every known player is on a roster *)

Lemma addToTeam_ids_incl (playerId : string) (playerData : PlayerData.t)
    (team : Team.t) (q : string) :
  In q (memberIds team) -> In q (memberIds (addToTeam playerId playerData team)).
Proof.
  intros Hin. unfold addToTeam, memberIds.
  destruct (find _ (Team.members team));
    destruct (PlayerData.isManager playerData || manager_falsy _); simpl;
    try rewrite markManager_ids; try rewrite map_app;
    try (apply in_or_app; left); exact Hin.
Qed.

Lemma removeFromTeam_ids (playerId : string) (team : Team.t) :
  memberIds (removeFromTeam playerId team)
  = filter (fun i => negb (String.eqb i playerId)) (memberIds team).
Proof.
  unfold removeFromTeam, memberIds. rewrite <- filter_ids.
  destruct (manager_is _ _ && _); [|reflexivity].
  now destruct (filter _ (Team.members team)).
Qed.

Lemma rosterLinked_frame (g g' : GameState.t) :
  GameState.teams g' = GameState.teams g ->
  GameState.players g' = GameState.players g ->
  rosterLinked g -> rosterLinked g'.
Proof.
  intros Ht Hp [Hm Hr]. split; [eapply mapsOk_frame; eassumption|].
  unfold playersOnRoster in *. rewrite Ht, Hp. exact Hr.
Qed.

(** Replacing a team by one with the same member ids. *)
Lemma playersOnRoster_set_team (g : GameState.t) (teamName : string)
    (team team' : Team.t) :
  playersOnRoster g ->
  JsMap.get String.eqb teamName (GameState.teams g) = Some team ->
  (forall q, In q (memberIds team) -> In q (memberIds team')) ->
  playersOnRoster
    (GameState.set_teams
       (JsMap.set String.eqb teamName team' (GameState.teams g)) g).
Proof.
  intros Hr Hget Hincl q player Hq. simpl in *.
  destruct (Hr q player Hq) as [t [Ht Hin]].
  destruct (String.eqb_spec teamName (PlayerData.teamName player))
    as [Heq|Hne].
  - exists team'. rewrite <- Heq, (get_set_same _ String.eqb_eq).
    split; [reflexivity|]. apply Hincl. congruence.
  - exists t. rewrite (get_set_other _ String.eqb_eq) by exact Hne.
    now split.
Qed.

Lemma rosterLinked_addPlayer (playerId : string) (playerData : PlayerData.t)
    (g : GameState.t) :
  rosterLinked g -> rosterLinked (addPlayer playerId playerData g).
Proof.
  intros [Hm Hr]. split; [now apply mapsOk_addPlayer|].
  intros q player Hq. unfold addPlayer in *. simpl in *.
  destruct (String.eqb_spec playerId q) as [<-|Hne].
  - rewrite (get_set_same _ String.eqb_eq) in Hq. injection Hq as <-.
    eexists. rewrite (get_set_same _ String.eqb_eq).
    split; [reflexivity | apply addToTeam_contains].
  - rewrite (get_set_other _ String.eqb_eq) in Hq by exact Hne.
    destruct (Hr q player Hq) as [t [Ht Hin]].
    destruct (String.eqb_spec (PlayerData.teamName playerData)
                (PlayerData.teamName player)) as [Heq|Hne'].
    + rewrite Heq, Ht. eexists.
      rewrite (get_set_same _ String.eqb_eq).
      split; [reflexivity | now apply addToTeam_ids_incl].
    + exists t. rewrite (get_set_other _ String.eqb_eq) by exact Hne'.
      now split.
Qed.

Lemma rosterLinked_removePlayer (playerId : string) (g : GameState.t) :
  rosterLinked g -> rosterLinked (removePlayer playerId g).
Proof.
  intros [Hm Hr]. split; [now apply mapsOk_removePlayer|].
  intros q player Hq. unfold removePlayer in *. simpl in *.
  assert (Hne : playerId <> q).
  { intros ->. rewrite get_delete_same in Hq. discriminate. }
  rewrite (get_delete_other _ String.eqb_eq) in Hq by exact Hne.
  destruct (Hr q player Hq) as [t [Ht Hin]].
  destruct (JsMap.get String.eqb playerId (GameState.players g))
    as [leaver|]; [|now exists t].
  destruct (JsMap.get String.eqb (PlayerData.teamName leaver)
              (GameState.teams g)) as [team|] eqn:Hteam; [|now exists t].
  destruct (String.eqb_spec (PlayerData.teamName leaver)
              (PlayerData.teamName player)) as [Heq|Hne'].
  - (* the two are on the same team: it keeps [q], so it is not deleted *)
    rewrite Heq in Hteam. rewrite Ht in Hteam. injection Hteam as <-.
    assert (Hstay : In q (memberIds (removeFromTeam playerId t))).
    { rewrite removeFromTeam_ids. apply filter_In. split; [exact Hin|].
      apply negb_true_iff, String.eqb_neq. congruence. }
    destruct (Nat.eqb (List.length (Team.members (removeFromTeam playerId t)))
                0) eqn:Hlen.
    + unfold memberIds in Hstay.
      destruct (Team.members (removeFromTeam playerId t));
        [contradiction | discriminate].
    + exists (removeFromTeam playerId t). rewrite Heq.
      rewrite (get_set_same _ String.eqb_eq). now split.
  - exists t. destruct (Nat.eqb _ 0).
    + rewrite (get_delete_other _ String.eqb_eq) by exact Hne'. now split.
    + rewrite (get_set_other _ String.eqb_eq) by exact Hne'. now split.
Qed.

Lemma reachable_rosterLinked (s : Server.t) :
  reachable s -> serverInv rosterLinked s.
Proof.
  apply reachableBy_inv.
  - exact rosterLinked_frame.
  - intros. split; [repeat split; constructor|].
    intros q player Hq. discriminate.
  - exact rosterLinked_addPlayer.
  - exact rosterLinked_removePlayer.
  - intros g teamName team newManagerId [Hm Hr] Hget. split.
    + apply mapsOk_set_team; [exact Hm|]. simpl.
      destruct Hm as [_ [Hk _]]. eapply keyedByName_get; eassumption.
    + eapply playersOnRoster_set_team; [exact Hr | exact Hget|].
      intros q Hq. unfold memberIds in *. simpl.
      now rewrite markManager_ids.
  - intros g teamName team roundScores [Hm Hr] Hget. split.
    + apply mapsOk_set_team; [exact Hm|]. simpl.
      destruct Hm as [_ [Hk _]]. eapply keyedByName_get; eassumption.
    + eapply playersOnRoster_set_team; [exact Hr | exact Hget|].
      intros q Hq. exact Hq.
  - intros ws gameCode teamName scores totalScore _ g team [Hm Hr] Hget.
    split.
    + apply mapsOk_set_team; [exact Hm|]. simpl.
      destruct Hm as [_ [Hk _]]. eapply keyedByName_get; eassumption.
    + eapply playersOnRoster_set_team; [exact Hr | exact Hget|].
      intros q Hq. exact Hq.
  - intros now now' g g' [Hm Hr] Hload.
    destruct (expired now' (Some (now + fourHours))) eqn:Hexp.
    + unfold loadGameState in Hload.
      cbn [saveGameState Persisted.expiresAt] in Hload.
      rewrite Hexp in Hload. discriminate.
    + rewrite (load_save _ _ _ Hm Hexp) in Hload. injection Hload as <-.
      apply (rosterLinked_frame g); [reflexivity | reflexivity | now split].
Qed.

(** X24.  In every reachable state, each player a resident session
    knows is on the roster of the team its players-map entry names (and
    that team exists).  The converse fails: a roster can list ids the
    players map no longer places there, as after a team switch. *)
Theorem known_players_are_on_their_team :
  forall (s : Server.t) (game : GameState.t) (playerId : string)
         (player : PlayerData.t),
    reachable s ->
    In game (JsMap.values (Server.games s)) ->
    JsMap.get String.eqb playerId (GameState.players game) = Some player ->
    exists team,
      JsMap.get String.eqb (PlayerData.teamName player) (GameState.teams game)
      = Some team
      /\ In playerId (memberIds team).
Proof.
  intros s game playerId player Hreach Hgame Hplayer.
  apply reachable_rosterLinked in Hreach. destruct Hreach as [Hg _].
  rewrite Forall_forall in Hg. destruct (Hg game Hgame) as [_ Hr].
  exact (Hr playerId player Hplayer).
Qed.

Lemma known_players_are_on_their_team_witness :
  reachable (stateAfter exSwitchTrace)
  /\ In (exSession (stateAfter exSwitchTrace))
        (JsMap.values (Server.games (stateAfter exSwitchTrace)))
  /\ JsMap.get String.eqb "P1"
       (GameState.players (exSession (stateAfter exSwitchTrace)))
     = Some (PlayerData.mk "Ann" "Blue" false 1%nat)
  /\ exists team,
       JsMap.get String.eqb "Blue"
         (GameState.teams (exSession (stateAfter exSwitchTrace))) = Some team
       /\ In "P1" (memberIds team).
Proof.
  assert (H1 : reachable (stateAfter exSwitchTrace)).
  { apply stateAfter_reachableBy.
    - apply Forall_forall. intros ei _. exact I.
    - vm_compute. discriminate. }
  assert (H2 : In (exSession (stateAfter exSwitchTrace))
                 (JsMap.values (Server.games (stateAfter exSwitchTrace))))
    by (vm_compute; now left).
  assert (H3 : JsMap.get String.eqb "P1"
                 (GameState.players (exSession (stateAfter exSwitchTrace)))
               = Some (PlayerData.mk "Ann" "Blue" false 1%nat))
    by (vm_compute; reflexivity).
  split; [exact H1|]. split; [exact H2|]. split; [exact H3|].
  exact (known_players_are_on_their_team (stateAfter exSwitchTrace) _ "P1" _
           H1 H2 H3).
Defined.

(** ** Leaving a game *)

(** X25.  [LEAVE_GAME] from a socket without a directory entry is
    ignored.  From any bound socket -- whatever player or host it is
    bound as -- it removes the player the message names from the named
    resident game and then unbinds the sender. *)
Theorem leave_game_removes_named_player :
  forall (env : Env.t) (s : Server.t) (ws : Conn)
         (gameCode playerId : string),
    (JsMap.get Nat.eqb ws (Server.connections s) = None ->
     onMessage env s ws (Some (Req.LEAVE_GAME gameCode playerId))
     = Some (s, []))
    /\ (forall connInfo game,
          JsMap.get Nat.eqb ws (Server.connections s) = Some connInfo ->
          JsMap.get String.eqb gameCode (Server.games s) = Some game ->
          exists s',
            onMessage env s ws (Some (Req.LEAVE_GAME gameCode playerId))
            = Some (s', sendToHost env s gameCode
                          (Ev.PLAYER_LEFT playerId
                             (JsMap.values
                                (GameState.teams
                                   (removePlayer playerId game)))))
            /\ JsMap.get String.eqb gameCode (Server.games s')
               = Some (removePlayer playerId game)
            /\ JsMap.get Nat.eqb ws (Server.connections s') = None
            /\ isHost s' ws = false).
Proof.
  intros env s ws gameCode playerId. split.
  - intros Hnone. unfold onMessage. simpl. unfold handleLeaveGame.
    now rewrite Hnone.
  - intros connInfo game Hconn Hgame. eexists.
    unfold onMessage. simpl. unfold handleLeaveGame.
    rewrite Hconn, Hgame. simpl.
    split.
    { f_equal. f_equal. unfold sendToHost. simpl.
      rewrite (get_set_same _ String.eqb_eq), Hgame. reflexivity. }
    simpl. split; [apply (get_set_same _ String.eqb_eq)|].
    split; [apply get_delete_same|].
    unfold isHost. simpl. now rewrite get_delete_same.
Qed.

(** ** Buzzing again after the queue was cleared *)

(** X26.  After a host's [CLEAR_BUZZERS] the queue of the game is
    empty, so in a started game the next buzz of any known player is
    accepted. *)
Theorem cleared_queue_accepts_next_buzz :
  forall (env : Env.t) (s : Server.t) (ws : Conn) (gameCode : string)
         (game : GameState.t) (now : Z) (playerId : string)
         (player : PlayerData.t),
    hostGuard s ws gameCode = Some game ->
    GameState.gameStarted game = true ->
    JsMap.get String.eqb playerId (GameState.players game) = Some player ->
    exists game',
      gameAfter (onMessage env s ws (Some (Req.CLEAR_BUZZERS gameCode)))
        gameCode = Some game'
      /\ GameState.buzzedPlayers game' = []
      /\ snd (handleBuzz now playerId game') = true
      /\ GameState.buzzedPlayers (fst (handleBuzz now playerId game'))
         = [Buzz.mk playerId (PlayerData.name player)
              (PlayerData.teamName player) now].
Proof.
  intros env s ws gameCode game now playerId player Hguard Hs Hp.
  exists (GameState.set_buzzedPlayers [] game).
  unfold onMessage. simpl. unfold handleClearBuzzers. rewrite Hguard. simpl.
  split; [apply (get_set_same _ String.eqb_eq)|].
  split; [reflexivity|].
  unfold handleBuzz. simpl. rewrite Hp, Hs. simpl. now split.
Qed.

Lemma cleared_queue_accepts_next_buzz_witness :
  hostGuard (stateAfter exBuzzTrace) 0%nat "123456"
  = Some (exSession (stateAfter exBuzzTrace))
  /\ GameState.gameStarted (exSession (stateAfter exBuzzTrace)) = true
  /\ JsMap.get String.eqb "P2"
       (GameState.players (exSession (stateAfter exBuzzTrace)))
     = Some (PlayerData.mk "Bob" "Red" false 2%nat)
  /\ exists game',
       gameAfter
         (onMessage exEnv (stateAfter exBuzzTrace) 0%nat
            (Some (Req.CLEAR_BUZZERS "123456"))) "123456" = Some game'
       /\ snd (handleBuzz 3000 "P2" game') = true.
Proof.
  assert (H1 : hostGuard (stateAfter exBuzzTrace) 0%nat "123456"
               = Some (exSession (stateAfter exBuzzTrace)))
    by (vm_compute; reflexivity).
  assert (H2 : GameState.gameStarted (exSession (stateAfter exBuzzTrace))
               = true) by (vm_compute; reflexivity).
  assert (H3 : JsMap.get String.eqb "P2"
                 (GameState.players (exSession (stateAfter exBuzzTrace)))
               = Some (PlayerData.mk "Bob" "Red" false 2%nat))
    by (vm_compute; reflexivity).
  split; [exact H1|]. split; [exact H2|]. split; [exact H3|].
  destruct (cleared_queue_accepts_next_buzz exEnv (stateAfter exBuzzTrace)
              0%nat "123456" _ 3000 "P2" _ H1 H2 H3)
    as [game' [Hg [_ [Hok _]]]].
  exists game'. now split.
Defined.

Lemma leave_game_removes_named_player_witness :
  JsMap.get Nat.eqb 2%nat (Server.connections exServer)
  = Some (PlayerConn "123456" "P2" "Red")
  /\ JsMap.get String.eqb "123456" (Server.games exServer)
     = Some (exSession exServer)
  /\ exists s',
       gameAfter
         (onMessage exEnv exServer 2%nat (Some (Req.LEAVE_GAME "123456" "P1")))
         "123456"
       = Some (removePlayer "P1" (exSession exServer))
       /\ onMessage exEnv exServer 2%nat (Some (Req.LEAVE_GAME "123456" "P1"))
          = Some (s', sendToHost exEnv exServer "123456"
                        (Ev.PLAYER_LEFT "P1"
                           (JsMap.values
                              (GameState.teams
                                 (removePlayer "P1" (exSession exServer)))))).
Proof.
  assert (H1 : JsMap.get Nat.eqb 2%nat (Server.connections exServer)
               = Some (PlayerConn "123456" "P2" "Red"))
    by (vm_compute; reflexivity).
  assert (H2 : JsMap.get String.eqb "123456" (Server.games exServer)
               = Some (exSession exServer)) by (vm_compute; reflexivity).
  split; [exact H1|]. split; [exact H2|].
  destruct (leave_game_removes_named_player exEnv exServer 2%nat "123456" "P1")
    as [_ Hleave].
  destruct (Hleave _ _ H1 H2) as [s' [Hrun [Hgame _]]].
  exists s'. split; [|exact Hrun].
  rewrite Hrun. exact Hgame.
Defined.

(** ** What no message changes about a resident session *)

Lemma sessionKept_refl (g : GameState.t) : sessionKept g g.
Proof. repeat split; auto. Qed.

Lemma gamesKept_same (s s' : Server.t) :
  Server.games s' = Server.games s -> gamesKept s s'.
Proof.
  intros Heq code g g' Hg Hg'. rewrite Heq, Hg in Hg'. injection Hg' as <-.
  apply sessionKept_refl.
Qed.

Lemma gamesKept_put (s : Server.t) (gameCode : string)
    (game game' : GameState.t) :
  JsMap.get String.eqb gameCode (Server.games s) = Some game ->
  sessionKept game game' ->
  gamesKept s (Server.put_game gameCode game' s).
Proof.
  intros Hgame Hkept code g g' Hg Hg'. simpl in Hg'.
  destruct (String.eqb_spec gameCode code) as [<-|Hne].
  - rewrite (get_set_same _ String.eqb_eq) in Hg'. congruence.
  - rewrite (get_set_other _ String.eqb_eq) in Hg' by exact Hne.
    rewrite Hg in Hg'. injection Hg' as <-. apply sessionKept_refl.
Qed.

Lemma gamesKept_then (s s1 s2 : Server.t) :
  gamesKept s s1 -> Server.games s2 = Server.games s1 -> gamesKept s s2.
Proof. intros H Heq code g g' Hg Hg'. rewrite Heq in Hg'. eauto. Qed.

Lemma get_delete_Some {V : Type} (k k0 : string) (v : V)
    (m : list (string * V)) :
  JsMap.get String.eqb k (JsMap.delete String.eqb k0 m) = Some v ->
  JsMap.get String.eqb k m = Some v.
Proof.
  destruct (String.eqb_spec k0 k) as [<-|Hne].
  - now rewrite get_delete_same.
  - now rewrite (get_delete_other _ String.eqb_eq).
Qed.

Lemma gamesKept_delete (s : Server.t) (gameCode : string) :
  gamesKept s
    (Server.set_games (JsMap.delete String.eqb gameCode (Server.games s)) s).
Proof.
  intros code g g' Hg Hg'. simpl in Hg'. apply get_delete_Some in Hg'.
  rewrite Hg in Hg'. injection Hg' as <-. apply sessionKept_refl.
Qed.

Lemma sweep_fold_get (now : Z) (l acc : list (string * GameState.t))
    (k : string) (v : GameState.t) :
  JsMap.get String.eqb k
    (fold_left
       (fun games e =>
          if oneHour <? now - GameState.createdAt (snd e)
          then JsMap.delete String.eqb (fst e) games
          else games) l acc) = Some v ->
  JsMap.get String.eqb k acc = Some v.
Proof.
  revert acc. induction l as [|e l IH]; intros acc H; simpl in H;
    [exact H|].
  apply IH in H. destruct (oneHour <? _); [|exact H].
  now apply get_delete_Some in H.
Qed.

Lemma chooseCode_fresh (games : list (string * GameState.t))
    (requested : option string) (draws : list N) (gameCode : string) :
  chooseCode games requested draws = Some gameCode ->
  JsMap.get String.eqb gameCode games = None.
Proof.
  intros H. apply (has_false_iff String.eqb). unfold chooseCode in H.
  destruct (truthy_code requested).
  - eapply uniqueCode_fresh; exact H.
  - destruct draws as [|u rest]; [discriminate|].
    eapply uniqueCode_fresh; exact H.
Qed.

Lemma addPlayer_kept (playerId : string) (playerData : PlayerData.t)
    (g : GameState.t) :
  sessionKept g (addPlayer playerId playerData g).
Proof. repeat split; auto. Qed.

Lemma removePlayer_kept (playerId : string) (g : GameState.t) :
  sessionKept g (removePlayer playerId g).
Proof. repeat split; auto. Qed.

Lemma handleBuzz_kept (now : Z) (playerId : string) (g : GameState.t) :
  sessionKept g (fst (handleBuzz now playerId g)).
Proof.
  unfold handleBuzz.
  destruct (JsMap.get String.eqb playerId (GameState.players g));
    [|apply sessionKept_refl].
  destruct (negb (GameState.gameStarted g)); [apply sessionKept_refl|].
  destruct (teamHasBuzzed _ g); [apply sessionKept_refl|].
  repeat split; auto.
Qed.

Lemma finishJoin_gamesKept env s ws j :
  gamesKept s (fst (finishJoin env s ws j)).
Proof.
  unfold finishJoin.
  destruct (JsMap.get String.eqb (Req.gameCode j) (Server.games s))
    as [game|] eqn:G; simpl; [|now apply gamesKept_same].
  eapply gamesKept_then; [|reflexivity].
  apply (gamesKept_put _ _ game); [exact G | apply addPlayer_kept].
Qed.

Lemma handleJoinGame_state env s ws j game :
  JsMap.get String.eqb (Req.gameCode j) (Server.games s) = Some game ->
  fst (fst (handleJoinGame env s ws j)) = fst (finishJoin env s ws j).
Proof.
  intros Hgame. unfold handleJoinGame. rewrite Hgame.
  pose proof (finishJoin_again env s ws j game Hgame) as Hagain.
  destruct (finishJoin env s ws j) as [s1 out1]. simpl in Hagain.
  now rewrite Hagain.
Qed.

Lemma handleJoinGame_gamesKept env s ws j :
  gamesKept s (fst (fst (handleJoinGame env s ws j))).
Proof.
  destruct (JsMap.get String.eqb (Req.gameCode j) (Server.games s))
    as [game|] eqn:G.
  - rewrite (handleJoinGame_state env s ws j game G).
    apply finishJoin_gamesKept.
  - unfold handleJoinGame. rewrite G. now apply gamesKept_same.
Qed.

Lemma handleDisconnection_gamesKept env s ws :
  gamesKept s (fst (handleDisconnection env s ws)).
Proof.
  unfold handleDisconnection.
  destruct (JsMap.get Nat.eqb ws (Server.connections s)) as [c|];
    [|now apply gamesKept_same].
  destruct (JsMap.get String.eqb (conn_gameCode c) (Server.games s))
    as [game|] eqn:G; [|now apply gamesKept_same].
  destruct c as [code hid|code pid tn]; simpl in *.
  - now apply gamesKept_same.
  - eapply gamesKept_then; [|reflexivity].
    apply (gamesKept_put _ _ game); [exact G|]. repeat split; auto.
Qed.

Lemma handleMessage_gamesKept env s ws message s' out threw :
  handleMessage env s ws message = Some (s', out, threw) ->
  gamesKept s s'.
Proof.
  intros E. destruct message; simpl in E; unfold noThrow in E.
  - (* CREATE_GAME *)
    unfold handleCreateGame in E.
    destruct (chooseCode _ _ _) as [code|] eqn:Hc; [|discriminate].
    simpl in E. injection E as <- _ _.
    apply chooseCode_fresh in Hc.
    intros c g g' Hg Hg'. simpl in Hg'.
    destruct (String.eqb_spec code c) as [<-|Hne]; [congruence|].
    rewrite (get_set_other _ String.eqb_eq) in Hg' by exact Hne.
    rewrite Hg in Hg'. injection Hg' as <-. apply sessionKept_refl.
  - injection E as E.
    pose proof (handleJoinGame_gamesKept env s ws j) as H.
    now rewrite E in H.
  - injection E as E.
    pose proof (handleJoinGame_gamesKept env s ws j) as H.
    now rewrite E in H.
  - (* GAME_STARTED *)
    injection E as <- _ _. unfold handleGameStarted.
    destruct (hostGuard s ws gameCode) as [game|] eqn:G;
      [|now apply gamesKept_same].
    apply hostGuard_game in G. simpl.
    apply (gamesKept_put _ _ game); [exact G|]. repeat split; auto.
  - (* ROUND_UPDATE *)
    injection E as <- _ _. unfold handleRoundUpdate.
    destruct (hostGuard s ws gameCode) as [game|] eqn:G;
      [|now apply gamesKept_same].
    apply hostGuard_game in G. simpl.
    apply (gamesKept_put _ _ game); [exact G|]. repeat split; auto.
  - (* PLAYER_BUZZ *)
    injection E as <- _ _. unfold handlePlayerBuzz.
    destruct (JsMap.get String.eqb gameCode (Server.games s))
      as [game|] eqn:G; [|now apply gamesKept_same].
    pose proof (handleBuzz_kept (Env.now env) playerId game) as Hk.
    destruct (handleBuzz (Env.now env) playerId game) as [game' success].
    simpl in *. now apply (gamesKept_put _ _ game).
  - (* CLEAR_BUZZERS *)
    injection E as <- _ _. unfold handleClearBuzzers.
    destruct (hostGuard s ws gameCode) as [game|] eqn:G;
      [|now apply gamesKept_same].
    apply hostGuard_game in G. simpl.
    apply (gamesKept_put _ _ game); [exact G|]. repeat split; auto.
  - (* CLEAR_PLAYER_BUZZ *)
    injection E as <- _ _. unfold handleClearPlayerBuzz.
    destruct (hostGuard s ws gameCode) as [game|] eqn:G;
      [|now apply gamesKept_same].
    apply hostGuard_game in G.
    destruct (spliceBuzz _ _) as [[c r]|]; [|now apply gamesKept_same].
    simpl. apply (gamesKept_put _ _ game); [exact G|]. repeat split; auto.
  - (* ENABLE_SCORING *)
    injection E as <- _ _. unfold handleEnableScoring.
    destruct (hostGuard s ws gameCode) as [game|] eqn:G;
      [|now apply gamesKept_same].
    apply hostGuard_game in G. simpl.
    apply (gamesKept_put _ _ game); [exact G|]. repeat split; auto.
  - (* SUBMIT_SCORE *)
    destruct (handleSubmitScore_cases _ _ _ _ _ _ _ E)
      as [->|[game [team [rs [G [_ ->]]]]]]; [now apply gamesKept_same|].
    apply (gamesKept_put _ _ game); [exact G|]. repeat split; auto.
  - (* MANAGER_CHANGED *)
    injection E as <- _ _. unfold handleManagerChanged.
    destruct (hostGuard s ws gameCode) as [game|] eqn:G;
      [|now apply gamesKept_same].
    apply hostGuard_game in G.
    destruct (JsMap.get String.eqb teamName (GameState.teams game));
      [|now apply gamesKept_same].
    simpl. apply (gamesKept_put _ _ game); [exact G|]. repeat split; auto.
  - (* SCORE_UPDATED *)
    injection E as <- _ _. unfold handleScoreUpdated.
    destruct (hostGuard s ws gameCode) as [game|] eqn:G;
      [|now apply gamesKept_same].
    apply hostGuard_game in G.
    destruct (JsMap.get String.eqb teamName (GameState.teams game));
      [|now apply gamesKept_same].
    simpl. apply (gamesKept_put _ _ game); [exact G|]. repeat split; auto.
  - (* REVEAL_FINAL_SCORES *)
    injection E as <- _ _. unfold handleRevealFinalScores.
    destruct (hostGuard s ws gameCode) as [game|] eqn:G;
      [|now apply gamesKept_same].
    apply hostGuard_game in G. simpl.
    apply (gamesKept_put _ _ game); [exact G|]. repeat split; auto.
  - (* LEAVE_GAME *)
    injection E as <- _ _. unfold handleLeaveGame.
    destruct (JsMap.get Nat.eqb ws (Server.connections s));
      [|now apply gamesKept_same].
    destruct (JsMap.get String.eqb gameCode (Server.games s))
      as [game|] eqn:G; simpl; [|now apply gamesKept_same].
    eapply gamesKept_then; [|reflexivity].
    apply (gamesKept_put _ _ game); [exact G | apply removePlayer_kept].
  - injection E as <- _ _. apply handleDisconnection_gamesKept.
  - injection E as <- _ _. unfold handleGetTeams.
    destruct (JsMap.get String.eqb gameCode (Server.games s));
      now apply gamesKept_same.
  - injection E as <- _ _. now apply gamesKept_same.
Qed.

(** X27.  No message, disconnection, timer or sweep changes the
    identity of a session that is resident before and after it: its
    game code, host id, host connection and creation time stay, and
    [gameStarted] and [gameEnded], once true, stay true.  Only the
    resolution of a pending load is not covered: it replaces the
    session by the stored one. *)
Theorem step_keeps_resident_sessions :
  forall (env : Env.t) (s : Server.t) (i : Input) (s' : Server.t)
         (out : list Send) (gameCode : string) (g g' : GameState.t),
    notLoadResolved i ->
    step env s i = Some (s', out) ->
    JsMap.get String.eqb gameCode (Server.games s) = Some g ->
    JsMap.get String.eqb gameCode (Server.games s') = Some g' ->
    GameState.gameCode g' = GameState.gameCode g
    /\ GameState.hostId g' = GameState.hostId g
    /\ GameState.hostConnection g' = GameState.hostConnection g
    /\ GameState.createdAt g' = GameState.createdAt g
    /\ (GameState.gameStarted g = true -> GameState.gameStarted g' = true)
    /\ (GameState.gameEnded g = true -> GameState.gameEnded g' = true).
Proof.
  intros env s i s' out gameCode g g' Hallowed Hstep Hg Hg'.
  assert (Hkept : gamesKept s s').
  { destruct i as [ws data|ws|k|k|]; simpl in Hstep.
    - destruct data as [message|]; simpl in Hstep.
      + destruct (handleMessage env s ws message) as [[[s1 o1] t1]|] eqn:E;
          [|discriminate].
        injection Hstep as <- _. eapply handleMessage_gamesKept; exact E.
      + injection Hstep as <- _. now apply gamesKept_same.
    - injection Hstep as Hs.
      pose proof (handleDisconnection_gamesKept env s ws) as H.
      now rewrite Hs in H.
    - elim Hallowed.
    - injection Hstep as <- _. unfold cleanupTimer.
      destruct (nth_error (Server.cleanupTimers s) k);
        [|now apply gamesKept_same].
      eapply gamesKept_then; [apply gamesKept_delete | reflexivity].
    - injection Hstep as <- _. intros c x x' Hx Hx'. simpl in Hx'.
      apply sweep_fold_get in Hx'. rewrite Hx in Hx'. injection Hx' as <-.
      apply sessionKept_refl. }
  exact (Hkept gameCode g g' Hg Hg').
Qed.

Lemma step_keeps_resident_sessions_witness :
  notLoadResolved (OnMessage 1%nat (Some (Req.SUBMIT_SCORE exSubmit)))
  /\ step exEnv exServer (OnMessage 1%nat (Some (Req.SUBMIT_SCORE exSubmit)))
     = Some (stateAfter exSubmitTrace,
             [(0%nat, Ev.SCORE_SUBMITTED "Red" 50 (Fin 4) (Fin 50)
                        [None; None; None; None; Some 50]);
              (1%nat, Ev.SCORE_CONFIRMED 50 (Fin 50))])
  /\ JsMap.get String.eqb "123456" (Server.games exServer)
     = Some (exSession exServer)
  /\ JsMap.get String.eqb "123456" (Server.games (stateAfter exSubmitTrace))
     = Some (exSession (stateAfter exSubmitTrace))
  /\ GameState.hostConnection (exSession (stateAfter exSubmitTrace))
     = GameState.hostConnection (exSession exServer).
Proof.
  assert (H1 : notLoadResolved
                 (OnMessage 1%nat (Some (Req.SUBMIT_SCORE exSubmit))))
    by exact I.
  assert (H2 : step exEnv exServer
                 (OnMessage 1%nat (Some (Req.SUBMIT_SCORE exSubmit)))
               = Some (stateAfter exSubmitTrace,
                       [(0%nat, Ev.SCORE_SUBMITTED "Red" 50 (Fin 4) (Fin 50)
                                  [None; None; None; None; Some 50]);
                        (1%nat, Ev.SCORE_CONFIRMED 50 (Fin 50))]))
    by (vm_compute; reflexivity).
  assert (H3 : JsMap.get String.eqb "123456" (Server.games exServer)
               = Some (exSession exServer)) by (vm_compute; reflexivity).
  assert (H4 : JsMap.get String.eqb "123456"
                 (Server.games (stateAfter exSubmitTrace))
               = Some (exSession (stateAfter exSubmitTrace)))
    by (vm_compute; reflexivity).
  split; [exact H1|]. split; [exact H2|]. split; [exact H3|].
  split; [exact H4|].
  destruct (step_keeps_resident_sessions exEnv exServer _ _ _ "123456" _ _
              H1 H2 H3 H4) as [_ [_ [Hhost _]]].
  exact Hhost.
Defined.

Lemma spliceBuzz_takes_first_record_witness :
  spliceBuzz "P1" (GameState.buzzedPlayers (exSession (stateAfter exSwitchTrace)))
  = Some (Buzz.mk "P1" "Ann" "Red" 1000, [Buzz.mk "P2" "Bob" "Red" 1000])
  /\ exists before after,
       GameState.buzzedPlayers (exSession (stateAfter exSwitchTrace))
       = before ++ Buzz.mk "P1" "Ann" "Red" 1000 :: after
       /\ [Buzz.mk "P2" "Bob" "Red" 1000] = before ++ after.
Proof.
  assert (H1 : spliceBuzz "P1"
                 (GameState.buzzedPlayers (exSession (stateAfter exSwitchTrace)))
               = Some (Buzz.mk "P1" "Ann" "Red" 1000,
                       [Buzz.mk "P2" "Bob" "Red" 1000]))
    by (vm_compute; reflexivity).
  split; [exact H1|].
  destruct (spliceBuzz_takes_first_record "P1"
              (GameState.buzzedPlayers (exSession (stateAfter exSwitchTrace))))
    as [Hsome _].
  destruct (Hsome _ _ H1) as [before [after [Hq [Hr _]]]].
  exists before, after. now split.
Defined.

Lemma refused_buzz_only_answers_sender_witness :
  JsMap.get String.eqb "123456" (Server.games (stateAfter exBuzzTrace))
  = Some (exSession (stateAfter exBuzzTrace))
  /\ snd (handleBuzz (Env.now exEnv) "P2" (exSession (stateAfter exBuzzTrace)))
     = false
  /\ onMessage exEnv (stateAfter exBuzzTrace) 2%nat
       (Some (Req.PLAYER_BUZZ "123456" "P2" "Bob" "Red"))
     = Some (stateAfter exBuzzTrace,
             [(2%nat, Ev.BUZZ_RESPONSE (Some "P2") false
                        "Team already buzzed or game not started")]).
Proof.
  assert (H1 : JsMap.get String.eqb "123456"
                 (Server.games (stateAfter exBuzzTrace))
               = Some (exSession (stateAfter exBuzzTrace)))
    by (vm_compute; reflexivity).
  assert (H2 : snd (handleBuzz (Env.now exEnv) "P2"
                      (exSession (stateAfter exBuzzTrace))) = false)
    by (vm_compute; reflexivity).
  split; [exact H1|]. split; [exact H2|].
  destruct (refused_buzz_only_answers_sender exEnv (stateAfter exBuzzTrace)
              2%nat "123456" "P2" "Bob" "Red") as [Hrefused _].
  exact (Hrefused _ H1 H2).
Defined.

(** ** What a step does to the scores of a team *)

Ltac kept :=
  repeat split; try assumption; try reflexivity;
  try (match goal with
       | H : sameScores _ _ |- _ => destruct H; assumption
       end).

Lemma teamScoresKept_refl (teamName : string) (g : GameState.t) :
  teamScoresKept teamName g g.
Proof. intros team' H. left. exists team'. kept. Qed.

























(** ** A session without a games array *)

